(** * sarasoobot: the price and news aggregation pipeline of [main.py]

    A shallow embedding of the data-handling functions of the bot
    ([is_user_member], [fetch_prices], [fetch_news],
    [format_time_difference], [restricted_handler]) and of its command
    handlers ([cmd_help], [cmd_price], [cmd_news], [keyword_handler]),
    the properties its specification states about them, and further
    properties read off the code.

    Conventions of the embedding.
    - A Python [str] is a [string] holding the UTF-8 encoding of the text;
      substring tests and comma removal act on it byte-wise, which agrees
      with the code-point-wise Python operations on valid UTF-8.
    - A Python [float] is an IEEE 754 binary64 value, a [spec_float] with
      precision 53 and maximal exponent 1024; arithmetic is the Standard
      Library's specification of the IEEE operations.
    - A computation that can raise is a [result]; the collaborators the
      code awaits (HTTP, the membership lookup, the wall clock, the
      Telegram API) are inputs of the embedded functions, and so are
      [datetime.fromisoformat] and [str.lower]. *)

From Stdlib Require Import ZArith NArith List String Ascii Bool Lia.
From Stdlib Require Import SpecFloat DecimalString.
From Stdlib Require DecimalPos DecimalN.
Import ListNotations.

Local Open Scope string_scope.
Local Open Scope Z_scope.

(** ** Exceptions and fallible computations *)

Inductive exn : Type :=
| ValueError
| TypeError
| AttributeError
| OverflowError
| ZeroDivisionError
| HTTPError.

Inductive result (A : Type) : Type :=
| Ok (a : A)
| Raise (e : exn).

Arguments Ok {A} a.
Arguments Raise {A} e.

Definition bind {A B : Type} (c : result A) (k : A -> result B) : result B :=
  match c with
  | Ok a => k a
  | Raise e => Raise e
  end.

Definition is_ok {A : Type} (c : result A) : bool :=
  match c with
  | Ok _ => true
  | Raise _ => false
  end.

Declare Scope py_scope.
Delimit Scope py_scope with py.
Notation "x <- c ;; k" := (bind c (fun x => k))
  (at level 61, c at next level, right associativity) : py_scope.
Local Open Scope py_scope.

(** ** Python strings *)

Module PyStr.

(** [s.replace(c, "")] for a one-character [c]. *)
Fixpoint remove_char (c : ascii) (s : string) : string :=
  match s with
  | EmptyString => EmptyString
  | String a s' =>
      if Ascii.eqb a c then remove_char c s' else String a (remove_char c s')
  end.

(** [k in s]: substring containment. *)
Fixpoint contains (k s : string) : bool :=
  prefix k s ||
  match s with
  | EmptyString => false
  | String _ s' => contains k s'
  end.

(** [any(k in s for k in ks)]. *)
Definition any_in (ks : list string) (s : string) : bool :=
  existsb (fun k => contains k s) ks.

Fixpoint rev_string (acc s : string) : string :=
  match s with
  | EmptyString => acc
  | String a s' => rev_string (String a acc) s'
  end.

(** The characters [str.isspace] accepts, by their UTF-8 encodings:
    U+0009..U+000D, U+001C..U+0020; U+0085, U+00A0; U+1680,
    U+2000..U+200A, U+2028, U+2029, U+202F, U+205F, U+3000. *)
Definition is_space1 (a : ascii) : bool :=
  let n := nat_of_ascii a in
  ((9 <=? n) && (n <=? 13) || (28 <=? n) && (n <=? 32))%nat.

Definition is_space2 (a b : ascii) : bool :=
  let x := nat_of_ascii a in
  let y := nat_of_ascii b in
  ((x =? 194) && ((y =? 133) || (y =? 160)))%nat.

Definition is_space3 (a b c : ascii) : bool :=
  let x := nat_of_ascii a in
  let y := nat_of_ascii b in
  let z := nat_of_ascii c in
  ((x =? 225) && (y =? 154) && (z =? 128)
   || (x =? 226) && (y =? 128)
      && ((128 <=? z) && (z <=? 138) || (z =? 168) || (z =? 169) || (z =? 175))
   || (x =? 226) && (y =? 129) && (z =? 159)
   || (x =? 227) && (y =? 128) && (z =? 128))%nat.

(** Drop the white space at the front of [s]. With [back] set the
    string is read last byte first, so that the same scan drops the
    white space at the end of the text. *)
Fixpoint strip_front (back : bool) (s : string) : string :=
  match s with
  | EmptyString => s
  | String a s1 =>
      if is_space1 a then strip_front back s1
      else
        match s1 with
        | EmptyString => s
        | String b s2 =>
            if (if back then is_space2 b a else is_space2 a b)
            then strip_front back s2
            else
              match s2 with
              | EmptyString => s
              | String c s3 =>
                  if (if back then is_space3 c b a else is_space3 a b c)
                  then strip_front back s3
                  else s
              end
        end
  end.

Definition lstrip (s : string) : string := strip_front false s.

Definition rstrip (s : string) : string :=
  rev_string "" (strip_front true (rev_string "" s)).

(** [s.strip()]. *)
Definition strip (s : string) : string := rstrip (lstrip s).

(** Decimal digits of a natural number, and the [","] grouping of the
    format specification: a comma before every group of three digits
    counted from the right. *)
Definition digits_of_N (n : N) : list ascii :=
  list_ascii_of_string (NilEmpty.string_of_uint (N.to_uint n)).

Fixpoint group3 (rev_digits : list ascii) : list ascii :=
  match rev_digits with
  | a :: b :: c :: ((_ :: _) as more) => a :: b :: c :: ","%char :: group3 more
  | _ => rev_digits
  end.

Definition grouped (n : N) : string :=
  string_of_list_ascii (rev (group3 (rev (digits_of_N n)))).

Definition plain (n : N) : string :=
  string_of_list_ascii (digits_of_N n).

End PyStr.

(** ** Python floats *)

Module PyFloat.

Definition prec : Z := 53.
Definition emax : Z := 1024.

Definition zero : spec_float := S754_zero false.

(** The float nearest to an integer ([float(n)], and the conversion of
    an [int] operand of a float operation). *)
Definition of_Z (z : Z) : spec_float := binary_normalize prec emax z 0 false.

Definition one : spec_float := Eval cbv in of_Z 1.
Definition ten : spec_float := Eval cbv in of_Z 10.
Definition sixty : spec_float := Eval cbv in of_Z 60.
Definition half : spec_float := Eval cbv in SFdiv prec emax (of_Z 1) (of_Z 2).

Definition fdiv (x y : spec_float) : spec_float := SFdiv prec emax x y.
Definition fsub (x y : spec_float) : spec_float := SFsub prec emax x y.
Definition fadd (x y : spec_float) : spec_float := SFadd prec emax x y.

(** [x < y] and [x > y]; false when either side is a NaN. *)
Definition flt (x y : spec_float) : bool := SFltb x y.
Definition fgt (x y : spec_float) : bool := SFltb y x.

(** [a / b] on two [int]s with [b > 0]: the quotient rounded once. *)
Definition int_true_div (a : Z) (b : positive) : spec_float :=
  match a with
  | Z0 => S754_zero false
  | Zpos m => SFdiv prec emax (S754_finite false m 0) (S754_finite false b 0)
  | Zneg m => SFdiv prec emax (S754_finite true m 0) (S754_finite false b 0)
  end.

(** [int(x)]: truncation towards zero; a NaN raises [ValueError] and an
    infinity [OverflowError]. *)
Definition magnitude_floor (m : positive) (e : Z) : Z :=
  if 0 <=? e then Zpos m * 2 ^ e else Zpos m / 2 ^ (- e).

Definition to_int (x : spec_float) : result Z :=
  match x with
  | S754_nan => Raise ValueError
  | S754_infinity _ => Raise OverflowError
  | S754_zero _ => Ok 0
  | S754_finite s m e =>
      Ok (if s then - magnitude_floor m e else magnitude_floor m e)
  end.

(** C's [floor] on a double. *)
Definition floor (x : spec_float) : spec_float :=
  match x with
  | S754_finite s m e =>
      if 0 <=? e then x
      else
        let q := Zpos m / 2 ^ (- e) in
        let r := Zpos m mod 2 ^ (- e) in
        if s then binary_normalize prec emax (- (if r =? 0 then q else q + 1)) 0 true
        else of_Z q
  | _ => x
  end.

(** C's [fmod]: the exact remainder, with the sign of the dividend. *)
Definition fmod (x y : spec_float) : spec_float :=
  match x, y with
  | S754_nan, _ | _, S754_nan => S754_nan
  | S754_infinity _, _ => S754_nan
  | _, S754_zero _ => S754_nan
  | _, S754_infinity _ => x
  | S754_zero _, _ => x
  | S754_finite sx mx ex, S754_finite _ my ey =>
      let e0 := Z.min ex ey in
      let r := (Zpos mx * 2 ^ (ex - e0)) mod (Zpos my * 2 ^ (ey - e0)) in
      binary_normalize prec emax (if sx then - r else r) e0 sx
  end.

Definition is_nonzero (x : spec_float) : bool :=
  match x with
  | S754_zero _ => false
  | _ => true
  end.

Definition sign_of (x : spec_float) : bool :=
  match x with
  | S754_zero s | S754_infinity s | S754_finite s _ _ => s
  | S754_nan => false
  end.

(** [vx // wx] on floats, as CPython computes it: the remainder by
    [fmod], the quotient of the difference, the sign adjustment, and
    the snap to the nearest integral value. *)
Definition floor_div (vx wx : spec_float) : result spec_float :=
  if negb (is_nonzero wx) then Raise ZeroDivisionError
  else
    let md := fmod vx wx in
    let div := fdiv (fsub vx md) wx in
    let div :=
      if is_nonzero md && negb (Bool.eqb (flt wx zero) (flt md zero))
      then fsub div one else div in
    if is_nonzero div then
      let fl := floor div in
      Ok (if fgt (fsub div fl) half then fadd fl one else fl)
    else Ok (S754_zero (sign_of (fdiv vx wx))).

(** *** [float(s)] on a string

    The grammar of CPython's [float]: optional white space around an
    optionally signed decimal numeral with optional fraction and
    exponent, or [inf], [infinity], [nan] in any letter case; single
    underscores may separate digits. The decimal value is rounded once
    to the nearest float; overflow gives an infinity and underflow a
    zero. Before parsing, CPython maps every character outside ASCII to
    a space when [str.isspace] accepts it and to its ASCII digit when it
    is a decimal digit; any other such character makes the parse fail.
    [None] stands for [ValueError]. *)

Definition is_digit (c : ascii) : bool :=
  let n := nat_of_ascii c in ((48 <=? n) && (n <=? 57))%nat.

Definition digit_val (c : ascii) : Z := Z.of_nat (nat_of_ascii c) - 48.

Definition is_float_space (c : ascii) : bool :=
  let n := nat_of_ascii c in ((9 <=? n) && (n <=? 13) || (n =? 32))%nat.

Definition lower (c : ascii) : ascii :=
  let n := nat_of_ascii c in
  if ((65 <=? n) && (n <=? 90))%nat then ascii_of_nat (n + 32) else c.

Fixpoint span_digits (s : list ascii) : list ascii * list ascii :=
  match s with
  | c :: r =>
      if is_digit c then let (d, t) := span_digits r in (c :: d, t)
      else ([], s)
  | [] => ([], [])
  end.

Definition digits_value (ds : list ascii) : Z :=
  fold_left (fun acc c => 10 * acc + digit_val c) ds 0.

Definition take_sign (s : list ascii) : bool * list ascii :=
  match s with
  | c :: r =>
      if Ascii.eqb c "-" then (true, r)
      else if Ascii.eqb c "+" then (false, r)
      else (false, s)
  | [] => (false, s)
  end.

(** The float nearest to [m * 10 ^ scale], [m] written with at most
    [ndigits] digits. *)
Definition decimal_to_float (neg : bool) (m scale ndigits : Z) : spec_float :=
  match m with
  | Zpos p =>
      if 400 <? scale then S754_infinity neg
      else if ndigits + scale <? -400 then S754_zero neg
      else if 0 <=? scale then
        binary_normalize prec emax
          (if neg then - (Zpos p * 10 ^ scale) else Zpos p * 10 ^ scale) 0 neg
      else
        SFdiv prec emax (S754_finite neg p 0)
          (S754_finite false (Z.to_pos (10 ^ (- scale))) 0)
  | _ => S754_zero neg
  end.

(** The code points of the digit zero of the decimal digit runs outside
    ASCII, each followed by its digits one to nine (the character
    database of CPython 3.11, Unicode 14.0). *)
Definition decimal_zeros : list Z :=
  [
    1632; 1776; 1984; 2406; 2534; 2662; 2790; 2918;
    3046; 3174; 3302; 3430; 3558; 3664; 3792; 3872;
    4160; 4240; 6112; 6160; 6470; 6608; 6784; 6800;
    6992; 7088; 7232; 7248; 42528; 43216; 43264; 43472;
    43504; 43600; 44016; 65296; 66720; 68912; 69734; 69872;
    69942; 70096; 70384; 70736; 70864; 71248; 71360; 71472;
    71904; 72016; 72784; 73040; 73120; 92768; 92864; 93008;
    120782; 120792; 120802; 120812; 120822; 123200; 123632; 125264;
    130032 ].

Definition unicode_decimal (cp : Z) : option Z :=
  match find (fun z => (z <=? cp) && (cp <=? z + 9)) decimal_zeros with
  | Some z => Some (cp - z)
  | None => None
  end.

(** The code points outside ASCII that [str.isspace] accepts. *)
Definition unicode_space (cp : Z) : bool :=
  (cp =? 133) || (cp =? 160) || (cp =? 5760)
  || (8192 <=? cp) && (cp <=? 8202)
  || (cp =? 8232) || (cp =? 8233) || (cp =? 8239) || (cp =? 8287)
  || (cp =? 12288).

Definition byte_of (c : ascii) : Z := Z.of_nat (nat_of_ascii c).

(** The payload of a UTF-8 continuation byte. *)
Definition continuation (c : ascii) : option Z :=
  let y := byte_of c in
  if (128 <=? y) && (y <=? 191) then Some (y - 128) else None.

(** The ASCII character that stands for a code point outside ASCII. *)
Definition ascii_for (cp : Z) : option ascii :=
  if unicode_space cp then Some " "%char
  else
    match unicode_decimal cp with
    | Some d => Some (ascii_of_nat (48 + Z.to_nat d))
    | None => None
    end.

Definition emit (cp least : Z) (rest : option (list ascii))
  : option (list ascii) :=
  if cp <? least then None
  else
    match ascii_for cp, rest with
    | Some ch, Some l => Some (ch :: l)
    | _, _ => None
    end.

(** The text handed to the parser: ASCII characters as they are, the
    other characters, read from their UTF-8 encoding, replaced as said
    above. *)
Fixpoint to_ascii (s : list ascii) : option (list ascii) :=
  match s with
  | [] => Some []
  | a :: r1 =>
      let x := byte_of a in
      if x <? 127 then
        match to_ascii r1 with
        | Some l => Some (a :: l)
        | None => None
        end
      else
        match r1 with
        | [] => None
        | b :: r2 =>
            if (194 <=? x) && (x <=? 223) then
              match continuation b with
              | Some y => emit ((x - 192) * 64 + y) 128 (to_ascii r2)
              | None => None
              end
            else
              match r2 with
              | [] => None
              | c :: r3 =>
                  if (224 <=? x) && (x <=? 239) then
                    match continuation b, continuation c with
                    | Some y, Some z =>
                        emit ((x - 224) * 4096 + y * 64 + z) 2048 (to_ascii r3)
                    | _, _ => None
                    end
                  else
                    match r3 with
                    | [] => None
                    | d :: r4 =>
                        if (240 <=? x) && (x <=? 244) then
                          match continuation b, continuation c, continuation d with
                          | Some y, Some z, Some w =>
                              emit ((x - 240) * 262144 + y * 4096 + z * 64 + w)
                                65536 (to_ascii r4)
                          | _, _, _ => None
                          end
                        else None
                    end
              end
        end
  end.

Definition is_exp_mark (c : ascii) : bool :=
  Ascii.eqb c "e" || Ascii.eqb c "E".

Definition parse_number (s : list ascii) : option spec_float :=
  let (neg, s0) := take_sign s in
  let (ip, r1) := span_digits s0 in
  let (fp, r2) :=
    match r1 with
    | c :: r => if Ascii.eqb c "." then span_digits r else ([], r1)
    | [] => ([], r1)
    end in
  match (ip ++ fp)%list with
  | [] => None
  | ds =>
      let mk (ex : Z) :=
        decimal_to_float neg (digits_value ds)
          (ex - Z.of_nat (List.length fp)) (Z.of_nat (List.length ds)) in
      match r2 with
      | [] => Some (mk 0)
      | c :: r3 =>
          if is_exp_mark c then
            let (eneg, r4) := take_sign r3 in
            let (ed, r5) := span_digits r4 in
            match ed, r5 with
            | _ :: _, [] =>
                Some (mk (if eneg then - digits_value ed else digits_value ed))
            | _, _ => None
            end
          else None
      end
  end.

Definition parse_inf_nan (s : list ascii) : option spec_float :=
  let (neg, s0) := take_sign s in
  let w := string_of_list_ascii (map lower s0) in
  if String.eqb w "inf" || String.eqb w "infinity" then Some (S754_infinity neg)
  else if String.eqb w "nan" then Some S754_nan
  else None.

Fixpoint drop_spaces (s : list ascii) : list ascii :=
  match s with
  | c :: r => if is_float_space c then drop_spaces r else s
  | [] => []
  end.

Definition trim_spaces (s : list ascii) : list ascii :=
  rev (drop_spaces (rev (drop_spaces s))).

(** Underscores are accepted only between two digits. *)
Fixpoint underscores_ok (prev : ascii) (s : list ascii) : bool :=
  match s with
  | [] => negb (Ascii.eqb prev "_")
  | c :: r =>
      (if Ascii.eqb c "_" then is_digit prev
       else negb (Ascii.eqb prev "_") || is_digit c)
      && underscores_ok c r
  end.

Definition parse_trimmed (s : list ascii) : option spec_float :=
  let t := trim_spaces s in
  match parse_number t with
  | Some x => Some x
  | None => parse_inf_nan t
  end.

Definition py_float (s : string) : option spec_float :=
  match to_ascii (list_ascii_of_string s) with
  | None => None
  | Some l =>
      if existsb (fun c => Ascii.eqb c "_") l then
        if underscores_ok Ascii.zero l
        then parse_trimmed (filter (fun c => negb (Ascii.eqb c "_")) l)
        else None
      else parse_trimmed l
  end.

(** *** Formatting *)

(** [n / d] rounded to the nearest integer, ties to even ([d > 0]). *)
Definition round_half_even (n d : Z) : Z :=
  let q := n / d in
  match (2 * (n mod d)) ?= d with
  | Lt => q
  | Gt => q + 1
  | Eq => if Z.even q then q else q + 1
  end.

(** The magnitude [m * 2 ^ e] in hundredths, correctly rounded. *)
Definition hundredths (m : positive) (e : Z) : Z :=
  if 0 <=? e then Zpos m * 2 ^ e * 100
  else round_half_even (Zpos m * 100) (2 ^ (- e)).

Definition two_digits (n : Z) : string :=
  (if n <? 10 then "0" else "") ++ PyStr.plain (Z.to_N n).

Definition fixed2_grouped (neg : bool) (h : Z) : string :=
  (if neg then "-" else "")
    ++ PyStr.grouped (Z.to_N (h / 100)) ++ "." ++ two_digits (h mod 100).

(** [f"{x:,.2f}"]. *)
Definition format_2f (x : spec_float) : string :=
  match x with
  | S754_nan => "nan"
  | S754_infinity s => if s then "-inf" else "inf"
  | S754_zero s => fixed2_grouped s 0
  | S754_finite s m e => fixed2_grouped s (hundredths m e)
  end.

(** [f"{n:,}"] on an [int]. *)
Definition format_int (n : Z) : string :=
  (if n <? 0 then "-" else "") ++ PyStr.grouped (Z.abs_N n).

End PyFloat.

(** ** Dates and times

    A [datetime] is its wall-clock reading in microseconds (counted from
    the first instant the type represents) together with the offset of
    its [tzinfo] from UTC, also in microseconds; a naive datetime has no
    [tzinfo]. *)

Record datetime : Type := mkDatetime { wall : Z ; tzinfo : option Z }.

(** [datetime.now(timezone.utc)] when the clock reads [t]. *)
Definition utc_datetime (t : Z) : datetime :=
  {| wall := t ; tzinfo := Some 0 |}.

(** [d.replace(tzinfo=timezone.utc)]. *)
Definition replace_tzinfo_utc (d : datetime) : datetime :=
  {| wall := wall d ; tzinfo := Some 0 |}.

(** [a - b] in microseconds; mixing a naive and an aware operand raises
    [TypeError]. *)
Definition datetime_sub (a b : datetime) : result Z :=
  match tzinfo a, tzinfo b with
  | Some oa, Some ob => Ok ((wall a - oa) - (wall b - ob))
  | None, None => Ok (wall a - wall b)
  | _, _ => Raise TypeError
  end.

(** ** JSON documents as Python values *)

#[local] Unset Elimination Schemes.

Inductive json : Type :=
| JNull
| JBool (b : bool)
| JInt (n : Z)
| JFloat (x : spec_float)
| JStr (s : string)
| JArr (l : list json)
| JObj (d : list (string * json)).

#[local] Set Elimination Schemes.

Module PyDict.

(** A [dict] is the list of its items in insertion order. *)
Fixpoint get {V : Type} (k : string) (d : list (string * V)) : option V :=
  match d with
  | [] => None
  | (k', v) :: r => if String.eqb k' k then Some v else get k r
  end.

(** [d[k] = v]: the value of an existing key is replaced in place, a
    new key is added at the end. *)
Fixpoint set {V : Type} (k : string) (v : V) (d : list (string * V))
  : list (string * V) :=
  match d with
  | [] => [(k, v)]
  | (k', v') :: r =>
      if String.eqb k' k then (k', v) :: r else (k', v') :: set k v r
  end.

Definition keys {V : Type} (d : list (string * V)) : list string :=
  map fst d.

End PyDict.

Module PyJson.

(** Truth value of a JSON value, as [not entry] tests it. *)
Definition truthy (v : json) : bool :=
  match v with
  | JNull => false
  | JBool b => b
  | JInt n => negb (n =? 0)
  | JFloat x => PyFloat.is_nonzero x
  | JStr s => negb (String.eqb s "")
  | JArr l => match l with [] => false | _ => true end
  | JObj d => match d with [] => false | _ => true end
  end.

(** [v.get(k, default)]: only a [dict] has the method. *)
Definition get (v : json) (k : string) (default : json) : result json :=
  match v with
  | JObj d =>
      Ok (match PyDict.get k d with Some x => x | None => default end)
  | _ => Raise AttributeError
  end.

Definition is_str (k : string) (v : json) : bool :=
  match v with
  | JStr s => String.eqb s k
  | _ => false
  end.

(** [k in v] for a string [k]: key membership in a [dict], element
    membership in a [list], substring test in a [str]; the other
    values are not containers. *)
Definition contains (k : string) (v : json) : result bool :=
  match v with
  | JObj d => Ok (match PyDict.get k d with Some _ => true | None => false end)
  | JArr l => Ok (existsb (is_str k) l)
  | JStr s => Ok (PyStr.contains k s)
  | _ => Raise TypeError
  end.

(** [v.replace(",", "")]: only a [str] has the method. *)
Definition replace_commas (v : json) : result string :=
  match v with
  | JStr s => Ok (PyStr.remove_char "," s)
  | _ => Raise AttributeError
  end.

End PyJson.

(** ** Configuration *)

Definition PRICE_KEYS : list (string * string) :=
  [ ("قیمت لحظه‌ای دلار", "price_dollar_rl");
    ("سکه امامی", "sekee_real");
    ("انس طلا جهانی", "ons") ].

Definition HEADLINES_PER_SOURCE : nat := 3.

Definition NEWS_FEEDS : list (string * string) :=
  [ ("Tasnim", "https://www.tasnimnews.com/fa/rss/feed/0/7/77/اقتصاد-ایران");
    ("ISNA", "https://www.isna.ir/rss/tp/34");
    ("IRNA", "https://www.irna.ir/rss") ].

(** ** The price pipeline: [fetch_prices] *)

Module Prices.

(** The value of a snapshot entry: display text and timestamp. *)
Definition quote : Type := (string * datetime)%type.
Definition snapshot : Type := list (string * quote).

(** The numeric part of one loop iteration: [value_num] as it stands
    when the display text is formatted. *)
Definition value_num (key price_clean : string) : spec_float :=
  let v :=
    match PyFloat.py_float price_clean with
    | Some x => x
    | None => PyFloat.zero
    end in
  if negb (String.eqb key "ons") then PyFloat.fdiv v PyFloat.ten else v.

Definition formatted_value (key : string) (v : spec_float) : result string :=
  if String.eqb key "ons" then Ok (PyFloat.format_2f v)
  else n <- PyFloat.to_int v ;; Ok (PyFloat.format_int n).

(** The guard [not entry or "p" not in entry or "ts" not in entry],
    with the short-circuit evaluation of [or]. *)
Definition malformed (entry : json) : result bool :=
  if negb (PyJson.truthy entry) then Ok true
  else
    has_p <- PyJson.contains "p" entry ;;
    if negb has_p then Ok true
    else
      has_ts <- PyJson.contains "ts" entry ;;
      Ok (negb has_ts).

Section WithClock.

(** [datetime.fromisoformat] ([None] when it raises), the rendering
    [datetime.isoformat], and the successive readings of the wall
    clock, in microseconds. *)
Variable fromisoformat : string -> option datetime.
Variable isoformat : datetime -> string.
Variable clock : nat -> Z.

(** [datetime.now(timezone.utc)] as the [tick]-th reading. *)
Definition now (tick : nat) : datetime * nat :=
  (utc_datetime (clock tick), S tick).

(** The [try] around [fromisoformat]: any exception, also the
    [TypeError] on a value that is not a string, gives the current
    time. *)
Definition parse_timestamp (ts : json) (tick : nat) : datetime * nat :=
  match ts with
  | JStr s =>
      match fromisoformat s with
      | Some t => (t, tick)
      | None => now tick
      end
  | _ => now tick
  end.

(** One iteration of the loop over [PRICE_KEYS]. *)
Definition price_entry (key : string) (current : json) (tick : nat)
  : result (quote * nat) :=
  entry <- PyJson.get current key JNull ;;
  bad <- malformed entry ;;
  if bad then Raise ValueError
  else
    price_str <- PyJson.get entry "p" (JStr "0") ;;
    ts_str <- PyJson.get entry "ts" JNull ;;
    price_clean <- PyJson.replace_commas price_str ;;
    text <- formatted_value key (value_num key price_clean) ;;
    let (timestamp, tick') := parse_timestamp ts_str tick in
    Ok ((text, timestamp), tick').

Fixpoint price_loop (keys : list (string * string)) (current : json)
  (res : snapshot) (tick : nat) : result (snapshot * nat) :=
  match keys with
  | [] => Ok (res, tick)
  | (label, key) :: rest =>
      r <- price_entry key current tick ;;
      price_loop rest current (PyDict.set label (fst r) res) (snd r)
  end.

(** [fetch_prices], given what [fetch_json] produced. The handler
    around the body logs and raises again, so an exception of the
    body is the exception of the function. *)
Definition fetch_prices (fetched : result json) : result (string * snapshot) :=
  data <- fetched ;;
  current <- PyJson.get data "current" (JObj []) ;;
  r <- price_loop PRICE_KEYS current [] 0%nat ;;
  Ok (isoformat (fst (now (snd r))), fst r).

End WithClock.

End Prices.

(** ** The news pipeline: [fetch_news] *)

Module News.

(** An [item] node of a parsed feed: the text of its first [title]
    and [link] descendants, [None] when the node has no such
    descendant (the attribute access then gives Python's [None]). *)
Record item : Type := mkItem { title : option string ; link : option string }.

(** What fetching and parsing one feed gives: an exception of the
    request, of [raise_for_status] or of the parser, or the [item]
    nodes of the document in document order. *)
Inductive feed : Type :=
| FeedError (e : exn)
| Feed (items : list item).

Definition headline : Type := (string * string)%type.

Definition economy_keywords : list string :=
  [ "اقتصاد"; "اقتصادی"; "بانک"; "ارز";
    "پول"; "بورس"; "سکه"; "دلار" ].

(** [node.text.strip()]; the attribute access on a missing node
    raises [AttributeError]. *)
Definition stripped_text (node : option string) : result string :=
  match node with
  | Some t => Ok (PyStr.strip t)
  | None => Raise AttributeError
  end.

(** The loop over the items of one source. [headlines] is the list
    the function appends to; an exception leaves the loop with what
    has been appended so far. *)
Fixpoint item_loop (source : string) (items : list item)
  (headlines : list headline) : list headline * option exn :=
  match items with
  | [] => (headlines, None)
  | it :: rest =>
      match stripped_text (title it) with
      | Raise e => (headlines, Some e)
      | Ok t =>
          match stripped_text (link it) with
          | Raise e => (headlines, Some e)
          | Ok l =>
              if String.eqb source "IRNA"
                 && negb (PyStr.any_in economy_keywords t)
              then item_loop source rest headlines
              else item_loop source rest (headlines ++ [(t, l)])%list
          end
      end
  end.

Section WithFeeds.

(** The outcome of fetching and parsing the feed at a URL. *)
Variable http_get : string -> feed.

(** The body of the [try] for one source. *)
Definition source_body (source url : string) (headlines : list headline)
  : list headline * option exn :=
  match http_get url with
  | FeedError e => (headlines, Some e)
  | Feed items => item_loop source (firstn HEADLINES_PER_SOURCE items) headlines
  end.

(** The loop over [NEWS_FEEDS]: the handler logs the exception of a
    source and the loop goes on with the next one. *)
Fixpoint feeds_loop (feeds : list (string * string))
  (headlines : list headline) (log : list (string * exn))
  : list headline * list (string * exn) :=
  match feeds with
  | [] => (headlines, log)
  | (source, url) :: rest =>
      match source_body source url headlines with
      | (headlines', None) => feeds_loop rest headlines' log
      | (headlines', Some e) =>
          feeds_loop rest headlines' (log ++ [(source, e)])%list
      end
  end.

Definition fetch_news_run : list headline * list (string * exn) :=
  feeds_loop NEWS_FEEDS [] [].

Definition fetch_news : list headline :=
  firstn (HEADLINES_PER_SOURCE * List.length NEWS_FEEDS) (fst fetch_news_run).

End WithFeeds.

End News.

(** ** The freshness formatter: [format_time_difference] *)

Module Freshness.

(** [str(n)] for an [int]. *)
Definition str_int (n : Z) : string :=
  (if n <? 0 then "-" else "") ++ PyStr.plain (Z.abs_N n).

Definition moments : string := "لحظاتی پیش".
Definition minutes_ago (n : Z) : string := str_int n ++ " دقیقه پیش".
Definition hours_ago (n : Z) : string := str_int n ++ " ساعت پیش".

(** [(now - past).total_seconds() / 60] for a difference of [delta]
    microseconds: the quotient by [10 ** 6] rounded to a float, then
    divided by [60]. *)
Definition minutes_of (delta : Z) : spec_float :=
  PyFloat.fdiv (PyFloat.int_true_div delta 1000000) PyFloat.sixty.

(** The three branches on [diff]. *)
Definition bucket (diff : spec_float) : result string :=
  if PyFloat.flt diff PyFloat.one then Ok moments
  else if PyFloat.flt diff PyFloat.sixty then
    minutes <- PyFloat.to_int diff ;;
    Ok (minutes_ago minutes)
  else
    q <- PyFloat.floor_div diff PyFloat.sixty ;;
    hours <- PyFloat.to_int q ;;
    Ok (hours_ago hours).

(** [format_time_difference past] when the clock reads [clock_now]
    microseconds. *)
Definition format_time_difference (clock_now : Z) (past : datetime)
  : result string :=
  let past :=
    match tzinfo past with
    | None => replace_tzinfo_utc past
    | Some _ => past
    end in
  let now := utc_datetime clock_now in
  delta <- datetime_sub now past ;;
  bucket (minutes_of delta).

End Freshness.

(** ** The access gate: [is_user_member] and [restricted_handler] *)

Module Gate.

(** What [bot.get_chat_member] gives: the member's status, or an
    exception. *)
Inductive lookup : Type :=
| Status (status : string)
| LookupError (e : exn).

Definition member_statuses : list string :=
  [ "member"; "creator"; "administrator" ].

Definition is_user_member (l : lookup) : bool :=
  match l with
  | Status s => existsb (String.eqb s) member_statuses
  | LookupError _ => false
  end.

(** What the handler does with the message: the replies it sends and
    the command handlers it awaits. [cmd_price] runs the price
    pipeline and [cmd_news] the news pipeline. *)
Inductive action : Type :=
| Answer (text : string) (parse_mode : option string)
| Call_cmd_price
| Call_cmd_news.

Definition join_channel : string :=
  "❗ برای استفاده از این ربات، ابتدا باید عضو کانال ما شوید:
👉 [عضویت در کانال](https://t.me/sarasoo)".

Definition welcome : string :=
  "سلام! 👋
به ربات قیمت لحظه‌ای ارز و اخبار اقتصادی خوش آمدید.

با استفاده از دستورات زیر می‌توانید اطلاعات دریافت کنید:
• /price — دریافت قیمت لحظه‌ای دلار، سکه و انس طلا
• /news — مشاهده جدیدترین تیترهای اقتصادی از خبرگزاری‌ها
• /help — راهنما و توضیحات بیشتر

می‌توانید به‌جای استفاده از دستورات، کلمات کلیدی مانند «دلار»، «سکه» یا «اخبار اقتصادی» را نیز ارسال کنید.".

Definition restricted_handler (text : string) (l : lookup) : list action :=
  let is_sub := is_user_member l in
  if negb is_sub then [Answer join_channel (Some "Markdown")]
  else if String.eqb text "/start" then [Answer welcome None]
  else if String.eqb text "/price" then [Call_cmd_price]
  else if String.eqb text "/news" then [Call_cmd_news]
  else [].

Definition runs_pipeline (a : action) : bool :=
  match a with
  | Call_cmd_price | Call_cmd_news => true
  | Answer _ _ => false
  end.

End Gate.

(** ** The command handlers: [cmd_help], [cmd_price], [cmd_news],
    [keyword_handler] *)

Module Handlers.

(** A call to the Telegram API made by a handler: [message.answer] with
    its text and [parse_mode], or [loading_msg.delete]. *)
Inductive call : Type :=
| Send (text : string) (parse_mode : option string)
| Delete_loading.

(** What running a handler amounts to: the calls it made, in order, and
    the exception it ends with, if any. *)
Definition run : Type := (list call * option exn)%type.

Definition KEYWORD_TRIGGER_LIST : list string :=
  [ "دلار"; "سکه"; "طلا"; "ارز"; "قیمت" ].

Definition help_text : string :=
  "راهنمای ربات:

• /price — این دستور قیمت لحظه‌ای ارز آزاد (دلار)، سکه امامی و انس طلا جهانی را از سایت Tgju دریافت کرده و نمایش می‌دهد.
• /news — آخرین تیترهای اقتصادی از خبرگزاری‌های معتبر (ایرنا، ایسنا، تسنیم) را به همراه لینک نمایش می‌دهد.
• /start — معرفی کوتاه ربات و نحوه استفاده.

همچنین می‌توانید کلمات «دلار»، «سکه»، «طلا» یا «اخبار اقتصادی» را بدون دستور تایپ کنید تا ربات پاسخ مناسب بدهد.".

Definition loading_price : string := "⏳ در حال دریافت اطلاعات...".
Definition price_error : string := "❌ خطا در دریافت داده‌ها. لطفاً بعداً تلاش کنید.".
Definition loading_news : string := "⏳ در حال دریافت تیترهای خبری...".
Definition no_headlines : string := "هیچ تیتر اقتصادی پیدا نشد. لطفاً بعداً تلاش کنید.".
Definition news_header : string := "📰 تیترهای اقتصادی جدید:".
Definition news_error : string := "❌ خطا در دریافت اخبار. لطفاً بعداً تلاش کنید.".
Definition not_understood : string := "متوجه نشدم. برای مشاهده راهنما دستور /help را ارسال کنید.".

(** One line of the price message. *)
Definition price_line (label value : string) : string :=
  if String.eqb label "انس طلا جهانی"
  then "📉 " ++ label ++ ": " ++ value ++ " دلار"
  else "💵 " ++ label ++ ": " ++ value ++ " تومان".

Definition update_line (time_diff_str : string) : string :=
  "(به‌روزرسانی: " ++ time_diff_str ++ ")".

(** The lines [f"{idx}. [{title}]({link})"] of [enumerate(items, start)]. *)
Fixpoint numbered (idx : Z) (items : list News.headline) : list string :=
  match items with
  | [] => []
  | (title, link) :: rest =>
      (Freshness.str_int idx ++ ". [" ++ title ++ "](" ++ link ++ ")")
      :: numbered (idx + 1) rest
  end.

(** The message [cmd_news] answers with for a digest. *)
Definition news_reply (items : list News.headline) : call :=
  match items with
  | [] => Send no_headlines None
  | _ :: _ =>
      Send (String.concat "
" (news_header :: numbered 1 items))
           (Some "Markdown")
  end.

(** [a > b] on datetimes: two naive operands compare by their wall
    clock, two aware ones by their instant, and a naive with an aware
    one raises [TypeError]. *)
Definition datetime_gt (a b : datetime) : result bool :=
  match tzinfo a, tzinfo b with
  | None, None => Ok (wall b <? wall a)
  | Some oa, Some ob => Ok (wall b - ob <? wall a - oa)
  | _, _ => Raise TypeError
  end.

(** [max] over a sequence: the first item is kept until a later one
    compares greater; an empty sequence raises [ValueError]. *)
Fixpoint max_from (best : datetime) (rest : list datetime) : result datetime :=
  match rest with
  | [] => Ok best
  | x :: rest' =>
      greater <- datetime_gt x best ;;
      max_from (if greater then x else best) rest'
  end.

Definition py_max (l : list datetime) : result datetime :=
  match l with
  | [] => Raise ValueError
  | x :: rest => max_from x rest
  end.

Section WithWorld.

(** The collaborators: the date parser, renderer and wall clock of
    [fetch_prices], the feeds of [fetch_news], [str.lower], and the
    Telegram API, which for the [n]-th call of a handler says whether
    the call raises. *)
Variable fromisoformat : string -> option datetime.
Variable isoformat : datetime -> string.
Variable clock : nat -> Z.
Variable http_get : string -> News.feed.
Variable lower : string -> string.
Variable api : nat -> option exn.

(** A call, made after the calls of [trace]. *)
Definition perform (c : call) (trace : list call) : run :=
  ((trace ++ [c])%list, api (List.length trace)).

(** [try: body except Exception: handler]. *)
Definition try_except (body : run) (handler : list call -> run) : run :=
  match body with
  | (trace, Some _) => handler trace
  | (trace, None) => (trace, None)
  end.

(** The [finally] clause of both command handlers: the deletion of the
    loading message, whose own exception is swallowed, after which the
    exception of the [try] statement, if any, goes on. *)
Definition finally_delete (r : run) : run :=
  (fst (perform Delete_loading (fst r)), snd r).

Definition cmd_help : run := perform (Send help_text None) [].

(** The number of readings of the clock [fetch_prices] has made when it
    returns. *)
Definition readings (fetched : result json) : nat :=
  match
    (data <- fetched ;;
     current <- PyJson.get data "current" (JObj []) ;;
     Prices.price_loop fromisoformat clock PRICE_KEYS current [] 0%nat)
  with
  | Ok r => S (snd r)
  | Raise _ => 0%nat
  end.

(** The [try] block of [cmd_price] up to [response_text]. *)
Definition price_response (fetched : result json) : result string :=
  sp <- Prices.fetch_prices fromisoformat isoformat clock fetched ;;
  let prices := snd sp in
  let lines := map (fun e => price_line (fst e) (fst (snd e))) prices in
  last_update <- py_max (map (fun e => snd (snd e)) prices) ;;
  time_diff_str <-
    Freshness.format_time_difference (clock (readings fetched)) last_update ;;
  Ok (String.concat "  
" (lines ++ [update_line time_diff_str])%list).

Definition cmd_price (fetched : result json) : run :=
  match perform (Send loading_price None) [] with
  | (trace, Some e) => (trace, Some e)
  | (trace, None) =>
      finally_delete
        (try_except
           match price_response fetched with
           | Ok response_text => perform (Send response_text None) trace
           | Raise e => (trace, Some e)
           end
           (perform (Send price_error None)))
  end.

Definition cmd_news : run :=
  match perform (Send loading_news None) [] with
  | (trace, Some e) => (trace, Some e)
  | (trace, None) =>
      finally_delete
        (try_except
           (perform (news_reply (News.fetch_news http_get)) trace)
           (perform (Send news_error None)))
  end.

(** [keyword_handler] on a message whose text is [text] ([None] for a
    message without text). *)
Definition keyword_handler (text : option string) (fetched : result json)
  : run :=
  let text := match text with Some t => t | None => "" end in
  let lowered := lower (PyStr.strip text) in
  if PyStr.contains "اخبار" lowered || PyStr.contains "اخبار اقتصادی" lowered
  then cmd_news
  else if PyStr.any_in KEYWORD_TRIGGER_LIST lowered then cmd_price fetched
  else perform (Send not_understood None) [].

End WithWorld.

End Handlers.


(** * Properties *)

(** ** The access gate *)

Module GateFacts.
Import Gate.

Lemma is_user_member_iff (l : lookup) :
  is_user_member l = true <->
  exists s, l = Status s /\ In s member_statuses.
Proof.
  destruct l as [s | e]; unfold is_user_member.
  - rewrite existsb_exists. split.
    + intros [x [Hin Heq]]. apply String.eqb_eq in Heq. subst x.
      exists s. split; [reflexivity | exact Hin].
    + intros [s' [Heq Hin]]. inversion Heq; subst s'.
      exists s. split; [exact Hin | apply String.eqb_refl].
  - split; [discriminate | intros [s [Heq _]]; discriminate].
Qed.

Lemma denied_handler (text : string) (l : lookup) :
  is_user_member l = false ->
  restricted_handler text l = [Answer join_channel (Some "Markdown")].
Proof.
  intros H. unfold restricted_handler. rewrite H. reflexivity.
Qed.

Lemma pipeline_needs_membership (text : string) (l : lookup) :
  existsb runs_pipeline (restricted_handler text l) = true ->
  is_user_member l = true.
Proof.
  unfold restricted_handler.
  destruct (is_user_member l); [reflexivity | simpl; discriminate].
Qed.

(** C6. The gate lets [cmd_price] or [cmd_news] run only when the
    membership lookup returned one of the statuses [member], [creator],
    [administrator]; when the lookup raised, or returned another status,
    [is_user_member] is false and the handler only sends the invitation
    to join the channel, invoking neither pipeline; a member who sends
    [/price] or [/news] does reach the corresponding pipeline. *)
Theorem gate_fail_closed (text : string) (l : lookup) :
  (existsb runs_pipeline (restricted_handler text l) = true ->
   exists s, l = Status s /\ In s member_statuses)
  /\ ((forall s, l = Status s -> ~ In s member_statuses) ->
      is_user_member l = false
      /\ restricted_handler text l = [Answer join_channel (Some "Markdown")]
      /\ existsb runs_pipeline (restricted_handler text l) = false)
  /\ (forall s, In s member_statuses ->
      restricted_handler "/price" (Status s) = [Call_cmd_price]
      /\ restricted_handler "/news" (Status s) = [Call_cmd_news]).
Proof.
  split; [| split].
  - intros H. apply is_user_member_iff.
    exact (pipeline_needs_membership text l H).
  - intros Hno.
    assert (Hm : is_user_member l = false).
    { destruct (is_user_member l) eqn:E; [| reflexivity].
      apply is_user_member_iff in E. destruct E as [s [Hl Hin]].
      exfalso. exact (Hno s Hl Hin). }
    split; [exact Hm |].
    rewrite (denied_handler text l Hm). split; reflexivity.
  - intros s Hin.
    assert (Hm : is_user_member (Status s) = true).
    { apply is_user_member_iff. exists s. split; [reflexivity | exact Hin]. }
    unfold restricted_handler. rewrite Hm. split; reflexivity.
Qed.

(** The gate at a lookup that raised: the request for prices is denied. *)
Lemma gate_fail_closed_witness :
  restricted_handler "/price" (LookupError HTTPError)
  = [Answer join_channel (Some "Markdown")].
Proof.
  refine (proj1 (proj2 (proj1 (proj2
    (gate_fail_closed "/price" (LookupError HTTPError))) _))).
  intros s H. discriminate H.
Defined.

End GateFacts.

(** ** The news pipeline *)

Module NewsFacts.
Import News.

(** What one source adds to the digest: nothing when its feed could not
    be fetched or parsed, otherwise what the item loop appends. *)
Definition contribution (source : string) (f : feed) : list headline :=
  match f with
  | FeedError _ => []
  | Feed items => fst (item_loop source (firstn HEADLINES_PER_SOURCE items) [])
  end.

Definition text_of (node : option string) : string :=
  match node with
  | Some t => t
  | None => ""
  end.

(** An item with both a [title] and a [link] node. *)
Definition complete (it : item) : bool :=
  match title it, link it with
  | Some _, Some _ => true
  | _, _ => false
  end.

Definition headline_of (it : item) : headline :=
  (PyStr.strip (text_of (title it)), PyStr.strip (text_of (link it))).

Definition on_topic (it : item) : bool :=
  PyStr.any_in economy_keywords (PyStr.strip (text_of (title it))).

(** The items of a source that reach the digest: the slice comes first,
    the keyword filter, for IRNA only, second. *)
Definition selected (source : string) (items : list item) : list item :=
  if String.eqb source "IRNA"
  then filter on_topic (firstn HEADLINES_PER_SOURCE items)
  else firstn HEADLINES_PER_SOURCE items.

Definition contributions (http_get : string -> feed) : list headline :=
  flat_map (fun su => contribution (fst su) (http_get (snd su))) NEWS_FEEDS.

Lemma item_loop_cons (source : string) (it : item) (rest : list item)
  (hl : list headline) :
  item_loop source (it :: rest) hl
  = match stripped_text (title it) with
    | Raise e => (hl, Some e)
    | Ok t =>
        match stripped_text (link it) with
        | Raise e => (hl, Some e)
        | Ok l =>
            if String.eqb source "IRNA"
               && negb (PyStr.any_in economy_keywords t)
            then item_loop source rest hl
            else item_loop source rest (hl ++ [(t, l)])%list
        end
    end.
Proof. reflexivity. Qed.

Lemma item_loop_app (source : string) (items : list item) :
  forall hl,
    item_loop source items hl
    = ((hl ++ fst (item_loop source items []))%list,
       snd (item_loop source items [])).
Proof.
  induction items as [| it rest IH]; intros hl.
  - simpl. rewrite app_nil_r. reflexivity.
  - rewrite !item_loop_cons.
    destruct (stripped_text (title it)) as [t | e].
    + destruct (stripped_text (link it)) as [l | e].
      * destruct (String.eqb source "IRNA" && negb (PyStr.any_in economy_keywords t)).
        -- apply IH.
        -- rewrite (IH (hl ++ [(t, l)])%list).
           change (([] : list headline) ++ [(t, l)])%list with [(t, l)].
           rewrite (IH [(t, l)]).
           cbn [fst snd]. rewrite <- app_assoc. reflexivity.
      * cbn [fst snd]. rewrite app_nil_r. reflexivity.
    + cbn [fst snd]. rewrite app_nil_r. reflexivity.
Qed.

Lemma item_loop_length (source : string) (items : list item) :
  (List.length (fst (item_loop source items [])) <= List.length items)%nat.
Proof.
  induction items as [| it rest IH]; [simpl; lia |].
  rewrite item_loop_cons. cbn [List.length].
  destruct (stripped_text (title it)) as [t | e]; [| cbn [fst List.length]; lia].
  destruct (stripped_text (link it)) as [l | e]; [| cbn [fst List.length]; lia].
  destruct (String.eqb source "IRNA" && negb (PyStr.any_in economy_keywords t)).
  - lia.
  - rewrite item_loop_app. cbn [fst app List.length]. lia.
Qed.

Lemma contribution_length (source : string) (f : feed) :
  (List.length (contribution source f) <= HEADLINES_PER_SOURCE)%nat.
Proof.
  destruct f as [e | items]; unfold contribution.
  - cbn [List.length]. lia.
  - pose proof (item_loop_length source (firstn HEADLINES_PER_SOURCE items)) as H.
    pose proof (firstn_le_length HEADLINES_PER_SOURCE items) as H'.
    lia.
Qed.

Lemma source_body_contribution (http_get : string -> feed)
  (source url : string) (hl : list headline) :
  fst (source_body http_get source url hl)
  = (hl ++ contribution source (http_get url))%list.
Proof.
  unfold source_body, contribution.
  destruct (http_get url) as [e | items]; simpl.
  - rewrite app_nil_r. reflexivity.
  - rewrite item_loop_app. reflexivity.
Qed.

Lemma feeds_loop_contributions (http_get : string -> feed)
  (feeds : list (string * string)) :
  forall hl log,
    fst (feeds_loop http_get feeds hl log)
    = (hl ++ flat_map (fun su => contribution (fst su) (http_get (snd su))) feeds)%list.
Proof.
  induction feeds as [| [source url] rest IH]; intros hl log; simpl.
  - rewrite app_nil_r. reflexivity.
  - pose proof (source_body_contribution http_get source url hl) as Hb.
    destruct (source_body http_get source url hl) as [hl' [e |]];
      simpl in Hb; subst hl'; rewrite IH, <- app_assoc; reflexivity.
Qed.

Lemma contributions_length (http_get : string -> feed) :
  (List.length (contributions http_get)
   <= HEADLINES_PER_SOURCE * List.length NEWS_FEEDS)%nat.
Proof.
  unfold contributions.
  induction NEWS_FEEDS as [| [source url] rest IH]; [simpl; lia |].
  cbn [flat_map List.length fst snd]. rewrite length_app.
  pose proof (contribution_length source (http_get url)) as H.
  lia.
Qed.

(** The digest is the concatenation of the sources' contributions: the
    final slice never cuts anything. *)
Lemma fetch_news_contributions (http_get : string -> feed) :
  fetch_news http_get = contributions http_get.
Proof.
  unfold fetch_news, fetch_news_run.
  rewrite feeds_loop_contributions. simpl app.
  apply firstn_all2. apply contributions_length.
Qed.

End NewsFacts.

Module NewsProperties.
Import News NewsFacts.

Lemma item_loop_complete (source : string) (items : list item) :
  forallb complete items = true ->
  item_loop source items []
  = (map headline_of
       (if String.eqb source "IRNA" then filter on_topic items else items),
     None).
Proof.
  induction items as [| it rest IH]; intros Hc.
  - destruct (String.eqb source "IRNA"); reflexivity.
  - cbn [forallb] in Hc. apply andb_prop in Hc. destruct Hc as [Hit Hrest].
    specialize (IH Hrest). rewrite item_loop_cons.
    unfold complete in Hit.
    destruct it as [[t |] [l |]]; cbn [title link] in *; try discriminate.
    cbn [stripped_text].
    destruct (String.eqb source "IRNA") eqn:Es; cbn [andb negb].
    + cbn [filter]. unfold on_topic at 1. cbn [title text_of].
      destruct (PyStr.any_in economy_keywords (PyStr.strip t)) eqn:Ek; cbn [negb].
      * rewrite item_loop_app, IH. reflexivity.
      * exact IH.
    + rewrite item_loop_app, IH. reflexivity.
Qed.

Lemma contribution_complete (source : string) (items : list item) :
  forallb complete (firstn HEADLINES_PER_SOURCE items) = true ->
  contribution source (Feed items) = map headline_of (selected source items).
Proof.
  intros Hc. unfold contribution, selected.
  rewrite (item_loop_complete source _ Hc). reflexivity.
Qed.

Lemma item_loop_In (source : string) (items : list item) (h : headline) :
  In h (fst (item_loop source items [])) ->
  exists it t l,
    In it items /\ title it = Some t /\ link it = Some l
    /\ h = (PyStr.strip t, PyStr.strip l)
    /\ (source = "IRNA" -> PyStr.any_in economy_keywords (fst h) = true).
Proof.
  induction items as [| it rest IH]; [intros [] |].
  rewrite item_loop_cons.
  destruct it as [[t |] [l |]]; cbn [title link stripped_text fst];
    try (intros []).
  assert (Hrest : In h (fst (item_loop source rest [])) ->
    exists it' t' l',
      In it' (mkItem (Some t) (Some l) :: rest) /\ title it' = Some t'
      /\ link it' = Some l' /\ h = (PyStr.strip t', PyStr.strip l')
      /\ (source = "IRNA" -> PyStr.any_in economy_keywords (fst h) = true)).
  { intros Hin. destruct (IH Hin) as [it' [t' [l' [H1 H2]]]].
    exists it', t', l'. split; [right; exact H1 | exact H2]. }
  destruct (String.eqb source "IRNA") eqn:Es; cbn [andb].
  - destruct (PyStr.any_in economy_keywords (PyStr.strip t)) eqn:Ek; cbn [negb].
    + rewrite item_loop_app. cbn [fst app]. intros [Hh | Hin]; [| exact (Hrest Hin)].
      exists (mkItem (Some t) (Some l)), t, l. subst h.
      repeat split; try reflexivity; [left; reflexivity | intros _; exact Ek].
    + exact Hrest.
  - rewrite item_loop_app. cbn [fst app]. intros [Hh | Hin]; [| exact (Hrest Hin)].
    exists (mkItem (Some t) (Some l)), t, l. subst h.
    repeat split; try reflexivity; [left; reflexivity |].
    intros ->. discriminate Es.
Qed.

(** A feed world for the examples: one source answers, the others fail. *)
Definition only (url : string) (items : list item) (u : string) : feed :=
  if String.eqb u url then Feed items else FeedError HTTPError.

Definition irna_url : string := "https://www.irna.ir/rss".
Definition isna_url : string := "https://www.isna.ir/rss/tp/34".

(** Five IRNA items, of which the last four are on topic. *)
Definition irna_items : list item :=
  [ mkItem (Some "ورزش") (Some "https://www.irna.ir/news/1");
    mkItem (Some "قیمت دلار") (Some "https://www.irna.ir/news/2");
    mkItem (Some "بورس تهران") (Some "https://www.irna.ir/news/3");
    mkItem (Some "بانک مرکزی") (Some "https://www.irna.ir/news/4");
    mkItem (Some "سکه امامی") (Some "https://www.irna.ir/news/5") ].




(** A Tasnim feed whose first item has a blank title and whose second
    item has a blank link. *)
Definition tasnim_url : string := snd (nth 0 NEWS_FEEDS ("", "")).

Definition blank_items : list item :=
  [ mkItem (Some "   ") (Some " https://www.tasnimnews.com/fa/news/1 ");
    mkItem (Some "Tehran bourse") (Some "") ].

(** C5, as stated, fails: the digest of [blank_items] holds a headline
    with an empty title and one with an empty link; the texts are
    trimmed, but no item is dropped for being empty. *)
Lemma empty_headlines_are_kept :
  fetch_news (only tasnim_url blank_items)
  = [ ("", "https://www.tasnimnews.com/fa/news/1"); ("Tehran bourse", "") ].
Proof. vm_compute. reflexivity. Qed.

(** C5, amended. Every headline of the digest is the trimmed title text
    and the trimmed link text of an item that has both nodes and stands
    among the first [HEADLINES_PER_SOURCE] items of a configured feed;
    an IRNA headline has a title containing a keyword. Emptiness is not
    tested: for a source other than IRNA whose first items all have both
    nodes, every one of these items gives its headline, empty or not. *)
Theorem headlines_are_trimmed_items (http_get : string -> feed) :
  (forall h, In h (fetch_news http_get) ->
     exists source url items it t l,
       In (source, url) NEWS_FEEDS /\ http_get url = Feed items
       /\ In it (firstn HEADLINES_PER_SOURCE items)
       /\ title it = Some t /\ link it = Some l
       /\ h = (PyStr.strip t, PyStr.strip l)
       /\ (source = "IRNA" -> PyStr.any_in economy_keywords (fst h) = true))
  /\ (forall source url items it,
       In (source, url) NEWS_FEEDS -> source <> "IRNA" ->
       http_get url = Feed items ->
       forallb complete (firstn HEADLINES_PER_SOURCE items) = true ->
       In it (firstn HEADLINES_PER_SOURCE items) ->
       In (headline_of it) (fetch_news http_get)).
Proof.
  rewrite fetch_news_contributions. unfold contributions. split.
  - intros h Hin. apply in_flat_map in Hin.
    destruct Hin as [[source url] [Hsu Hh]]. cbn [fst snd] in Hh.
    unfold contribution in Hh.
    destruct (http_get url) as [e | items] eqn:Hf; [destruct Hh |].
    destruct (item_loop_In source _ h Hh) as [it [t [l [H1 H2]]]].
    exists source, url, items, it, t, l.
    split; [exact Hsu | split; [exact Hf | split; [exact H1 | exact H2]]].
  - intros source url items it Hsu Hs Hf Hc Hit.
    apply in_flat_map. exists (source, url). split; [exact Hsu |].
    cbn [fst snd]. rewrite Hf, (contribution_complete source items Hc).
    apply in_map. unfold selected.
    destruct (String.eqb_spec source "IRNA") as [E | _]; [contradiction | exact Hit].
Qed.

(** The amended claim at the feed of the counterexample: the headline
    with the empty title comes from the first Tasnim item. *)
Lemma headlines_are_trimmed_items_witness :
  exists source url items it t l,
    In (source, url) NEWS_FEEDS
    /\ only tasnim_url blank_items url = Feed items
    /\ In it (firstn HEADLINES_PER_SOURCE items)
    /\ title it = Some t /\ link it = Some l
    /\ ("", "https://www.tasnimnews.com/fa/news/1") = (PyStr.strip t, PyStr.strip l)
    /\ (source = "IRNA" ->
        PyStr.any_in economy_keywords
          (fst ("", "https://www.tasnimnews.com/fa/news/1")) = true).
Proof.
  refine (proj1 (headlines_are_trimmed_items (only tasnim_url blank_items)) _ _).
  vm_compute. left. reflexivity.
Defined.


(** One feed down, two up: the ISNA feed of four items gives its first
    three headlines, the IRNA feed its on-topic ones among the first
    three, and the failure of Tasnim is only logged. *)
Example one_feed_down :
  let world u :=
    if String.eqb u isna_url then
      Feed [ mkItem (Some "a") (Some "1"); mkItem (Some "b") (Some "2");
             mkItem (Some "c") (Some "3"); mkItem (Some "d") (Some "4") ]
    else if String.eqb u irna_url then Feed irna_items
    else FeedError HTTPError in
  fetch_news_run world
  = ([ ("a", "1"); ("b", "2"); ("c", "3");
       ("قیمت دلار", "https://www.irna.ir/news/2");
       ("بورس تهران", "https://www.irna.ir/news/3") ],
     [ ("Tasnim", HTTPError) ]).
Proof. vm_compute. reflexivity. Qed.

(** C8. The digest never holds more than
    [HEADLINES_PER_SOURCE * len(NEWS_FEEDS)] headlines, that is nine,
    however many items the feeds contain. *)
Theorem digest_length_bound (http_get : string -> feed) :
  (List.length (fetch_news http_get)
   <= HEADLINES_PER_SOURCE * List.length NEWS_FEEDS)%nat
  /\ (HEADLINES_PER_SOURCE * List.length NEWS_FEEDS = 9)%nat.
Proof.
  split; [| reflexivity].
  unfold fetch_news. apply firstn_le_length.
Qed.

End NewsProperties.

(** ** Signs of float results *)

Module PyFloatFacts.
Import PyFloat.

(** [x] is a zero, a finite number or an infinity with sign bit [s]. *)
Definition signed (s : bool) (x : spec_float) : Prop :=
  match x with
  | S754_zero s' | S754_infinity s' | S754_finite s' _ _ => s' = s
  | S754_nan => False
  end.

Definition is_finite (x : spec_float) : bool :=
  match x with
  | S754_zero _ | S754_finite _ _ _ => true
  | S754_infinity _ | S754_nan => false
  end.

Lemma shr_1_nonneg (mrs : shr_record) :
  0 <= shr_m mrs -> 0 <= shr_m (shr_1 mrs).
Proof.
  destruct mrs as [m r s]. destruct m as [| p | p]; cbn; intros H; try lia.
  destruct p; cbn; lia.
Qed.

Lemma iter_shr_1_nonneg (p : positive) :
  forall mrs, 0 <= shr_m mrs -> 0 <= shr_m (iter_pos shr_1 p mrs).
Proof.
  induction p as [p IH | p IH |]; intros mrs H; cbn.
  - apply IH, IH, shr_1_nonneg, H.
  - apply IH, IH, H.
  - apply shr_1_nonneg, H.
Qed.

Lemma shr_nonneg (mrs : shr_record) (e n : Z) :
  0 <= shr_m mrs -> 0 <= shr_m (fst (shr mrs e n)).
Proof.
  intros H. unfold shr. destruct n; cbn; try exact H.
  apply iter_shr_1_nonneg, H.
Qed.

Lemma shr_fexp_nonneg (m e : Z) (l : location) :
  0 <= m -> 0 <= shr_m (fst (shr_fexp prec emax m e l)).
Proof.
  intros H. unfold shr_fexp. apply shr_nonneg.
  destruct l as [| []]; exact H.
Qed.

Lemma round_nearest_even_nonneg (m : Z) (l : location) :
  0 <= m -> 0 <= round_nearest_even m l.
Proof.
  intros H. destruct l as [| []]; cbn; try lia.
  destruct (Z.even m); lia.
Qed.

Lemma binary_round_aux_signed (s : bool) (m e : Z) (l : location) :
  0 <= m -> signed s (binary_round_aux prec emax s m e l).
Proof.
  intros H. unfold binary_round_aux.
  pose proof (shr_fexp_nonneg m e l H) as H1.
  destruct (shr_fexp prec emax m e l) as [mrs' e']. cbn [fst] in H1.
  pose proof (shr_fexp_nonneg
    (round_nearest_even (shr_m mrs') (loc_of_shr_record mrs')) e' loc_Exact
    (round_nearest_even_nonneg _ _ H1)) as H2.
  destruct (shr_fexp prec emax
    (round_nearest_even (shr_m mrs') (loc_of_shr_record mrs')) e' loc_Exact)
    as [mrs'' e'']. cbn [fst] in H2.
  destruct (shr_m mrs'') as [| p | p]; [reflexivity | | lia].
  destruct (e'' <=? emax - prec); reflexivity.
Qed.

Lemma binary_round_signed (s : bool) (m : positive) (e : Z) :
  signed s (binary_round prec emax s m e).
Proof.
  unfold binary_round.
  destruct (shl_align m e (fexp prec emax (Z.pos (digits2_pos m) + e))) as [mz ez].
  apply binary_round_aux_signed. lia.
Qed.

Lemma binary_normalize_signed (m e : Z) (szero : bool) :
  signed (match m with Z0 => szero | Zpos _ => false | Zneg _ => true end)
    (binary_normalize prec emax m e szero).
Proof.
  destruct m; cbn [binary_normalize]; [reflexivity | |];
    apply binary_round_signed.
Qed.

Lemma div_core_nonneg (m1 m2 : positive) (e1 e2 : Z) :
  0 <= fst (fst (SFdiv_core_binary prec emax (Zpos m1) e1 (Zpos m2) e2)).
Proof.
  unfold SFdiv_core_binary.
  set (s := e1 - e2 - _).
  set (m' := match s with Z0 => _ | Zpos _ => _ | Zneg _ => _ end).
  assert (Hm : 0 <= m').
  { subst m'. destruct s; [lia | | lia]. apply Z.shiftl_nonneg. lia. }
  pose proof (Z.div_pos m' (Zpos m2) Hm ltac:(lia)) as Hq.
  unfold Z.div in Hq.
  destruct (Z.div_eucl m' (Zpos m2)) as [q r]. exact Hq.
Qed.

(** A quotient of two signed operands carries the exclusive or of the
    signs, unless it is a NaN (zero by zero, infinity by infinity). *)
Lemma fdiv_finite_signed (sx sy : bool) (mx my : positive) (ex ey : Z) :
  signed (xorb sx sy)
    (SFdiv prec emax (S754_finite sx mx ex) (S754_finite sy my ey)).
Proof.
  cbn [SFdiv].
  pose proof (div_core_nonneg mx my ex ey) as H.
  destruct (SFdiv_core_binary prec emax (Zpos mx) ex (Zpos my) ey) as [[mz ez] lz].
  cbn [fst] in H. apply binary_round_aux_signed, H.
Qed.

Lemma fdiv_signed (s : bool) (x : spec_float) (my : positive) (ey : Z) :
  signed s x -> signed s (fdiv x (S754_finite false my ey)).
Proof.
  unfold fdiv. destruct x as [sx | sx | | sx mx ex]; cbn [signed]; intros H;
    try contradiction; subst sx.
  - cbn. apply xorb_false_r.
  - cbn. apply xorb_false_r.
  - rewrite <- (xorb_false_r s) at 1. apply fdiv_finite_signed.
Qed.

Lemma signed_false_nonneg (x : spec_float) :
  signed false x -> SFleb zero x = true.
Proof.
  destruct x as [s | s | | s m e]; cbn [signed]; intros H;
    try contradiction; subst s; reflexivity.
Qed.

Lemma signed_true_below_one (x : spec_float) :
  signed true x -> flt x one = true.
Proof.
  destruct x as [s | s | | s m e]; cbn [signed]; intros H;
    try contradiction; subst s; reflexivity.
Qed.

Lemma int_true_div_negative (m b : positive) :
  signed true (int_true_div (Zneg m) b).
Proof.
  unfold int_true_div.
  change true with (xorb true false) at 1. apply fdiv_finite_signed.
Qed.

(** *** The sign of a parsed float *)

Lemma decimal_to_float_signed (neg : bool) (m scale ndigits : Z) :
  signed neg (decimal_to_float neg m scale ndigits).
Proof.
  unfold decimal_to_float. destruct m as [| p | p]; try reflexivity.
  destruct (400 <? scale); [reflexivity |].
  destruct (ndigits + scale <? -400); [reflexivity |].
  destruct (0 <=? scale) eqn:Hs.
  - apply Z.leb_le in Hs.
    assert (Hpos : 0 < Zpos p * 10 ^ scale).
    { apply Z.mul_pos_pos; [lia | apply Z.pow_pos_nonneg; lia]. }
    destruct (Zpos p * 10 ^ scale) as [| q | q] eqn:Hq; try lia.
    pose proof (binary_normalize_signed
      (if neg then - Zpos q else Zpos q) 0 neg) as H.
    destruct neg; exact H.
  - rewrite <- (xorb_false_r neg) at 1. apply fdiv_finite_signed.
Qed.

Lemma take_sign_no_minus (s : list ascii) :
  ~ In "-"%char s -> fst (take_sign s) = false.
Proof.
  intros H. unfold take_sign. destruct s as [| c r]; [reflexivity |].
  destruct (Ascii.eqb_spec c "-") as [E | _].
  - exfalso. apply H. left. exact E.
  - destruct (Ascii.eqb c "+"); reflexivity.
Qed.

Lemma parse_number_signed (s : list ascii) (x : spec_float) :
  parse_number s = Some x -> signed (fst (take_sign s)) x.
Proof.
  unfold parse_number. destruct (take_sign s) as [neg s0]. cbn [fst].
  destruct (span_digits s0) as [ip r1].
  destruct (match r1 with
            | [] => ([], r1)
            | c :: r => if Ascii.eqb c "." then span_digits r else ([], r1)
            end) as [fp r2].
  destruct (ip ++ fp)%list as [| d ds]; [discriminate |].
  destruct r2 as [| c r3].
  - intros H. inversion H. apply decimal_to_float_signed.
  - destruct (is_exp_mark c); [| discriminate].
    destruct (take_sign r3) as [eneg r4]. destruct (span_digits r4) as [ed r5].
    destruct ed as [| e0 ed]; [discriminate |].
    destruct r5; [| discriminate].
    intros H. inversion H. apply decimal_to_float_signed.
Qed.

Lemma parse_inf_nan_signed (s : list ascii) (x : spec_float) :
  parse_inf_nan s = Some x -> x = S754_nan \/ signed (fst (take_sign s)) x.
Proof.
  unfold parse_inf_nan. destruct (take_sign s) as [neg s0]. cbn [fst].
  destruct (_ || _).
  - intros H. inversion H. right. reflexivity.
  - destruct (String.eqb _ "nan"); [| discriminate].
    intros H. inversion H. left. reflexivity.
Qed.

Lemma drop_spaces_incl (s : list ascii) (c : ascii) :
  In c (drop_spaces s) -> In c s.
Proof.
  induction s as [| a r IH]; [intros [] |]. cbn [drop_spaces].
  destruct (is_float_space a); [| exact (fun H => H)].
  intros H. right. exact (IH H).
Qed.

Lemma trim_spaces_incl (s : list ascii) (c : ascii) :
  In c (trim_spaces s) -> In c s.
Proof.
  unfold trim_spaces. intros H.
  apply in_rev, drop_spaces_incl, in_rev, drop_spaces_incl in H. exact H.
Qed.

Lemma parse_trimmed_signed (s : list ascii) (x : spec_float) :
  ~ In "-"%char s -> parse_trimmed s = Some x ->
  x = S754_nan \/ signed false x.
Proof.
  intros Hno. unfold parse_trimmed.
  assert (Hs : fst (take_sign (trim_spaces s)) = false).
  { apply take_sign_no_minus. intros H. apply Hno, trim_spaces_incl, H. }
  destruct (parse_number (trim_spaces s)) as [y |] eqn:Hn.
  - intros H. inversion H; subst y. right. rewrite <- Hs.
    apply parse_number_signed, Hn.
  - intros H. rewrite <- Hs. apply parse_inf_nan_signed, H.
Qed.

Lemma contains_minus (s : string) :
  PyStr.contains "-" s = false -> ~ In "-"%char (list_ascii_of_string s).
Proof.
  induction s as [| a s IH]; [intros _ [] |].
  cbn [PyStr.contains prefix list_ascii_of_string]. intros H [E | Hin].
  - subst a. destruct (ascii_dec "-" "-") as [_ | N]; [| apply N; reflexivity].
    destruct s; discriminate H.
  - apply orb_false_elim in H. exact (IH (proj2 H) Hin).
Qed.

Lemma remove_char_incl (k c : ascii) (s : string) :
  In c (list_ascii_of_string (PyStr.remove_char k s)) ->
  In c (list_ascii_of_string s).
Proof.
  induction s as [| a s IH]; [intros [] |]. cbn [PyStr.remove_char].
  destruct (Ascii.eqb a k); cbn [list_ascii_of_string].
  - intros H. right. exact (IH H).
  - intros [E | H]; [left; exact E | right; exact (IH H)].
Qed.

Lemma ascii_for_not_minus (cp : Z) (ch : ascii) :
  ascii_for cp = Some ch -> ch <> "-"%char.
Proof.
  unfold ascii_for. destruct (unicode_space cp).
  - intros H. inversion H. discriminate.
  - unfold unicode_decimal.
    destruct (find (fun z => (z <=? cp) && (cp <=? z + 9)) decimal_zeros)
      as [z |] eqn:Hf; [| discriminate].
    apply find_some in Hf. destruct Hf as [_ Hz].
    apply andb_prop in Hz. destruct Hz as [H1 H2].
    apply Z.leb_le in H1, H2. intros H. inversion H. intros E.
    apply (f_equal nat_of_ascii) in E.
    rewrite nat_ascii_embedding in E by lia.
    cbn in E. lia.
Qed.

Lemma emit_minus (cp least : Z) (rest : option (list ascii)) (l : list ascii) :
  emit cp least rest = Some l -> In "-"%char l ->
  exists l', rest = Some l' /\ In "-"%char l'.
Proof.
  unfold emit. destruct (cp <? least); [discriminate |].
  destruct (ascii_for cp) as [ch |] eqn:Hc; [| discriminate].
  destruct rest as [l' |]; [| discriminate].
  intros H. inversion H. intros [E | Hin].
  - exfalso. exact (ascii_for_not_minus cp ch Hc E).
  - exists l'. split; [reflexivity | exact Hin].
Qed.

(** The replacement of the characters outside ASCII brings in no minus
    sign. *)
Lemma to_ascii_minus (n : nat) :
  forall s l, (List.length s <= n)%nat ->
    to_ascii s = Some l -> In "-"%char l -> In "-"%char s.
Proof.
  induction n as [| n IH]; intros s l Hlen.
  - destruct s; [| cbn in Hlen; lia]. cbn. intros H. inversion H. intros [].
  - destruct s as [| a r1]; [cbn; intros H; inversion H; intros [] |].
    cbn [List.length] in Hlen. cbn [to_ascii].
    destruct (byte_of a <? 127).
    { destruct (to_ascii r1) as [l1 |] eqn:H1; [| discriminate].
      intros H. inversion H. intros [E | Hin]; [left; exact E | right].
      apply (IH r1 l1); [lia | exact H1 | exact Hin]. }
    destruct r1 as [| b r2]; [discriminate |]. cbn [List.length] in Hlen.
    destruct ((194 <=? byte_of a) && (byte_of a <=? 223)).
    { destruct (continuation b) as [y |]; [| discriminate].
      intros H Hin. destruct (emit_minus _ _ _ _ H Hin) as [l' [Hr Hin']].
      right. right. apply (IH r2 l'); [lia | exact Hr | exact Hin']. }
    destruct r2 as [| c r3]; [discriminate |]. cbn [List.length] in Hlen.
    destruct ((224 <=? byte_of a) && (byte_of a <=? 239)).
    { destruct (continuation b) as [y |]; [| discriminate].
      destruct (continuation c) as [z |]; [| discriminate].
      intros H Hin. destruct (emit_minus _ _ _ _ H Hin) as [l' [Hr Hin']].
      right. right. right. apply (IH r3 l'); [lia | exact Hr | exact Hin']. }
    destruct r3 as [| d r4]; [discriminate |]. cbn [List.length] in Hlen.
    destruct ((240 <=? byte_of a) && (byte_of a <=? 244)); [| discriminate].
    destruct (continuation b) as [y |]; [| discriminate].
    destruct (continuation c) as [z |]; [| discriminate].
    destruct (continuation d) as [w |]; [| discriminate].
    intros H Hin. destruct (emit_minus _ _ _ _ H Hin) as [l' [Hr Hin']].
    right. right. right. right. apply (IH r4 l'); [lia | exact Hr | exact Hin'].
Qed.

(** A string without a minus sign parses, when it parses, to a NaN or to
    a value whose sign bit is clear. *)
Lemma py_float_no_minus (s : string) (x : spec_float) :
  ~ In "-"%char (list_ascii_of_string s) ->
  py_float s = Some x -> x = S754_nan \/ signed false x.
Proof.
  intros Hno. unfold py_float.
  destruct (to_ascii (list_ascii_of_string s)) as [l |] eqn:Hl; [| discriminate].
  assert (Hno' : ~ In "-"%char l).
  { intros Hin. apply Hno.
    exact (to_ascii_minus _ _ l (le_n _) Hl Hin). }
  destruct (existsb _ l).
  - destruct (underscores_ok _ _); [| discriminate].
    apply parse_trimmed_signed. intros H. apply filter_In in H.
    apply Hno', H.
  - apply parse_trimmed_signed, Hno'.
Qed.

End PyFloatFacts.

(** ** The freshness formatter *)

Module FreshnessFacts.
Import Freshness PyFloat PyFloatFacts.

(** The instant a datetime denotes, in microseconds of UTC; a naive
    datetime is read as UTC. *)
Definition instant (d : datetime) : Z :=
  match tzinfo d with
  | Some off => wall d - off
  | None => wall d
  end.

(** The function only depends on the distance between the clock and the
    instant of [past]. *)
Lemma format_time_difference_delta (clock_now : Z) (past : datetime) :
  format_time_difference clock_now past
  = bucket (minutes_of (clock_now - instant past)).
Proof.
  unfold format_time_difference, instant, datetime_sub.
  destruct past as [w [off |]];
    cbn [tzinfo wall replace_tzinfo_utc utc_datetime bind];
    rewrite !Z.sub_0_r; reflexivity.
Qed.

Lemma minutes_of_negative (delta : Z) :
  delta < 0 -> signed true (minutes_of delta).
Proof.
  intros H. destruct delta as [| p | p]; try lia.
  unfold minutes_of, sixty. apply fdiv_signed, int_true_div_negative.
Qed.

(** C10. For a timestamp strictly later than the clock the function
    returns, without raising, the text of the first branch: the negative
    difference is below one minute, so no minute or hour count, negative
    or not, is produced. *)
Theorem future_timestamp_is_moments (clock_now : Z) (past : datetime) :
  clock_now < instant past ->
  format_time_difference clock_now past = Ok moments.
Proof.
  intros H. rewrite format_time_difference_delta. unfold bucket.
  assert (Hneg : clock_now - instant past < 0) by lia.
  rewrite (signed_true_below_one _ (minutes_of_negative _ Hneg)).
  reflexivity.
Qed.

(** A timestamp five microseconds ahead of the clock, with an offset of
    one hour. *)
Lemma future_timestamp_is_moments_witness :
  format_time_difference 0 (mkDatetime 3600000005 (Some 3600000000))
  = Ok moments.
Proof.
  apply (future_timestamp_is_moments 0 (mkDatetime 3600000005 (Some 3600000000))).
  vm_compute. reflexivity.
Defined.




(** The texts of the three examples. *)
Example bucket_texts :
  moments = "لحظاتی پیش"
  /\ minutes_ago 45 = "45 دقیقه پیش"
  /\ hours_ago 3 = "3 ساعت پیش".
Proof. repeat split; vm_compute; reflexivity. Qed.

End FreshnessFacts.

(** ** The price pipeline *)

Module PricesFacts.
Import Prices PyFloat PyFloatFacts.

(** The entry of [key] in a [current] section and in a document; [None]
    when the section is not a dictionary or has no such key. *)
Definition entry_in (current : json) (key : string) : option json :=
  match current with
  | JObj c => PyDict.get key c
  | _ => None
  end.

Definition entry_of (doc : json) (key : string) : option json :=
  match PyJson.get doc "current" (JObj []) with
  | Ok current => entry_in current key
  | Raise _ => None
  end.

(** The entry is a dictionary with the sub-field [f]. *)
Definition has_field (f : string) (entry : json) : bool :=
  match entry with
  | JObj e => match PyDict.get f e with Some _ => true | None => false end
  | _ => false
  end.

(** The entry is absent, or lacks its [p] or its [ts] sub-field. *)
Definition lacks_quote (found : option json) : Prop :=
  found = None
  \/ exists entry, found = Some entry
       /\ (has_field "p" entry = false \/ has_field "ts" entry = false).

(** The raw price text of [key], when the entry is a dictionary whose
    [p] is a string. *)
Definition price_text (doc : json) (key : string) : option string :=
  match entry_of doc key with
  | Some (JObj entry) =>
      match PyDict.get "p" entry with
      | Some (JStr p) => Some p
      | _ => None
      end
  | _ => None
  end.

(** Comma stripping and the float parse with its [0.0] fallback. *)
Definition parsed (p : string) : spec_float :=
  match py_float (PyStr.remove_char "," p) with
  | Some x => x
  | None => zero
  end.

Lemma truthy_obj (d : list (string * json)) :
  PyJson.truthy (JObj d) = match d with [] => false | _ => true end.
Proof. reflexivity. Qed.

Lemma get_some_nonempty {V : Type} (k : string) (d : list (string * V)) (v : V) :
  PyDict.get k d = Some v -> d <> [].
Proof. destruct d; [discriminate | intros _; discriminate]. Qed.

Lemma malformed_obj (d : list (string * json)) :
  malformed (JObj d)
  = Ok (match d, PyDict.get "p" d, PyDict.get "ts" d with
        | _ :: _, Some _, Some _ => false
        | _, _, _ => true
        end).
Proof.
  unfold malformed. rewrite truthy_obj. unfold PyJson.contains.
  destruct d as [| x r]; [reflexivity |]. cbn [negb bind].
  destruct (PyDict.get "p" (x :: r)); [| reflexivity]. cbn [negb bind].
  destruct (PyDict.get "ts" (x :: r)); reflexivity.
Qed.

(** When the guard lets an entry without both sub-fields through, the
    entry is not a dictionary and the next step raises. *)
Lemma lacking_entry_fails (entry : json) :
  has_field "p" entry = false \/ has_field "ts" entry = false ->
  malformed entry = Ok false ->
  forall k dflt, PyJson.get entry k dflt = Raise AttributeError.
Proof.
  intros Hl Hm k dflt.
  destruct entry as [| b | n | x | s | l | d]; try reflexivity.
  exfalso. rewrite malformed_obj in Hm. unfold has_field in Hl.
  destruct d as [| x r]; [discriminate |].
  destruct (PyDict.get "p" (x :: r)), (PyDict.get "ts" (x :: r));
    try discriminate; destruct Hl; discriminate.
Qed.

Section WithClock.

Variable fromisoformat : string -> option datetime.
Variable isoformat : datetime -> string.
Variable clock : nat -> Z.

Lemma price_entry_raises (key : string) (current : json) (tick : nat) :
  lacks_quote (entry_in current key) ->
  exists e, price_entry fromisoformat clock key current tick = Raise e.
Proof.
  intros Hl. unfold price_entry.
  destruct current as [| b | n | x | s | l | c];
    try (exists AttributeError; reflexivity).
  cbn [entry_in] in Hl. cbn [PyJson.get bind].
  destruct Hl as [Hn | [entry [Hs Hf]]].
  - rewrite Hn. exists ValueError. reflexivity.
  - rewrite Hs. destruct (malformed entry) as [[|] | e] eqn:Hm; cbn [bind].
    + exists ValueError. reflexivity.
    + rewrite (lacking_entry_fails entry Hf Hm). exists AttributeError. reflexivity.
    + exists e. reflexivity.
Qed.

Lemma price_loop_raises (current : json) (keys : list (string * string)) :
  (exists label key, In (label, key) keys /\ lacks_quote (entry_in current key)) ->
  forall res tick,
  exists e, price_loop fromisoformat clock keys current res tick = Raise e.
Proof.
  induction keys as [| [label0 key0] rest IH]; intros [label [key [Hin Hl]]] res tick.
  - destruct Hin.
  - cbn [price_loop].
    destruct (price_entry fromisoformat clock key0 current tick) as [r | e] eqn:He;
      cbn [bind]; [| exists e; reflexivity].
    destruct Hin as [Heq | Hin].
    + inversion Heq; subst.
      destruct (price_entry_raises key current tick Hl) as [e He'].
      rewrite He' in He. discriminate He.
    + apply IH. exists label, key. split; assumption.
Qed.

(** A quote that reaches the snapshot comes from an entry with a string
    price, and its text is the formatted value of that price. *)
Lemma price_entry_inv (key : string) (current : json) (tick tick' : nat)
  (q : quote) :
  price_entry fromisoformat clock key current tick = Ok (q, tick') ->
  exists c entry p tsv,
    current = JObj c /\ PyDict.get key c = Some (JObj entry)
    /\ PyDict.get "p" entry = Some (JStr p)
    /\ PyDict.get "ts" entry = Some tsv
    /\ formatted_value key (value_num key (PyStr.remove_char "," p)) = Ok (fst q)
    /\ parse_timestamp fromisoformat clock tsv tick = (snd q, tick').
Proof.
  unfold price_entry.
  destruct current as [| b | n | x | s | l | c]; try discriminate.
  cbn [PyJson.get bind].
  destruct (PyDict.get key c) as [entry |] eqn:Hk; [| discriminate].
  destruct (malformed entry) as [[|] | e] eqn:Hm; cbn [bind]; try discriminate.
  destruct entry as [| b | n | x | s | l | d]; try discriminate.
  rewrite malformed_obj in Hm. cbn [PyJson.get bind].
  destruct d as [| x r]; [discriminate |].
  destruct (PyDict.get "p" (x :: r)) as [pv |] eqn:Hp; [| discriminate].
  destruct (PyDict.get "ts" (x :: r)) as [tsv |] eqn:Hts; [| discriminate].
  destruct pv as [| b | n | y | p | l | d]; try discriminate.
  cbn [PyJson.replace_commas bind].
  destruct (formatted_value key (value_num key (PyStr.remove_char "," p)))
    as [text | e] eqn:Hf; cbn [bind]; [| discriminate].
  destruct (parse_timestamp fromisoformat clock tsv tick) as [ts t'] eqn:Ht.
  intros H. inversion H; subst. cbn [fst snd].
  exists c, (x :: r), p, tsv. repeat split; assumption.
Qed.

Lemma price_entry_complete (key : string) (c entry : list (string * json))
  (p : string) (tsv : json) (text : string) (tick : nat) :
  PyDict.get key c = Some (JObj entry) ->
  PyDict.get "p" entry = Some (JStr p) ->
  PyDict.get "ts" entry = Some tsv ->
  formatted_value key (value_num key (PyStr.remove_char "," p)) = Ok text ->
  price_entry fromisoformat clock key (JObj c) tick
  = Ok ((text, fst (parse_timestamp fromisoformat clock tsv tick)),
        snd (parse_timestamp fromisoformat clock tsv tick)).
Proof.
  intros Hk Hp Hts Hf. unfold price_entry. cbn [PyJson.get bind].
  rewrite Hk. cbn [bind]. rewrite malformed_obj.
  pose proof (get_some_nonempty _ _ _ Hp) as Hne.
  destruct entry as [| x r]; [contradiction |].
  rewrite Hp, Hts. cbn [PyJson.get bind].
  rewrite Hp, Hts. cbn [PyJson.replace_commas bind]. rewrite Hf. cbn [bind].
  destruct (parse_timestamp fromisoformat clock tsv tick); reflexivity.
Qed.

End WithClock.

End PricesFacts.

Module PricesProperties.
Import Prices PyFloat PyFloatFacts PricesFacts.

Lemma formatted_ons (clean : string) :
  formatted_value "ons" (value_num "ons" clean)
  = Ok (format_2f (match py_float clean with Some x => x | None => zero end)).
Proof. reflexivity. Qed.

Lemma formatted_local (key clean : string) :
  key <> "ons" ->
  formatted_value key (value_num key clean)
  = (n <- to_int (fdiv (match py_float clean with Some x => x | None => zero end) ten) ;;
     Ok (format_int n)).
Proof.
  intros Hk. unfold formatted_value, value_num.
  apply String.eqb_neq in Hk. rewrite Hk. reflexivity.
Qed.

(** A document of the expected shape: for every configured key an entry
    that is a dictionary whose [p] and [ts] are strings. *)
Definition complete_entry (found : option json) : bool :=
  match found with
  | Some (JObj entry) =>
      match PyDict.get "p" entry, PyDict.get "ts" entry with
      | Some (JStr _), Some (JStr _) => true
      | _, _ => false
      end
  | _ => false
  end.

Definition complete_document (doc : json) : bool :=
  forallb (fun lk => complete_entry (entry_of doc (snd lk))) PRICE_KEYS.

(** [0.0 <= x]. *)
Definition non_negative (x : spec_float) : bool := SFleb zero x.

Lemma complete_document_entry (doc : json) (label key : string) :
  complete_document doc = true -> In (label, key) PRICE_KEYS ->
  exists entry p ts,
    entry_of doc key = Some (JObj entry)
    /\ PyDict.get "p" entry = Some (JStr p)
    /\ PyDict.get "ts" entry = Some (JStr ts).
Proof.
  intros Hc Hin. unfold complete_document in Hc.
  rewrite forallb_forall in Hc. specialize (Hc (label, key) Hin).
  cbn [snd] in Hc. unfold complete_entry in Hc.
  destruct (entry_of doc key) as [[| b | n | x | s | l | entry] |];
    try discriminate.
  destruct (PyDict.get "p" entry) as [[| b | n | x | p | l | d] |] eqn:Hp;
    try discriminate.
  destruct (PyDict.get "ts" entry) as [[| b | n | x | ts | l | d] |] eqn:Hts;
    try discriminate.
  exists entry, p, ts. split; [reflexivity | split; assumption].
Qed.

Lemma entry_of_inv (doc : json) (key : string) (e : json) :
  entry_of doc key = Some e ->
  exists d c,
    doc = JObj d
    /\ match PyDict.get "current" d with Some x => x | None => JObj [] end = JObj c
    /\ PyDict.get key c = Some e.
Proof.
  unfold entry_of.
  destruct doc as [| b | n | x | s | l | d]; try discriminate.
  cbn [PyJson.get].
  destruct (match PyDict.get "current" d with Some x => x | None => JObj [] end)
    as [| b | n | x | s | l | c] eqn:Hc; try discriminate.
  cbn [entry_in]. intros H. exists d, c. repeat split; assumption.
Qed.

Lemma to_int_finite (x : spec_float) :
  is_finite x = true -> exists n, to_int x = Ok n.
Proof.
  destruct x as [s | s | | s m e]; try discriminate; intros _; eexists; reflexivity.
Qed.

Lemma value_num_unparsed (key clean : string) :
  py_float clean = None -> value_num key clean = zero.
Proof.
  intros H. unfold value_num. rewrite H.
  destruct (negb (String.eqb key "ons")); reflexivity.
Qed.

Lemma value_num_non_negative (key p : string) :
  PyStr.contains "-" p = false ->
  py_float (PyStr.remove_char "," p) <> Some S754_nan ->
  non_negative (value_num key (PyStr.remove_char "," p)) = true.
Proof.
  intros Hm Hnan. apply signed_false_nonneg.
  assert (Hv : signed false
    (match py_float (PyStr.remove_char "," p) with Some x => x | None => zero end)).
  { destruct (py_float (PyStr.remove_char "," p)) as [x |] eqn:Hp; [| reflexivity].
    assert (Hno : ~ In "-"%char
      (list_ascii_of_string (PyStr.remove_char "," p))).
    { intros Hin. apply (contains_minus p Hm), (remove_char_incl _ _ _ Hin). }
    destruct (py_float_no_minus _ x Hno Hp) as [E | Hs]; [| exact Hs].
    subst x. contradiction. }
  unfold value_num. destruct (negb (String.eqb key "ons")); [| exact Hv].
  unfold ten. apply fdiv_signed, Hv.
Qed.

Section WithClock.

Variable fromisoformat : string -> option datetime.
Variable isoformat : datetime -> string.
Variable clock : nat -> Z.

Abbreviation price_entry := (Prices.price_entry fromisoformat clock).
Abbreviation price_loop := (Prices.price_loop fromisoformat clock).
Abbreviation fetch_prices := (Prices.fetch_prices fromisoformat isoformat clock).

(** The loop over the three configured keys, unrolled. *)
Lemma price_loop_keys (current : json) (tick : nat) :
  price_loop PRICE_KEYS current [] tick
  = (r1 <- price_entry "price_dollar_rl" current tick ;;
     r2 <- price_entry "sekee_real" current (snd r1) ;;
     r3 <- price_entry "ons" current (snd r2) ;;
     Ok (combine (map fst PRICE_KEYS) [fst r1; fst r2; fst r3], snd r3)).
Proof.
  unfold PRICE_KEYS. cbn [Prices.price_loop].
  destruct (price_entry "price_dollar_rl" current tick) as [r1 | e];
    cbn [bind]; [| reflexivity].
  destruct (price_entry "sekee_real" current (snd r1)) as [r2 | e];
    cbn [bind]; [| reflexivity].
  destruct (price_entry "ons" current (snd r2)) as [r3 | e];
    cbn [bind]; reflexivity.
Qed.

Lemma fetch_prices_inv (doc : json) (t : string) (res : snapshot) :
  fetch_prices (Ok doc) = Ok (t, res) ->
  exists d r1 r2 r3,
    doc = JObj d
    /\ let current :=
         match PyDict.get "current" d with Some x => x | None => JObj [] end in
       price_entry "price_dollar_rl" current 0%nat = Ok r1
       /\ price_entry "sekee_real" current (snd r1) = Ok r2
       /\ price_entry "ons" current (snd r2) = Ok r3
       /\ res = combine (map fst PRICE_KEYS) [fst r1; fst r2; fst r3].
Proof.
  unfold Prices.fetch_prices. cbn [bind].
  destruct doc as [| b | n | x | s | l | d]; try discriminate.
  cbn [PyJson.get bind]. rewrite price_loop_keys.
  set (current := match PyDict.get "current" d with Some x => x | None => JObj [] end).
  destruct (price_entry "price_dollar_rl" current 0%nat) as [r1 | e] eqn:E1;
    cbn [bind]; [| discriminate].
  destruct (price_entry "sekee_real" current (snd r1)) as [r2 | e] eqn:E2;
    cbn [bind]; [| discriminate].
  destruct (price_entry "ons" current (snd r2)) as [r3 | e] eqn:E3;
    cbn [bind]; [| discriminate].
  intros H. inversion H; subst.
  exists d, r1, r2, r3. split; [reflexivity |]. cbv zeta. fold current.
  repeat split; assumption.
Qed.

(** C1. When the entry of a configured key is absent from the [current]
    section of the document, or lacks its [p] or its [ts] sub-field,
    [fetch_prices] raises: it returns no snapshot, partial or not. *)
Theorem missing_field_is_hard_failure (doc : json) (label key : string) :
  In (label, key) PRICE_KEYS ->
  lacks_quote (entry_of doc key) ->
  exists e, fetch_prices (Ok doc) = Raise e
            /\ is_ok (fetch_prices (Ok doc)) = false.
Proof.
  intros Hin Hl.
  assert (H : exists e, fetch_prices (Ok doc) = Raise e).
  { unfold Prices.fetch_prices. cbn [bind]. unfold entry_of in Hl.
    destruct (PyJson.get doc "current" (JObj [])) as [current | e];
      cbn [bind]; [| exists e; reflexivity].
    destruct (price_loop_raises fromisoformat clock current PRICE_KEYS
                (ex_intro _ label (ex_intro _ key (conj Hin Hl))) [] 0%nat)
      as [e He].
    change (Prices.price_loop fromisoformat clock PRICE_KEYS current [] 0%nat = Raise e) in He.
    rewrite He. exists e. reflexivity. }
  destruct H as [e He]. exists e. rewrite He. split; reflexivity.
Qed.

(** C2. In every snapshot [fetch_prices] returns, the text shown for an
    instrument is computed from the raw price string [p] of its entry:
    commas are removed and the rest is parsed as a float ([0.0] when it
    does not parse); for [ons] that value is formatted with two decimals
    and grouping, for every other key it is divided by ten, truncated to
    an integer and formatted with grouping. So ["1,234,560"] shows as
    ["123,456"] for a local-currency key and ["1,950.55"] shows as
    ["1,950.55"] for [ons]. *)
Theorem price_display (doc : json) (t : string) (res : snapshot)
  (label key : string) :
  fetch_prices (Ok doc) = Ok (t, res) ->
  In (label, key) PRICE_KEYS ->
  exists p shown ts,
    price_text doc key = Some p
    /\ PyDict.get label res = Some (shown, ts)
    /\ (key = "ons" -> shown = format_2f (parsed p))
    /\ (key <> "ons" ->
        exists n, to_int (fdiv (parsed p) ten) = Ok n /\ shown = format_int n)
    /\ (key <> "ons" -> p = "1,234,560" -> shown = "123,456")
    /\ (key = "ons" -> p = "1,950.55" -> shown = "1,950.55").
Proof.
  intros Hf Hin.
  destruct (fetch_prices_inv doc t res Hf) as [d [r1 [r2 [r3 [Hd [H1 [H2 [H3 Hres]]]]]]]].
  assert (Hq : exists r tick,
    price_entry key
      (match PyDict.get "current" d with Some x => x | None => JObj [] end) tick
    = Ok r /\ PyDict.get label res = Some (fst r)).
  { subst res. unfold PRICE_KEYS in Hin.
    destruct Hin as [E | [E | [E | []]]]; inversion E; subst label key.
    - exists r1, 0%nat. split; [exact H1 | reflexivity].
    - exists r2, (snd r1). split; [exact H2 | reflexivity].
    - exists r3, (snd r2). split; [exact H3 | reflexivity]. }
  destruct Hq as [[q tick'] [tick [He Hg]]].
  destruct (price_entry_inv fromisoformat clock key _ tick tick' q He)
    as [c [entry [p [tsv [Hc [Hk [Hp [Hts [Hfmt Htime]]]]]]]]].
  exists p, (fst q), (snd q). cbn [fst] in Hg.
  assert (Hpt : price_text doc key = Some p).
  { unfold price_text, entry_of. subst doc. cbn [PyJson.get]. rewrite Hc.
    cbn [entry_in]. rewrite Hk, Hp. reflexivity. }
  assert (Hons : key = "ons" -> fst q = format_2f (parsed p)).
  { intros ->. rewrite formatted_ons in Hfmt. inversion Hfmt. reflexivity. }
  assert (Hloc : key <> "ons" ->
    exists n, to_int (fdiv (parsed p) ten) = Ok n /\ fst q = format_int n).
  { intros Hne. rewrite (formatted_local key _ Hne) in Hfmt.
    fold (parsed p) in Hfmt.
    destruct (to_int (fdiv (parsed p) ten)) as [n | e]; [| discriminate].
    exists n. split; [reflexivity |]. inversion Hfmt. reflexivity. }
  split; [exact Hpt |]. split; [destruct q; exact Hg |].
  split; [exact Hons |]. split; [exact Hloc |]. split.
  - intros Hne ->. destruct (Hloc Hne) as [n [Hn Hs]]. rewrite Hs.
    vm_compute in Hn. inversion Hn. reflexivity.
  - intros Hk' ->. rewrite (Hons Hk'). vm_compute. reflexivity.
Qed.

Lemma price_entry_total (key : string) (c entry : list (string * json))
  (p ts : string) :
  PyDict.get key c = Some (JObj entry) ->
  PyDict.get "p" entry = Some (JStr p) ->
  PyDict.get "ts" entry = Some (JStr ts) ->
  (key <> "ons" -> is_finite (value_num key (PyStr.remove_char "," p)) = true) ->
  exists text, forall tick,
    price_entry key (JObj c) tick
    = Ok ((text, fst (parse_timestamp fromisoformat clock (JStr ts) tick)),
          snd (parse_timestamp fromisoformat clock (JStr ts) tick)).
Proof.
  intros Hk Hp Hts Hfin.
  assert (Hf : exists text,
    formatted_value key (value_num key (PyStr.remove_char "," p)) = Ok text).
  { unfold formatted_value. destruct (String.eqb_spec key "ons") as [E | N].
    - eexists. reflexivity.
    - destruct (to_int_finite _ (Hfin N)) as [n Hn]. rewrite Hn.
      eexists. reflexivity. }
  destruct Hf as [text Hf]. exists text. intros tick.
  exact (price_entry_complete fromisoformat clock key c entry p (JStr ts)
           text tick Hk Hp Hts Hf).
Qed.

(** C3, amended. For a document that has, for every configured key, an
    entry with string [p] and [ts] sub-fields, and in which no
    local-currency price converts to a NaN or an infinity,
    [fetch_prices] returns a snapshot whose keys are exactly the
    configured labels, in their order. The numeric value of an
    instrument is [0.0] when its price does not parse, and it is
    non-negative whenever the price string holds no minus sign and does
    not parse to a NaN; a price with a minus sign keeps its sign. *)
Theorem snapshot_of_complete_document (doc : json) :
  complete_document doc = true ->
  (forall label key p,
     In (label, key) PRICE_KEYS -> key <> "ons" ->
     price_text doc key = Some p ->
     is_finite (value_num key (PyStr.remove_char "," p)) = true) ->
  exists t res,
    fetch_prices (Ok doc) = Ok (t, res)
    /\ PyDict.keys res = map fst PRICE_KEYS
    /\ forall label key p,
         In (label, key) PRICE_KEYS -> price_text doc key = Some p ->
         (py_float (PyStr.remove_char "," p) = None ->
          value_num key (PyStr.remove_char "," p) = zero)
         /\ (PyStr.contains "-" p = false ->
             py_float (PyStr.remove_char "," p) <> Some S754_nan ->
             non_negative (value_num key (PyStr.remove_char "," p)) = true).
Proof.
  intros Hc Hfin.
  assert (Hkey : forall label key, In (label, key) PRICE_KEYS ->
    exists c text ts,
      doc = JObj c
      /\ forall tick,
         price_entry key
           (match PyDict.get "current" c with Some x => x | None => JObj [] end) tick
         = Ok ((text, fst (parse_timestamp fromisoformat clock (JStr ts) tick)),
               snd (parse_timestamp fromisoformat clock (JStr ts) tick))).
  { intros label key Hin.
    destruct (complete_document_entry doc label key Hc Hin)
      as [entry [p [ts [He [Hp Hts]]]]].
    destruct (entry_of_inv doc key _ He) as [d [c [Hd [Hcur Hk]]]].
    assert (Hpt : price_text doc key = Some p).
    { unfold price_text. rewrite He, Hp. reflexivity. }
    destruct (price_entry_total key c entry p ts Hk Hp Hts
                (fun N => Hfin label key p Hin N Hpt)) as [text Ht].
    exists d, text, ts. split; [exact Hd |]. rewrite Hcur. exact Ht. }
  destruct (Hkey _ "price_dollar_rl" (or_introl eq_refl)) as [c [x1 [ts1 [Hd H1]]]].
  destruct (Hkey _ "sekee_real" (or_intror (or_introl eq_refl)))
    as [c2 [x2 [ts2 [Hd2 H2]]]].
  destruct (Hkey _ "ons" (or_intror (or_intror (or_introl eq_refl))))
    as [c3 [x3 [ts3 [Hd3 H3]]]].
  subst doc. inversion Hd2; subst c2. inversion Hd3; subst c3.
  unfold Prices.fetch_prices. cbn [bind PyJson.get].
  rewrite price_loop_keys, H1. cbn [bind snd]. rewrite H2. cbn [bind snd].
  rewrite H3. cbn [bind fst snd].
  eexists. eexists. split; [reflexivity |]. split; [reflexivity |].
  intros label key p _ _. split.
  - apply value_num_unparsed.
  - apply value_num_non_negative.
Qed.

End WithClock.

(** A document with the three configured entries. *)
Definition quote_entry (p ts : string) : json :=
  JObj [("p", JStr p); ("ts", JStr ts)].

Definition document (dollar coin ounce : string) : json :=
  JObj [("current",
         JObj [("price_dollar_rl", quote_entry dollar "2025-08-01 10:00:00");
               ("sekee_real", quote_entry coin "2025-08-01 10:00:05");
               ("ons", quote_entry ounce "2025-08-01 09:59:58")])].

(** A document without the [ons] entry. *)
Definition document_without_ons : json :=
  JObj [("current",
         JObj [("price_dollar_rl", quote_entry "1,234,560" "2025-08-01 10:00:00");
               ("sekee_real", quote_entry "987,654,320" "2025-08-01 10:00:05")])].

(** A world for the examples: no timestamp parses and the clock counts
    its readings. *)
Definition no_iso (s : string) : option datetime := None.
Definition iso_text (d : datetime) : string := "now".
Definition counting_clock (n : nat) : Z := Z.of_nat n.

Lemma missing_field_is_hard_failure_witness :
  exists e,
    fetch_prices no_iso iso_text counting_clock (Ok document_without_ons) = Raise e
    /\ is_ok (fetch_prices no_iso iso_text counting_clock (Ok document_without_ons))
       = false.
Proof.
  apply (missing_field_is_hard_failure no_iso iso_text counting_clock
           document_without_ons (fst (nth 2 PRICE_KEYS ("", ""))) "ons").
  - right. right. left. reflexivity.
  - left. reflexivity.
Defined.

Lemma price_display_witness :
  exists p shown ts,
    price_text (document "1,234,560" "987,654,320" "1,950.55") "price_dollar_rl"
    = Some p
    /\ PyDict.get (fst (nth 0 PRICE_KEYS ("", "")))
         [ (fst (nth 0 PRICE_KEYS ("", "")), ("123,456", utc_datetime 0));
           (fst (nth 1 PRICE_KEYS ("", "")), ("98,765,432", utc_datetime 1));
           (fst (nth 2 PRICE_KEYS ("", "")), ("1,950.55", utc_datetime 2)) ]
       = Some (shown, ts)
    /\ ("price_dollar_rl" = "ons" -> shown = format_2f (parsed p))
    /\ ("price_dollar_rl" <> "ons" ->
        exists n, to_int (fdiv (parsed p) ten) = Ok n /\ shown = format_int n)
    /\ ("price_dollar_rl" <> "ons" -> p = "1,234,560" -> shown = "123,456")
    /\ ("price_dollar_rl" = "ons" -> p = "1,950.55" -> shown = "1,950.55").
Proof.
  apply (price_display no_iso iso_text counting_clock
           (document "1,234,560" "987,654,320" "1,950.55") "now").
  - vm_compute. reflexivity.
  - left. reflexivity.
Defined.

(** C3, as stated, fails: the document below has an entry with string
    [p] and [ts] for every configured key, [fetch_prices] returns its
    snapshot, and the numeric value of the [ons] instrument is negative:
    a leading minus sign goes through the float parse. *)
Lemma negative_price_reaches_snapshot :
  complete_document (document "1,234,560" "987,654,320" "-5") = true
  /\ fetch_prices no_iso iso_text counting_clock
       (Ok (document "1,234,560" "987,654,320" "-5"))
     = Ok ("now",
           [ (fst (nth 0 PRICE_KEYS ("", "")), ("123,456", utc_datetime 0));
             (fst (nth 1 PRICE_KEYS ("", "")), ("98,765,432", utc_datetime 1));
             (fst (nth 2 PRICE_KEYS ("", "")), ("-5.00", utc_datetime 2)) ])
  /\ price_text (document "1,234,560" "987,654,320" "-5") "ons" = Some "-5"
  /\ value_num "ons" (PyStr.remove_char "," "-5") = SFopp (of_Z 5)
  /\ non_negative (value_num "ons" (PyStr.remove_char "," "-5")) = false.
Proof. repeat split; vm_compute; reflexivity. Qed.

(** A price that parses to a NaN or an infinity: the integer conversion
    of a local-currency value raises, and no snapshot is returned. *)
Example not_a_number_price_raises :
  complete_document (document "nan" "987,654,320" "1,950.55") = true
  /\ fetch_prices no_iso iso_text counting_clock
       (Ok (document "nan" "987,654,320" "1,950.55")) = Raise ValueError
  /\ fetch_prices no_iso iso_text counting_clock
       (Ok (document "1,234,560" "1e999" "1,950.55")) = Raise OverflowError.
Proof. repeat split; vm_compute; reflexivity. Qed.

Lemma snapshot_of_complete_document_witness :
  exists t res,
    fetch_prices no_iso iso_text counting_clock
      (Ok (document "1,234,560" "abc" "1,950.55")) = Ok (t, res)
    /\ PyDict.keys res = map fst PRICE_KEYS
    /\ forall label key p,
         In (label, key) PRICE_KEYS ->
         price_text (document "1,234,560" "abc" "1,950.55") key = Some p ->
         (py_float (PyStr.remove_char "," p) = None ->
          value_num key (PyStr.remove_char "," p) = zero)
         /\ (PyStr.contains "-" p = false ->
             py_float (PyStr.remove_char "," p) <> Some S754_nan ->
             non_negative (value_num key (PyStr.remove_char "," p)) = true).
Proof.
  apply (snapshot_of_complete_document no_iso iso_text counting_clock
           (document "1,234,560" "abc" "1,950.55")).
  - vm_compute. reflexivity.
  - intros label key p [E | [E | [E | []]]] Hne Hp; inversion E; subst label key.
    + vm_compute in Hp. inversion Hp. vm_compute. reflexivity.
    + vm_compute in Hp. inversion Hp. vm_compute. reflexivity.
    + exfalso. apply Hne. reflexivity.
Defined.

End PricesProperties.

(** * Further properties of the code *)

(** ** Trimmed texts *)

Module PyStrFacts.
Import PyStr.

(** The text begins with a white-space character; with [back] set, for
    a text read last byte first. *)
Definition head_space (back : bool) (s : string) : bool :=
  match s with
  | EmptyString => false
  | String a s1 =>
      is_space1 a
      || match s1 with
         | EmptyString => false
         | String b s2 =>
             (if back then is_space2 b a else is_space2 a b)
             || match s2 with
                | EmptyString => false
                | String c _ =>
                    if back then is_space3 c b a else is_space3 a b c
                end
         end
  end.

Definition leading_space (s : string) : bool := head_space false s.
Definition trailing_space (s : string) : bool :=
  head_space true (rev_string "" s).

Lemma strip_front_stops (back : bool) (s : string) :
  head_space back s = false -> strip_front back s = s.
Proof.
  destruct s as [| a [| b [| c s3]]]; cbn [head_space strip_front]; intros H;
    try reflexivity.
  - rewrite orb_false_r in H. rewrite H. reflexivity.
  - apply orb_false_elim in H. destruct H as [H1 H2]. rewrite H1.
    rewrite orb_false_r in H2. rewrite H2. reflexivity.
  - apply orb_false_elim in H. destruct H as [H1 H2]. rewrite H1.
    apply orb_false_elim in H2. destruct H2 as [H2 H3]. rewrite H2, H3.
    reflexivity.
Qed.

(** The scan stops at a suffix that does not begin with white space,
    and what it drops is white space: scanned alone, it is dropped
    entirely. *)
Lemma strip_front_spec (back : bool) (n : nat) :
  forall s, (String.length s <= n)%nat ->
    head_space back (strip_front back s) = false
    /\ exists v, s = v ++ strip_front back s /\ strip_front back v = "".
Proof.
  induction n as [| n IH]; intros s Hn.
  - destruct s; [| cbn in Hn; lia].
    split; [reflexivity | exists ""; split; reflexivity].
  - destruct s as [| a s1];
      [split; [reflexivity | exists ""; split; reflexivity] |].
    cbn [String.length] in Hn. cbn [strip_front].
    destruct (is_space1 a) eqn:H1.
    { destruct (IH s1 ltac:(lia)) as [Hh [v [Hv Hd]]]. split; [exact Hh |].
      exists (String a v). split.
      - cbn [append]. rewrite <- Hv. reflexivity.
      - cbn [strip_front]. rewrite H1. exact Hd. }
    destruct s1 as [| b s2].
    { split; [cbn [head_space]; rewrite H1; reflexivity
             | exists ""; split; reflexivity]. }
    cbn [String.length] in Hn.
    destruct (if back then is_space2 b a else is_space2 a b) eqn:H2.
    { destruct (IH s2 ltac:(lia)) as [Hh [v [Hv Hd]]]. split; [exact Hh |].
      exists (String a (String b v)). split.
      - cbn [append]. rewrite <- Hv. reflexivity.
      - cbn [strip_front]. rewrite H1, H2. exact Hd. }
    destruct s2 as [| c s3].
    { split; [cbn [head_space]; rewrite H1, H2; reflexivity
             | exists ""; split; reflexivity]. }
    cbn [String.length] in Hn.
    destruct (if back then is_space3 c b a else is_space3 a b c) eqn:H3.
    { destruct (IH s3 ltac:(lia)) as [Hh [v [Hv Hd]]]. split; [exact Hh |].
      exists (String a (String b (String c v))). split.
      - cbn [append]. rewrite <- Hv. reflexivity.
      - cbn [strip_front]. rewrite H1, H2, H3. exact Hd. }
    split; [cbn [head_space]; rewrite H1, H2, H3; reflexivity
           | exists ""; split; reflexivity].
Qed.

Lemma strip_front_head (back : bool) (s : string) :
  head_space back (strip_front back s) = false.
Proof. exact (proj1 (strip_front_spec back (String.length s) s (le_n _))). Qed.

Lemma strip_front_suffix (back : bool) (s : string) :
  exists v, s = v ++ strip_front back s /\ strip_front back v = "".
Proof. exact (proj2 (strip_front_spec back (String.length s) s (le_n _))). Qed.

Lemma append_nil_r (s : string) : s ++ "" = s.
Proof. induction s as [| a s IH]; [reflexivity |]. cbn. rewrite IH. reflexivity. Qed.

Lemma append_assoc (a b c : string) : (a ++ b) ++ c = a ++ (b ++ c).
Proof. induction a as [| x a IH]; [reflexivity |]. cbn. rewrite IH. reflexivity. Qed.

Lemma rev_string_acc (s : string) :
  forall acc, rev_string acc s = rev_string "" s ++ acc.
Proof.
  induction s as [| a s IH]; intros acc; [reflexivity |].
  cbn [rev_string]. rewrite (IH (String a acc)), (IH (String a "")).
  rewrite append_assoc. reflexivity.
Qed.

Lemma rev_string_app (a b : string) :
  rev_string "" (a ++ b) = rev_string "" b ++ rev_string "" a.
Proof.
  induction a as [| x a IH]; cbn [append rev_string].
  - rewrite append_nil_r. reflexivity.
  - rewrite (rev_string_acc (a ++ b)), (rev_string_acc a), IH.
    rewrite append_assoc. reflexivity.
Qed.

Lemma rev_string_involutive (s : string) :
  rev_string "" (rev_string "" s) = s.
Proof.
  induction s as [| a s IH]; [reflexivity |].
  cbn [rev_string]. rewrite (rev_string_acc s (String a "")), rev_string_app, IH.
  reflexivity.
Qed.

Lemma rstrip_trailing (s : string) : trailing_space (rstrip s) = false.
Proof.
  unfold trailing_space, rstrip. rewrite rev_string_involutive.
  apply strip_front_head.
Qed.

Lemma rstrip_prefix (s : string) :
  exists w, s = rstrip s ++ w /\ rstrip w = "".
Proof.
  unfold rstrip. destruct (strip_front_suffix true (rev_string "" s)) as [v [Hv Hd]].
  exists (rev_string "" v). split.
  - rewrite <- rev_string_app, <- Hv, rev_string_involutive. reflexivity.
  - rewrite rev_string_involutive, Hd. reflexivity.
Qed.

Lemma head_space_prefix (p w : string) :
  head_space false (p ++ w) = false -> head_space false p = false.
Proof.
  destruct p as [| a [| b [| c p3]]]; cbn [append head_space]; intros H;
    try reflexivity.
  - apply orb_false_elim in H. rewrite (proj1 H). reflexivity.
  - apply orb_false_elim in H. destruct H as [H1 H2]. rewrite H1.
    destruct w as [| c w]; [exact H2 |].
    apply orb_false_elim in H2. rewrite (proj1 H2). reflexivity.
  - exact H.
Qed.

(** A trimmed text begins and ends with no white space, and trimming
    it again changes nothing. *)
Lemma strip_trimmed (s : string) :
  leading_space (strip s) = false
  /\ trailing_space (strip s) = false
  /\ strip (strip s) = strip s.
Proof.
  assert (Hl : leading_space (strip s) = false).
  { unfold leading_space, strip.
    destruct (rstrip_prefix (lstrip s)) as [w [Hw _]].
    apply (head_space_prefix _ w). rewrite <- Hw. apply strip_front_head. }
  assert (Ht : trailing_space (strip s) = false) by apply rstrip_trailing.
  split; [exact Hl |]. split; [exact Ht |].
  unfold strip at 1. unfold lstrip.
  rewrite (strip_front_stops false _ Hl).
  unfold rstrip at 1. unfold trailing_space in Ht.
  rewrite (strip_front_stops true _ Ht). apply rev_string_involutive.
Qed.

(** Trimming only takes white space away: the text is the trimmed text
    between a part that [lstrip] drops entirely and a part that [rstrip]
    drops entirely. *)
Lemma strip_keeps_text (s : string) :
  exists u w, s = u ++ strip s ++ w /\ lstrip u = "" /\ rstrip w = "".
Proof.
  destruct (strip_front_suffix false s) as [u [Hu Hdu]].
  destruct (rstrip_prefix (lstrip s)) as [w [Hw Hdw]].
  exists u, w. split; [| split; [exact Hdu | exact Hdw]].
  unfold strip. rewrite <- Hw. exact Hu.
Qed.

End PyStrFacts.

(** ** Headlines, broken items and the log of [fetch_news] *)

Module NewsLog.
Import News NewsFacts.

(** The exception, if any, that ends the body of a source. *)
Definition failure (source : string) (f : feed) : option exn :=
  match f with
  | FeedError e => Some e
  | Feed items => snd (item_loop source (firstn HEADLINES_PER_SOURCE items) [])
  end.

Definition log_record (source : string) (f : feed) : list (string * exn) :=
  match failure source f with
  | Some e => [(source, e)]
  | None => []
  end.

Lemma source_body_failure (http_get : string -> feed)
  (source url : string) (hl : list headline) :
  snd (source_body http_get source url hl) = failure source (http_get url).
Proof.
  unfold source_body, failure.
  destruct (http_get url) as [e | items]; [reflexivity |].
  rewrite item_loop_app. reflexivity.
Qed.

Lemma feeds_loop_log (http_get : string -> feed)
  (feeds : list (string * string)) :
  forall hl log,
    snd (feeds_loop http_get feeds hl log)
    = (log ++ flat_map (fun su => log_record (fst su) (http_get (snd su))) feeds)%list.
Proof.
  induction feeds as [| [source url] rest IH]; intros hl log; cbn [feeds_loop flat_map].
  - rewrite app_nil_r. reflexivity.
  - pose proof (source_body_failure http_get source url hl) as Hf.
    cbn [fst snd]. unfold log_record at 1.
    destruct (source_body http_get source url hl) as [hl' [e |]];
      cbn [snd] in Hf; rewrite <- Hf, IH.
    + rewrite <- app_assoc. reflexivity.
    + reflexivity.
Qed.

Lemma log_length (http_get : string -> feed) (feeds : list (string * string)) :
  (List.length (flat_map (fun su => log_record (fst su) (http_get (snd su))) feeds)
   <= List.length feeds)%nat.
Proof.
  induction feeds as [| [s u] rest IH]; [cbn; lia |].
  cbn [flat_map List.length fst snd]. rewrite length_app.
  unfold log_record at 1.
  destruct (failure s (http_get u)); cbn [List.length]; lia.
Qed.

Lemma item_loop_broken (source : string) (pre post : list item) (bad : item) :
  forallb complete pre = true -> complete bad = false ->
  item_loop source (pre ++ bad :: post) []
  = (map headline_of
       (if String.eqb source "IRNA" then filter on_topic pre else pre),
     Some AttributeError).
Proof.
  intros Hpre Hbad.
  induction pre as [| it rest IH].
  - cbn [app]. rewrite item_loop_cons. unfold complete in Hbad.
    destruct bad as [[t |] [l |]]; cbn [title link stripped_text] in *;
      try discriminate; destruct (String.eqb source "IRNA"); reflexivity.
  - cbn [forallb] in Hpre. apply andb_prop in Hpre. destruct Hpre as [Hit Hrest].
    specialize (IH Hrest). cbn [app]. rewrite item_loop_cons.
    unfold complete in Hit.
    destruct it as [[t |] [l |]]; cbn [title link] in *; try discriminate.
    cbn [stripped_text].
    destruct (String.eqb source "IRNA") eqn:Es; cbn [andb negb].
    + cbn [filter]. unfold on_topic at 1. cbn [title text_of].
      destruct (PyStr.any_in economy_keywords (PyStr.strip t)) eqn:Ek; cbn [negb].
      * rewrite item_loop_app, IH. reflexivity.
      * exact IH.
    + rewrite item_loop_app, IH. reflexivity.
Qed.

(** X1. Every title and every link of the digest is trimmed: it neither
    begins nor ends with a white-space character, and [strip] leaves it
    unchanged. *)
Theorem headlines_have_no_outer_space (http_get : string -> feed)
  (h : headline) :
  In h (fetch_news http_get) ->
  PyStrFacts.leading_space (fst h) = false
  /\ PyStrFacts.trailing_space (fst h) = false
  /\ PyStr.strip (fst h) = fst h
  /\ PyStrFacts.leading_space (snd h) = false
  /\ PyStrFacts.trailing_space (snd h) = false
  /\ PyStr.strip (snd h) = snd h.
Proof.
  rewrite fetch_news_contributions. unfold contributions. intros Hin.
  apply in_flat_map in Hin. destruct Hin as [[source url] [_ Hh]].
  cbn [fst snd] in Hh. unfold contribution in Hh.
  destruct (http_get url) as [e | items]; [destruct Hh |].
  destruct (NewsProperties.item_loop_In source _ h Hh)
    as [it [t [l [_ [_ [_ [Heq _]]]]]]].
  subst h. cbn [fst snd].
  destruct (PyStrFacts.strip_trimmed t) as [A [B C]].
  destruct (PyStrFacts.strip_trimmed l) as [D [E F]].
  repeat split; assumption.
Qed.

(** X2. A headline of the digest carries the text of its item: the title
    and the link are those of an item among the first
    [HEADLINES_PER_SOURCE] of a configured feed, with white space taken
    away at both ends and nothing else changed. *)
Theorem headlines_keep_the_item_text (http_get : string -> feed)
  (h : headline) :
  In h (fetch_news http_get) ->
  exists source url items it t l u w u' w',
    In (source, url) NEWS_FEEDS /\ http_get url = Feed items
    /\ In it (firstn HEADLINES_PER_SOURCE items)
    /\ title it = Some t /\ link it = Some l
    /\ t = u ++ fst h ++ w /\ PyStr.lstrip u = "" /\ PyStr.rstrip w = ""
    /\ l = u' ++ snd h ++ w' /\ PyStr.lstrip u' = "" /\ PyStr.rstrip w' = "".
Proof.
  rewrite fetch_news_contributions. unfold contributions. intros Hin.
  apply in_flat_map in Hin. destruct Hin as [[source url] [Hsu Hh]].
  cbn [fst snd] in Hh. unfold contribution in Hh.
  destruct (http_get url) as [e | items] eqn:Hf; [destruct Hh |].
  destruct (NewsProperties.item_loop_In source _ h Hh)
    as [it [t [l [Hit [Ht [Hl [Heq _]]]]]]].
  subst h. cbn [fst snd].
  destruct (PyStrFacts.strip_keeps_text t) as [u [w [A [B C]]]].
  destruct (PyStrFacts.strip_keeps_text l) as [u' [w' [A' [B' C']]]].
  exists source, url, items, it, t, l, u, w, u', w'.
  repeat split; assumption.
Qed.

(** X3. An item without a [title] or a [link] node among the first
    [HEADLINES_PER_SOURCE] items of a feed ends the work on that source:
    the headlines of the items before it stay in the digest, the items
    after it are not looked at, and the source is logged with the
    [AttributeError]. *)
Theorem broken_item_cuts_the_source (http_get : string -> feed)
  (source url : string) (pre post : list item) (bad : item) :
  In (source, url) NEWS_FEEDS ->
  http_get url = Feed (pre ++ bad :: post) ->
  (List.length pre < HEADLINES_PER_SOURCE)%nat ->
  forallb complete pre = true -> complete bad = false ->
  contribution source (http_get url)
  = map headline_of
      (if String.eqb source "IRNA" then filter on_topic pre else pre)
  /\ (forall hl,
        source_body http_get source url hl
        = ((hl ++ contribution source (http_get url))%list, Some AttributeError))
  /\ In (source, AttributeError) (snd (fetch_news_run http_get)).
Proof.
  intros Hin Hf Hlen Hpre Hbad.
  assert (Hcut : exists post',
    firstn HEADLINES_PER_SOURCE (pre ++ bad :: post) = (pre ++ bad :: post')%list).
  { rewrite firstn_app.
    rewrite (firstn_all2 pre) by lia.
    destruct (HEADLINES_PER_SOURCE - List.length pre)%nat as [| k] eqn:Hk; [lia |].
    cbn [firstn]. eexists. reflexivity. }
  destruct Hcut as [post' Hcut].
  assert (Hloop : item_loop source (firstn HEADLINES_PER_SOURCE (pre ++ bad :: post)) []
    = (map headline_of
         (if String.eqb source "IRNA" then filter on_topic pre else pre),
       Some AttributeError)).
  { rewrite Hcut. apply item_loop_broken; assumption. }
  assert (Hc : contribution source (http_get url)
    = map headline_of
        (if String.eqb source "IRNA" then filter on_topic pre else pre)).
  { rewrite Hf. unfold contribution. rewrite Hloop. reflexivity. }
  split; [exact Hc |]. split.
  - intros hl. rewrite Hc. unfold source_body. rewrite Hf, item_loop_app, Hloop.
    reflexivity.
  - unfold fetch_news_run. rewrite feeds_loop_log. cbn [app].
    apply in_flat_map. exists (source, url). split; [exact Hin |].
    cbn [fst snd]. unfold log_record, failure. rewrite Hf, Hloop.
    left. reflexivity.
Qed.

(** X4. The log of a run holds one record for each source whose body ended
    with an exception, in the order of [NEWS_FEEDS], and nothing else;
    a source is logged for a failed fetch or parse and for an item
    without a [title] or [link] node among its first
    [HEADLINES_PER_SOURCE] items, and for nothing else. *)
Theorem log_records_failed_sources (http_get : string -> feed) :
  snd (fetch_news_run http_get)
  = flat_map (fun su => log_record (fst su) (http_get (snd su))) NEWS_FEEDS
  /\ (forall source e,
        In (source, e) (snd (fetch_news_run http_get)) ->
        exists url,
          In (source, url) NEWS_FEEDS
          /\ (http_get url = FeedError e
              \/ exists items,
                   http_get url = Feed items /\ e = AttributeError
                   /\ forallb complete (firstn HEADLINES_PER_SOURCE items) = false))
  /\ (List.length (snd (fetch_news_run http_get)) <= List.length NEWS_FEEDS)%nat.
Proof.
  assert (Hlog : snd (fetch_news_run http_get)
    = flat_map (fun su => log_record (fst su) (http_get (snd su))) NEWS_FEEDS).
  { unfold fetch_news_run. rewrite feeds_loop_log. reflexivity. }
  split; [exact Hlog |]. split.
  - intros source e Hin. rewrite Hlog in Hin. apply in_flat_map in Hin.
    destruct Hin as [[s url] [Hsu Hrec]]. cbn [fst snd] in Hrec.
    unfold log_record in Hrec.
    destruct (failure s (http_get url)) as [e' |] eqn:Hfail; [| destruct Hrec].
    destruct Hrec as [Heq | []]. inversion Heq; subst s e'.
    exists url. split; [exact Hsu |].
    unfold failure in Hfail. destruct (http_get url) as [e0 | items].
    + left. inversion Hfail. reflexivity.
    + right. exists items. split; [reflexivity |].
      destruct (forallb complete (firstn HEADLINES_PER_SOURCE items)) eqn:Hc.
      * rewrite (NewsProperties.item_loop_complete source _ Hc) in Hfail.
        discriminate Hfail.
      * split; [| reflexivity].
        clear Hc. revert Hfail.
        generalize (firstn HEADLINES_PER_SOURCE items) as l.
        induction l as [| it rest IH]; [discriminate |].
        rewrite item_loop_cons.
        destruct it as [[t |] [l0 |]]; cbn [title link stripped_text snd];
          try (intros H; inversion H; reflexivity).
        destruct (String.eqb source "IRNA" && negb (PyStr.any_in economy_keywords (PyStr.strip t))).
        -- exact IH.
        -- rewrite item_loop_app. cbn [snd]. exact IH.
  - rewrite Hlog. apply log_length.
Qed.

(** A world for the examples: the ISNA feed answers with three items,
    the second of which has no link node, and the other feeds fail. *)
Definition isna_items : list item :=
  [ mkItem (Some " نرخ ارز ") (Some "https://www.isna.ir/news/1 ");
    mkItem (Some "بورس تهران") None;
    mkItem (Some "بانک مرکزی") (Some "https://www.isna.ir/news/3") ].

Definition isna_only (u : string) : feed :=
  if String.eqb u "https://www.isna.ir/rss/tp/34" then Feed isna_items
  else FeedError HTTPError.

Lemma headlines_have_no_outer_space_witness :
  PyStrFacts.leading_space "نرخ ارز" = false
  /\ PyStrFacts.trailing_space "نرخ ارز" = false
  /\ PyStr.strip "نرخ ارز" = "نرخ ارز"
  /\ PyStrFacts.leading_space "https://www.isna.ir/news/1" = false
  /\ PyStrFacts.trailing_space "https://www.isna.ir/news/1" = false
  /\ PyStr.strip "https://www.isna.ir/news/1" = "https://www.isna.ir/news/1".
Proof.
  apply (headlines_have_no_outer_space isna_only
           ("نرخ ارز", "https://www.isna.ir/news/1")).
  vm_compute. left. reflexivity.
Defined.

Lemma headlines_keep_the_item_text_witness :
  exists source url items it t l u w u' w',
    In (source, url) NEWS_FEEDS /\ isna_only url = Feed items
    /\ In it (firstn HEADLINES_PER_SOURCE items)
    /\ title it = Some t /\ link it = Some l
    /\ t = u ++ fst ("نرخ ارز", "https://www.isna.ir/news/1") ++ w
    /\ PyStr.lstrip u = "" /\ PyStr.rstrip w = ""
    /\ l = u' ++ snd ("نرخ ارز", "https://www.isna.ir/news/1") ++ w'
    /\ PyStr.lstrip u' = "" /\ PyStr.rstrip w' = "".
Proof.
  apply (headlines_keep_the_item_text isna_only
           ("نرخ ارز", "https://www.isna.ir/news/1")).
  vm_compute. left. reflexivity.
Defined.

Lemma broken_item_cuts_the_source_witness :
  contribution "ISNA" (isna_only "https://www.isna.ir/rss/tp/34")
  = [ ("نرخ ارز", "https://www.isna.ir/news/1") ]
  /\ (forall hl,
        source_body isna_only "ISNA" "https://www.isna.ir/rss/tp/34" hl
        = ((hl ++ contribution "ISNA" (isna_only "https://www.isna.ir/rss/tp/34"))%list,
           Some AttributeError))
  /\ In ("ISNA", AttributeError) (snd (fetch_news_run isna_only)).
Proof.
  apply (broken_item_cuts_the_source isna_only "ISNA"
           "https://www.isna.ir/rss/tp/34"
           [ mkItem (Some " نرخ ارز ") (Some "https://www.isna.ir/news/1 ") ]
           [ mkItem (Some "بانک مرکزی") (Some "https://www.isna.ir/news/3") ]
           (mkItem (Some "بورس تهران") None)).
  - right. left. reflexivity.
  - reflexivity.
  - unfold HEADLINES_PER_SOURCE. cbn [List.length]. lia.
  - reflexivity.
  - reflexivity.
Defined.

End NewsLog.

(** ** Rounding of binary64 quotients

    What the Standard Library's specification of the IEEE division,
    remainder and normalisation gives on the operands the freshness
    formatter meets: positive, normal, and far from overflow. *)

Module Rounding.
Import PyFloat.

Lemma pow2_step (k : Z) : 0 <= k -> 2 ^ (k + 1) = 2 * 2 ^ k.
Proof. intros H. rewrite Z.pow_add_r by lia. lia. Qed.

Lemma digits2_bounds (p : positive) :
  2 ^ (Zpos (digits2_pos p) - 1) <= Zpos p < 2 ^ Zpos (digits2_pos p).
Proof.
  induction p as [p IH | p IH |]; cbn [digits2_pos].
  - rewrite Pos2Z.inj_succ.
    replace (Z.succ (Zpos (digits2_pos p)) - 1) with (Zpos (digits2_pos p) - 1 + 1) by lia.
    unfold Z.succ. rewrite !pow2_step by lia. lia.
  - rewrite Pos2Z.inj_succ.
    replace (Z.succ (Zpos (digits2_pos p)) - 1) with (Zpos (digits2_pos p) - 1 + 1) by lia.
    unfold Z.succ. rewrite !pow2_step by lia. lia.
  - cbn. lia.
Qed.

Lemma digits2_unique (p : positive) (k : Z) :
  2 ^ (k - 1) <= Zpos p < 2 ^ k -> Zpos (digits2_pos p) = k.
Proof.
  intros [Hl Hu]. pose proof (digits2_bounds p) as [Bl Bu].
  assert (Hk : 0 < k).
  { destruct (Z.ltb_spec 0 k) as [H | H]; [exact H |].
    exfalso. destruct (Z.eq_dec k 0) as [-> | N].
    - cbn in Hu. lia.
    - rewrite Z.pow_neg_r in Hu by lia. lia. }
  destruct (Z.lt_trichotomy (Zpos (digits2_pos p)) k) as [H | [H | H]].
  - exfalso.
    assert (2 ^ Zpos (digits2_pos p) <= 2 ^ (k - 1))
      by (apply Z.pow_le_mono_r; lia). lia.
  - exact H.
  - exfalso.
    assert (2 ^ k <= 2 ^ (Zpos (digits2_pos p) - 1))
      by (apply Z.pow_le_mono_r; lia). lia.
Qed.

(** Where the remainder [r] of a division by [D] stands with respect to
    the half of [D]. *)
Definition loc_ok (l : location) (r D : Z) : Prop :=
  match l with
  | loc_Exact => r = 0
  | loc_Inexact Lt => 0 < r /\ 2 * r < D
  | loc_Inexact Eq => 2 * r = D
  | loc_Inexact Gt => D < 2 * r
  end.

Lemma new_location_ok (D r : Z) :
  0 < D -> 0 <= r < D -> loc_ok (new_location D r) r D.
Proof.
  intros HD Hr. unfold new_location, new_location_even, new_location_odd.
  destruct (Z.even D) eqn:Ev.
  - destruct (Z.eqb_spec r 0) as [-> | N]; [reflexivity |].
    destruct (Z.compare_spec (2 * r) D); cbn [loc_ok]; lia.
  - destruct (Z.eqb_spec r 0) as [-> | N]; [reflexivity |].
    assert (Hodd : Z.odd D = true) by (rewrite <- Z.negb_even, Ev; reflexivity).
    apply Z.odd_spec in Hodd. destruct Hodd as [k Hk].
    destruct (Z.compare_spec (2 * r + 1) D); cbn [loc_ok]; lia.
Qed.

Lemma fexp_normal (x : Z) : -1074 <= x - 53 -> fexp prec emax x = x - 53.
Proof. intros H. unfold fexp, emin, prec, emax. lia. Qed.

Lemma record_of_loc (m : Z) (l : location) :
  shr_m (shr_record_of_loc m l) = m
  /\ loc_of_shr_record (shr_record_of_loc m l) = l.
Proof. destruct l as [| []]; split; reflexivity. Qed.

Lemma shr_fexp_53 (m : positive) (e : Z) (l : location) :
  2 ^ 52 <= Zpos m < 2 ^ 53 -> -1074 <= e ->
  shr_fexp prec emax (Zpos m) e l = (shr_record_of_loc (Zpos m) l, e).
Proof.
  intros Hm He. unfold shr_fexp. cbn [Zdigits2].
  rewrite (digits2_unique m 53 Hm), fexp_normal by lia.
  replace (53 + e - 53 - e) with 0 by lia. reflexivity.
Qed.

Lemma shr_fexp_54 (m : positive) (e : Z) (l : location) :
  2 ^ 53 <= Zpos m < 2 ^ 54 -> -1074 <= e ->
  shr_fexp prec emax (Zpos m) e l
  = (shr_1 (shr_record_of_loc (Zpos m) l), e + 1).
Proof.
  intros Hm He. unfold shr_fexp. cbn [Zdigits2].
  rewrite (digits2_unique m 54 Hm), fexp_normal by lia.
  replace (54 + e - 53 - e) with 1 by lia. reflexivity.
Qed.

Lemma rne_cases (m r D : Z) (l : location) :
  0 < D -> 0 <= r < D -> loc_ok l r D ->
  (round_nearest_even m l = m /\ 2 * r <= D)
  \/ (round_nearest_even m l = m + 1 /\ D <= 2 * r).
Proof.
  intros HD Hr Hl. destruct l as [| []]; cbn [loc_ok round_nearest_even] in *.
  - left. lia.
  - destruct (Z.even m); [left | right]; lia.
  - left. lia.
  - right. lia.
Qed.

(** Rounding a mantissa of 53 digits, with what the location says of the
    discarded remainder: the result is normal and lies within half a
    unit in the last place of the exact value [q + r / D]. *)
Lemma round_bracket_53 (q : positive) (e r D : Z) (l : location) :
  2 ^ 52 <= Zpos q < 2 ^ 53 -> -1074 <= e <= 970 ->
  0 < D -> 0 <= r < D -> loc_ok l r D ->
  exists (M : positive) (j : Z),
    binary_round_aux prec emax false (Zpos q) e l = S754_finite false M (e + j)
    /\ (j = 0 \/ j = 1)
    /\ 2 ^ 52 <= Zpos M < 2 ^ 53
    /\ 2 * (Zpos q * D + r - Zpos M * 2 ^ j * D) <= 2 ^ j * D
    /\ 2 * (Zpos M * 2 ^ j * D - (Zpos q * D + r)) <= 2 ^ j * D
    /\ (Zpos M = 2 ^ 52 -> 4 * (Zpos M * 2 ^ j * D - (Zpos q * D + r)) <= 2 ^ j * D).
Proof.
  intros Hq He HD Hr Hl. unfold binary_round_aux.
  rewrite shr_fexp_53 by (assumption || lia).
  destruct (record_of_loc (Zpos q) l) as [Hm Hloc]. rewrite Hm, Hloc.
  change (2 ^ 52) with 4503599627370496 in *.
  change (2 ^ 53) with 9007199254740992 in *.
  destruct (rne_cases (Zpos q) r D l HD Hr Hl) as [[Hn H2] | [Hn H2]]; rewrite Hn.
  - rewrite shr_fexp_53 by (change (2 ^ 52) with 4503599627370496;
      change (2 ^ 53) with 9007199254740992; lia).
    cbn [shr_record_of_loc shr_m].
    replace (e <=? emax - prec) with true
      by (symmetry; apply Z.leb_le; unfold emax, prec; lia).
    exists q, 0. rewrite Z.add_0_r. change (2 ^ 0) with 1.
    repeat split; lia.
  - destruct (Z.eq_dec (Zpos q + 1) 9007199254740992) as [Hc | Hc].
    + rewrite Hc.
      rewrite (shr_fexp_54 9007199254740992)
        by (change (2 ^ 53) with 9007199254740992;
            change (2 ^ 54) with 18014398509481984; lia).
      cbn [shr_record_of_loc shr_1 shr_m orb].
      replace (e + 1 <=? emax - prec) with true
        by (symmetry; apply Z.leb_le; unfold emax, prec; lia).
      exists 4503599627370496%positive, 1. change (2 ^ 1) with 2.
      repeat split; lia.
    + assert (Hp : Zpos q + 1 = Zpos (q + 1)) by lia. rewrite Hp.
      rewrite shr_fexp_53 by (change (2 ^ 52) with 4503599627370496;
        change (2 ^ 53) with 9007199254740992; lia).
      cbn [shr_record_of_loc shr_m].
      replace (e <=? emax - prec) with true
        by (symmetry; apply Z.leb_le; unfold emax, prec; lia).
      exists (q + 1)%positive, 0. rewrite Z.add_0_r. change (2 ^ 0) with 1.
      repeat split; lia.
Qed.

(** The second half of [binary_round_aux]: rounding proper. *)
Definition finish (m : Z) (l : location) (e : Z) : spec_float :=
  let '(mrs, e') := shr_fexp prec emax (round_nearest_even m l) e loc_Exact in
  match shr_m mrs with
  | Z0 => S754_zero false
  | Zpos p => if e' <=? emax - prec then S754_finite false p e' else S754_infinity false
  | Zneg _ => S754_nan
  end.

Lemma binary_round_aux_finish (m e : Z) (l : location) :
  binary_round_aux prec emax false m e l
  = finish (shr_m (fst (shr_fexp prec emax m e l)))
      (loc_of_shr_record (fst (shr_fexp prec emax m e l)))
      (snd (shr_fexp prec emax m e l)).
Proof.
  unfold binary_round_aux, finish.
  destruct (shr_fexp prec emax m e l) as [mrs e']. reflexivity.
Qed.

Lemma round_bracket_54 (q : positive) (e r D : Z) (l : location) :
  2 ^ 53 <= Zpos q < 2 ^ 54 -> -1074 <= e <= 969 ->
  0 < D -> 0 <= r < D -> loc_ok l r D ->
  exists (M : positive) (j : Z),
    binary_round_aux prec emax false (Zpos q) e l = S754_finite false M (e + j)
    /\ (j = 1 \/ j = 2)
    /\ 2 ^ 52 <= Zpos M < 2 ^ 53
    /\ 2 * (Zpos q * D + r - Zpos M * 2 ^ j * D) <= 2 ^ j * D
    /\ 2 * (Zpos M * 2 ^ j * D - (Zpos q * D + r)) <= 2 ^ j * D
    /\ (Zpos M = 2 ^ 52 -> 4 * (Zpos M * 2 ^ j * D - (Zpos q * D + r)) <= 2 ^ j * D).
Proof.
  intros Hq He HD Hr Hl.
  change (2 ^ 53) with 9007199254740992 in Hq.
  change (2 ^ 54) with 18014398509481984 in Hq.
  rewrite binary_round_aux_finish.
  rewrite shr_fexp_54
    by (change (2 ^ 53) with 9007199254740992;
        change (2 ^ 54) with 18014398509481984; lia).
  cbn [fst snd].
  assert (Hh : exists (h : positive) (r' : Z) (l' : location),
    shr_m (shr_1 (shr_record_of_loc (Zpos q) l)) = Zpos h
    /\ loc_of_shr_record (shr_1 (shr_record_of_loc (Zpos q) l)) = l'
    /\ Zpos q * D + r = Zpos h * (2 * D) + r'
    /\ 0 <= r' < 2 * D /\ loc_ok l' r' (2 * D)
    /\ 4503599627370496 <= Zpos h < 9007199254740992).
  { destruct q as [h | h |]; [| | lia].
    - exists h, (D + r).
      destruct l as [| []]; cbn [loc_ok] in Hl;
        cbn [shr_record_of_loc shr_1 shr_m loc_of_shr_record orb]; eexists;
        (split; [reflexivity |]); (split; [reflexivity |]);
        cbn [loc_ok]; repeat split; lia.
    - exists h, r.
      destruct l as [| []]; cbn [loc_ok] in Hl;
        cbn [shr_record_of_loc shr_1 shr_m loc_of_shr_record orb]; eexists;
        (split; [reflexivity |]); (split; [reflexivity |]);
        cbn [loc_ok]; repeat split; lia. }
  destruct Hh as [h [r' [l' [Hm [Hloc [HN [Hr' [Hl' Hb]]]]]]]].
  rewrite Hm, Hloc.
  destruct (round_bracket_53 h (e + 1) r' (2 * D) l') as [M [j [HR [Hj [HM [B1 [B2 B3]]]]]]];
    try (assumption || lia).
  rewrite binary_round_aux_finish in HR.
  rewrite shr_fexp_53 in HR
    by (change (2 ^ 52) with 4503599627370496;
        change (2 ^ 53) with 9007199254740992; lia).
  cbn [fst snd] in HR.
  destruct (record_of_loc (Zpos h) l') as [Hm' Hloc']. rewrite Hm', Hloc' in HR.
  exists M, (j + 1). rewrite HR.
  replace (e + 1 + j) with (e + (j + 1)) by lia.
  rewrite HN.
  assert (Hp : 2 ^ (j + 1) = 2 * 2 ^ j) by (apply pow2_step; lia).
  rewrite Hp. repeat split; lia.
Qed.

(** The quotient of two positive finite operands whose result is in the
    normal range: a normal float within half a unit in the last place of
    the exact quotient (a quarter below a power of two). The exact
    quotient is [N / D] in units of [2 ^ e'], with [N] and [D] as below. *)
Lemma div_bracket (m1 m2 : positive) (e1 e2 : Z) :
  let d1 := Zpos (digits2_pos m1) in
  let d2 := Zpos (digits2_pos m2) in
  let e' := d1 + e1 - (d2 + e2) - 53 in
  let N := Zpos m1 * 2 ^ (53 - d1 + d2) in
  let D := Zpos m2 in
  d1 - d2 <= 53 -> -1074 <= e' <= 969 ->
  exists (M : positive) (j : Z),
    SFdiv prec emax (S754_finite false m1 e1) (S754_finite false m2 e2)
    = S754_finite false M (e' + j)
    /\ 0 <= j <= 2
    /\ 2 ^ 52 <= Zpos M < 2 ^ 53
    /\ 2 * (N - Zpos M * 2 ^ j * D) <= 2 ^ j * D
    /\ 2 * (Zpos M * 2 ^ j * D - N) <= 2 ^ j * D
    /\ (Zpos M = 2 ^ 52 -> 4 * (Zpos M * 2 ^ j * D - N) <= 2 ^ j * D).
Proof.
  intros d1 d2 e' N D Hd He.
  cbn [SFdiv xorb]. unfold SFdiv_core_binary. cbn [Zdigits2].
  fold d1 d2. rewrite fexp_normal by (subst e'; lia).
  replace (Z.min (d1 + e1 - (d2 + e2) - 53) (e1 - e2)) with e'
    by (subst e'; lia).
  set (s := e1 - e2 - e').
  assert (Hs : s = 53 - d1 + d2) by (subst s e'; lia).
  set (m' := match s with Z0 => Zpos m1 | Zpos _ => Z.shiftl (Zpos m1) s | Zneg _ => 0 end).
  assert (Hm' : m' = N).
  { subst m' N. rewrite <- Hs. destruct s as [| p | p] eqn:Es; [cbn; lia | | lia].
    rewrite Z.shiftl_mul_pow2 by lia. reflexivity. }
  pose proof (digits2_bounds m1) as [A1 A2]. fold d1 in A1, A2.
  pose proof (digits2_bounds m2) as [B1 B2]. fold d2 in B1, B2.
  assert (Hd1 : 0 < d1) by (subst d1; lia).
  assert (Hd2 : 0 < d2) by (subst d2; lia).
  assert (HP : 2 ^ (d1 - 1) * 2 ^ (53 - d1 + d2) = 2 ^ 53 * 2 ^ (d2 - 1)).
  { rewrite <- !Z.pow_add_r by lia. f_equal. lia. }
  assert (HB : 2 ^ d2 = 2 * 2 ^ (d2 - 1)).
  { replace d2 with (d2 - 1 + 1) at 1 by lia. apply pow2_step. lia. }
  assert (HA : 2 ^ d1 = 2 * 2 ^ (d1 - 1)).
  { replace d1 with (d1 - 1 + 1) at 1 by lia. apply pow2_step. lia. }
  assert (HPpos : 0 < 2 ^ (53 - d1 + d2)) by (apply Z.pow_pos_nonneg; lia).
  assert (HBpos : 0 < 2 ^ (d2 - 1)) by (apply Z.pow_pos_nonneg; lia).
  change (2 ^ 53) with 9007199254740992 in HP.
  pose proof (Z_div_mod m' (Zpos m2) ltac:(lia)) as Hdm.
  destruct (Z.div_eucl m' (Zpos m2)) as [q r]. destruct Hdm as [Hq Hr].
  rewrite Hm' in Hq. fold D in Hq, Hr, B1, B2.
  assert (HNl : 9007199254740992 * 2 ^ (d2 - 1) <= N) by (subst N; nia).
  assert (HNu : N < 18014398509481984 * 2 ^ (d2 - 1)) by (subst N; nia).
  assert (Hql : 4503599627370496 <= q) by nia.
  assert (Hqu : q < 18014398509481984) by nia.
  pose proof (new_location_ok D r ltac:(lia) Hr) as Hl.
  destruct q as [| qp | qp]; try lia.
  destruct (Z_lt_le_dec (Zpos qp) 9007199254740992) as [H53 | H54].
  - destruct (round_bracket_53 qp e' r D (new_location D r))
      as [M [j [HR [Hj [HM [C1 [C2 C3]]]]]]]; try (assumption || lia).
    exists M, j. split; [exact HR |]. rewrite Hq.
    replace (D * Zpos qp + r) with (Zpos qp * D + r) by lia.
    repeat split; try assumption; try lia; apply HM.
  - destruct (round_bracket_54 qp e' r D (new_location D r))
      as [M [j [HR [Hj [HM [C1 [C2 C3]]]]]]]; try (assumption || lia).
    exists M, j. split; [exact HR |]. rewrite Hq.
    replace (D * Zpos qp + r) with (Zpos qp * D + r) by lia.
    repeat split; try assumption; try lia; apply HM.
Qed.

(** *** Rounding does not cross a representable threshold

    [M * 2 ^ j] rounds [N / D]; everything is counted in units of
    [2 ^ a] against a threshold [T * 2 ^ f]. *)

Lemma pow2_split (x y : Z) :
  0 <= x -> 0 <= y ->
  (exists c, 1 <= c /\ 2 ^ y = c * 2 ^ x) \/ (exists c, 2 <= c /\ 2 ^ x = c * 2 ^ y).
Proof.
  intros Hx Hy. destruct (Z_le_gt_dec x y) as [H | H].
  - left. exists (2 ^ (y - x)). split.
    + assert (0 < 2 ^ (y - x)) by (apply Z.pow_pos_nonneg; lia). lia.
    + rewrite <- Z.pow_add_r by lia. f_equal. lia.
  - right. exists (2 ^ (x - y)). split.
    + replace (x - y) with (x - y - 1 + 1) by lia. rewrite pow2_step by lia.
      assert (0 < 2 ^ (x - y - 1)) by (apply Z.pow_pos_nonneg; lia). lia.
    + rewrite <- Z.pow_add_r by lia. f_equal. lia.
Qed.

Lemma thr_le (N D M j a f T : Z) :
  0 < D -> 0 <= j -> 0 <= a -> 0 <= f ->
  2 ^ 52 <= M < 2 ^ 53 -> 0 < T < 2 ^ 53 ->
  2 * (M * 2 ^ j * D - N) <= 2 ^ j * D ->
  (M = 2 ^ 52 -> 4 * (M * 2 ^ j * D - N) <= 2 ^ j * D) ->
  N * 2 ^ a <= T * 2 ^ f * D ->
  M * 2 ^ (a + j) <= T * 2 ^ f.
Proof.
  intros HD Hj Ha Hf HM HT B2 B3 HQ.
  change (2 ^ 52) with 4503599627370496 in *.
  change (2 ^ 53) with 9007199254740992 in *.
  rewrite Z.pow_add_r by lia.
  assert (HX : 0 < 2 ^ a) by (apply Z.pow_pos_nonneg; lia).
  assert (HJ : 0 < 2 ^ j) by (apply Z.pow_pos_nonneg; lia).
  assert (HV : 0 < 2 ^ f) by (apply Z.pow_pos_nonneg; lia).
  destruct (pow2_split (a + j) f) as [[c [Hc E]] | [c [Hc E]]]; try lia;
    rewrite Z.pow_add_r in E by lia;
    set (X := 2 ^ a) in *; set (J := 2 ^ j) in *; set (V := 2 ^ f) in *.
  - (* the threshold is a multiple of the unit of the result *)
    destruct (Z_le_gt_dec M (T * c)) as [H | H]; [nia |].
    exfalso.
    assert (H1 : N <= T * c * J * D).
    { apply Z.mul_le_mono_pos_r with (p := X); [lia |]. nia. }
    assert (H2 : (T * c + 1) * J * D <= M * J * D).
    { apply Z.mul_le_mono_nonneg_r; [lia |].
      apply Z.mul_le_mono_nonneg_r; lia. }
    nia.
  - (* the threshold is finer than the unit of the result *)
    exfalso.
    assert (H1 : 2 * (M * J * D * X - N * X) <= J * D * X).
    { assert (2 * (M * J * D - N) * X <= J * D * X)
        by (apply Z.mul_le_mono_nonneg_r; lia). lia. }
    assert (H3 : N * X <= T * V * D) by exact HQ.
    assert (H4 : J * D * X = c * V * D) by nia.
    assert (H5 : M * J * D * X = M * c * (V * D)) by nia.
    assert (HVD : 0 < V * D) by nia.
    destruct (Z.eq_dec M 4503599627370496) as [E52 | N52].
    + specialize (B3 E52).
      assert (H6 : 4 * (M * J * D * X - N * X) <= J * D * X).
      { assert (4 * (M * J * D - N) * X <= J * D * X)
          by (apply Z.mul_le_mono_nonneg_r; lia). lia. }
      assert (H7 : 4 * (M * c - T) * (V * D) <= c * (V * D)) by nia.
      assert (H8 : c < 4 * (M * c - T)) by nia.
      nia.
    + assert (H7 : 2 * (M * c - T) * (V * D) <= c * (V * D)) by nia.
      assert (H8 : c < 2 * (M * c - T)) by nia.
      nia.
Qed.

Lemma thr_ge (N D M j a f T : Z) :
  0 < D -> 0 <= j -> 0 <= a -> 0 <= f ->
  2 ^ 52 <= M < 2 ^ 53 -> 0 < T < 2 ^ 53 ->
  2 * (N - M * 2 ^ j * D) <= 2 ^ j * D ->
  T * 2 ^ f * D <= N * 2 ^ a ->
  T * 2 ^ f <= M * 2 ^ (a + j).
Proof.
  intros HD Hj Ha Hf HM HT B1 HQ.
  change (2 ^ 52) with 4503599627370496 in *.
  change (2 ^ 53) with 9007199254740992 in *.
  rewrite Z.pow_add_r by lia.
  assert (HX : 0 < 2 ^ a) by (apply Z.pow_pos_nonneg; lia).
  assert (HJ : 0 < 2 ^ j) by (apply Z.pow_pos_nonneg; lia).
  assert (HV : 0 < 2 ^ f) by (apply Z.pow_pos_nonneg; lia).
  destruct (pow2_split (a + j) f) as [[c [Hc E]] | [c [Hc E]]]; try lia;
    rewrite Z.pow_add_r in E by lia;
    set (X := 2 ^ a) in *; set (J := 2 ^ j) in *; set (V := 2 ^ f) in *.
  - destruct (Z_le_gt_dec (T * c) M) as [H | H]; [nia |].
    exfalso.
    assert (H1 : T * c * J * D <= N).
    { apply Z.mul_le_mono_pos_r with (p := X); [lia |]. nia. }
    assert (H2 : (M + 1) * J * D <= T * c * J * D).
    { apply Z.mul_le_mono_nonneg_r; [lia |].
      apply Z.mul_le_mono_nonneg_r; lia. }
    nia.
  - nia.
Qed.

(** *** Exact results *)

Lemma iter_pos_nat {A : Type} (f : A -> A) (n : positive) :
  forall x, iter_pos f n x = Nat.iter (Pos.to_nat n) f x.
Proof.
  induction n as [n IH | n IH |]; intros x; cbn [iter_pos].
  - rewrite !IH, Pos2Nat.inj_xI.
    replace (S (2 * Pos.to_nat n)) with (Pos.to_nat n + (Pos.to_nat n + 1))%nat by lia.
    rewrite !Nat.iter_add. reflexivity.
  - rewrite !IH, Pos2Nat.inj_xO.
    replace (2 * Pos.to_nat n)%nat with (Pos.to_nat n + Pos.to_nat n)%nat by lia.
    rewrite Nat.iter_add. reflexivity.
  - reflexivity.
Qed.

Lemma shr_1_even (M : positive) :
  shr_1 (Build_shr_record (Zpos M~0) false false)
  = Build_shr_record (Zpos M) false false.
Proof. reflexivity. Qed.

Lemma nat_iter_shr (k : nat) :
  forall M : positive,
    Nat.iter k shr_1 (Build_shr_record (Zpos M * 2 ^ Z.of_nat k) false false)
    = Build_shr_record (Zpos M) false false.
Proof.
  induction k as [| k IH]; intros M.
  - change (2 ^ Z.of_nat 0) with 1. rewrite Z.mul_1_r. reflexivity.
  - rewrite Nat.iter_succ.
    replace (Zpos M * 2 ^ Z.of_nat (S k)) with (Zpos M~0 * 2 ^ Z.of_nat k).
    + rewrite IH. apply shr_1_even.
    + rewrite Nat2Z.inj_succ, Z.pow_succ_r by lia. lia.
Qed.

Lemma shr_exact (M : positive) (n : positive) :
  iter_pos shr_1 n (Build_shr_record (Zpos M * 2 ^ Zpos n) false false)
  = Build_shr_record (Zpos M) false false.
Proof.
  rewrite iter_pos_nat. rewrite <- (positive_nat_Z n). apply nat_iter_shr.
Qed.

Lemma pos_iter_xO (m d : positive) :
  Zpos (Pos.iter xO m d) = Zpos m * 2 ^ Zpos d.
Proof.
  induction d as [| d IH] using Pos.peano_ind.
  - cbn. lia.
  - rewrite Pos.iter_succ, Pos2Z.inj_xO, IH, Pos2Z.inj_succ, Z.pow_succ_r by lia.
    lia.
Qed.

Lemma round_exact_53 (M : positive) (E : Z) :
  2 ^ 52 <= Zpos M < 2 ^ 53 -> -1074 <= E <= 971 ->
  binary_round_aux prec emax false (Zpos M) E loc_Exact = S754_finite false M E.
Proof.
  intros HM HE. unfold binary_round_aux.
  rewrite shr_fexp_53 by (assumption || lia).
  cbn [shr_record_of_loc shr_m loc_of_shr_record round_nearest_even].
  rewrite shr_fexp_53 by (assumption || lia).
  cbn [shr_record_of_loc shr_m].
  replace (E <=? emax - prec) with true
    by (symmetry; apply Z.leb_le; unfold emax, prec; lia).
  reflexivity.
Qed.

(** [binary_normalize] gives the normal float of the same value, when
    there is one. Values are compared in units of [2 ^ -200]. *)
Lemma normalize_exact (m M : positive) (e E : Z) (sz : bool) :
  2 ^ 52 <= Zpos M < 2 ^ 53 -> -200 <= E <= 971 -> -200 <= e ->
  Zpos M * 2 ^ (E + 200) = Zpos m * 2 ^ (e + 200) ->
  binary_normalize prec emax (Zpos m) e sz = S754_finite false M E.
Proof.
  intros HM HE He Hv. cbn [binary_normalize]. unfold binary_round.
  assert (HPE : 0 < 2 ^ (E + 200)) by (apply Z.pow_pos_nonneg; lia).
  assert (HPe : 0 < 2 ^ (e + 200)) by (apply Z.pow_pos_nonneg; lia).
  assert (Hrel : (E <= e /\ Zpos M = Zpos m * 2 ^ (e - E))
                 \/ (e < E /\ Zpos m = Zpos M * 2 ^ (E - e))).
  { destruct (Z_le_gt_dec E e) as [H | H]; [left | right]; (split; [lia |]).
    - replace (e + 200) with (e - E + (E + 200)) in Hv by lia.
      rewrite (Z.pow_add_r 2 (e - E) (E + 200)) in Hv by lia.
      apply Z.mul_cancel_r with (p := 2 ^ (E + 200)); lia.
    - replace (E + 200) with (E - e + (e + 200)) in Hv by lia.
      rewrite (Z.pow_add_r 2 (E - e) (e + 200)) in Hv by lia.
      apply Z.mul_cancel_r with (p := 2 ^ (e + 200)); lia. }
  assert (Hdig : Zpos (digits2_pos m) + e = 53 + E).
  { assert (Zpos (digits2_pos m) = 53 + E - e); [| lia].
    apply digits2_unique.
    change (2 ^ 52) with 4503599627370496 in HM.
    change (2 ^ 53) with 9007199254740992 in HM.
    destruct Hrel as [[H1 H2] | [H1 H2]].
    - assert (Hc : 0 < 2 ^ (e - E)) by (apply Z.pow_pos_nonneg; lia).
      assert (Hle : e - E <= 52).
      { destruct (Z_le_gt_dec (e - E) 52) as [H | H]; [exact H | exfalso].
        assert (2 ^ 53 <= 2 ^ (e - E)) by (apply Z.pow_le_mono_r; lia).
        change (2 ^ 53) with 9007199254740992 in *. nia. }
      assert (E1 : 2 ^ (53 + E - e - 1) * 2 ^ (e - E) = 4503599627370496).
      { rewrite <- Z.pow_add_r by lia.
        replace (53 + E - e - 1 + (e - E)) with 52 by lia. reflexivity. }
      assert (E2 : 2 ^ (53 + E - e) * 2 ^ (e - E) = 9007199254740992).
      { rewrite <- Z.pow_add_r by lia.
        replace (53 + E - e + (e - E)) with 53 by lia. reflexivity. }
      split; nia.
    - assert (E1 : 2 ^ (53 + E - e - 1) = 4503599627370496 * 2 ^ (E - e)).
      { change 4503599627370496 with (2 ^ 52). rewrite <- Z.pow_add_r by lia.
        f_equal. lia. }
      assert (E2 : 2 ^ (53 + E - e) = 9007199254740992 * 2 ^ (E - e)).
      { change 9007199254740992 with (2 ^ 53). rewrite <- Z.pow_add_r by lia.
        f_equal. lia. }
      assert (Hc : 0 < 2 ^ (E - e)) by (apply Z.pow_pos_nonneg; lia).
      split; nia. }
  rewrite Hdig, fexp_normal by lia.
  replace (53 + E - 53) with E by lia.
  unfold shl_align.
  destruct Hrel as [[H1 H2] | [H1 H2]].
  - destruct (E - e) as [| d | d] eqn:Ed; try lia.
    + assert (e = E) by lia. subst e. rewrite Z.sub_diag in H2.
      change (2 ^ 0) with 1 in H2. assert (M = m) by lia. subst m.
      apply round_exact_53; [assumption | lia].
    + assert (Hd : e - E = Zpos d) by lia. rewrite Hd in H2.
      assert (HMd : Pos.iter xO m d = M).
      { apply Pos2Z.inj. rewrite pos_iter_xO. lia. }
      rewrite HMd. apply round_exact_53; [assumption | lia].
  - destruct (E - e) as [| d | d] eqn:Ed; try lia.
    unfold binary_round_aux, shr_fexp. cbn [Zdigits2].
    rewrite Hdig, fexp_normal by lia.
    replace (53 + E - 53 - e) with (Zpos d) by lia.
    cbn [shr shr_record_of_loc]. rewrite H2, shr_exact.
    cbn [shr_m loc_of_shr_record round_nearest_even].
    replace (e + Zpos d) with E by lia.
    change (shr (Build_shr_record (Zpos M) false false) E
              (fexp prec emax (Zdigits2 (Zpos M) + E) - E))
      with (shr_fexp prec emax (Zpos M) E loc_Exact).
    rewrite shr_fexp_53 by (assumption || lia).
    cbn [shr_record_of_loc shr_m].
    replace (E <=? emax - prec) with true
      by (symmetry; apply Z.leb_le; unfold emax, prec; lia).
    reflexivity.
Qed.

Lemma shl_align_val (m : positive) (e ez : Z) :
  ez <= e -> Zpos (fst (shl_align m e ez)) = Zpos m * 2 ^ (e - ez).
Proof.
  intros H. unfold shl_align.
  destruct (ez - e) as [| d | d] eqn:Ed; try lia; cbn [fst].
  - replace (e - ez) with 0 by lia. change (2 ^ 0) with 1. lia.
  - rewrite pos_iter_xO. f_equal. f_equal. lia.
Qed.

(** The normal float of a positive integer below [2 ^ 53]. *)
Lemma canon_int (w : positive) :
  Zpos w < 2 ^ 53 ->
  exists (M : positive) (E : Z),
    2 ^ 52 <= Zpos M < 2 ^ 53 /\ -52 <= E <= 0
    /\ Zpos M = Zpos w * 2 ^ (- E).
Proof.
  intros Hw. pose proof (digits2_bounds w) as [B1 B2].
  set (d := Zpos (digits2_pos w)) in *.
  assert (Hd : 1 <= d <= 53).
  { split; [subst d; lia |].
    destruct (Z_le_gt_dec d 53) as [H | H]; [exact H | exfalso].
    assert (2 ^ 53 <= 2 ^ (d - 1)) by (apply Z.pow_le_mono_r; lia). lia. }
  assert (HP : 0 < 2 ^ (53 - d)) by (apply Z.pow_pos_nonneg; lia).
  assert (E1 : 2 ^ (d - 1) * 2 ^ (53 - d) = 2 ^ 52).
  { rewrite <- Z.pow_add_r by lia. f_equal. lia. }
  assert (E2 : 2 ^ d * 2 ^ (53 - d) = 2 ^ 53).
  { rewrite <- Z.pow_add_r by lia. f_equal. lia. }
  exists (Z.to_pos (Zpos w * 2 ^ (53 - d))), (d - 53).
  rewrite Z2Pos.id by lia.
  replace (- (d - 53)) with (53 - d) by lia.
  repeat split; try lia.
  - rewrite <- E1. apply Z.mul_le_mono_nonneg_r; lia.
  - rewrite <- E2. apply Z.mul_lt_mono_pos_r; lia.
Qed.

(** Normal floats of the same value are the same float. *)
Lemma scaled_lt (M M' : positive) (E E' : Z) :
  Zpos M < 2 ^ 53 -> 2 ^ 52 <= Zpos M' -> -200 <= E -> E < E' ->
  Zpos M * 2 ^ (E + 200) < Zpos M' * 2 ^ (E' + 200).
Proof.
  intros HM HM' HE Hlt.
  change (2 ^ 52) with 4503599627370496 in *.
  change (2 ^ 53) with 9007199254740992 in *.
  replace (E' + 200) with (E' - E - 1 + 1 + (E + 200)) by lia.
  rewrite (Z.pow_add_r 2 (E' - E - 1 + 1)) by lia.
  rewrite pow2_step by lia.
  assert (HP : 0 < 2 ^ (E + 200)) by (apply Z.pow_pos_nonneg; lia).
  assert (Hc : 0 < 2 ^ (E' - E - 1)) by (apply Z.pow_pos_nonneg; lia).
  set (P := 2 ^ (E + 200)) in *. set (c := 2 ^ (E' - E - 1)) in *.
  clearbody P c.
  assert (H1 : Zpos M * P < 9007199254740992 * P)
    by (apply Z.mul_lt_mono_pos_r; lia).
  assert (H2 : 9007199254740992 * P <= Zpos M' * (2 * c) * P).
  { apply Z.mul_le_mono_nonneg_r; [lia |]. nia. }
  lia.
Qed.

Lemma canonical_unique (M M' : positive) (E E' : Z) :
  2 ^ 52 <= Zpos M < 2 ^ 53 -> 2 ^ 52 <= Zpos M' < 2 ^ 53 ->
  -200 <= E -> -200 <= E' ->
  Zpos M * 2 ^ (E + 200) = Zpos M' * 2 ^ (E' + 200) ->
  M = M' /\ E = E'.
Proof.
  intros HM HM' HE HE' Hv.
  assert (HEE : E = E').
  { destruct (Z.lt_trichotomy E E') as [H | [H | H]]; [exfalso | exact H | exfalso].
    - pose proof (scaled_lt M M' E E' (proj2 HM) (proj1 HM') HE H). lia.
    - pose proof (scaled_lt M' M E' E (proj2 HM') (proj1 HM) HE' H). lia. }
  split; [| exact HEE]. subst E'.
  assert (HP : 0 < 2 ^ (E + 200)) by (apply Z.pow_pos_nonneg; lia).
  apply Pos2Z.inj. apply Z.mul_cancel_r with (p := 2 ^ (E + 200)); lia.
Qed.

End Rounding.

(** ** The freshness formatter, in whole microseconds *)

Module ElapsedTime.
Import PyFloat Freshness Rounding.

(** The value of a positive finite float, in units of [2 ^ -80]. *)
Definition val80 (x : spec_float) : Z :=
  match x with
  | S754_finite false M E => Zpos M * 2 ^ (E + 80)
  | _ => 0
  end.

(** A positive normal float whose exponent is between [-80] and [0]. *)
Definition normal80 (x : spec_float) : Prop :=
  match x with
  | S754_finite false M E => 2 ^ 52 <= Zpos M < 2 ^ 53 /\ -80 <= E <= 0
  | _ => False
  end.

Lemma minutes_range (p : positive) (k : Z) :
  0 <= k < 2 ^ 26 - 1 ->
  60000000 * k <= Zpos p < 60000000 * (k + 1) ->
  normal80 (minutes_of (Zpos p))
  /\ k * 2 ^ 80 <= val80 (minutes_of (Zpos p))
  /\ val80 (minutes_of (Zpos p)) * 2 ^ 27 <= ((k + 1) * 2 ^ 27 - 1) * 2 ^ 80.
Proof.
  intros Hk Hp. change (2 ^ 26) with 67108864 in Hk.
  unfold minutes_of, int_true_div, fdiv, sixty.
  set (d1 := Zpos (digits2_pos p)).
  pose proof (digits2_bounds p) as [P1 P2]. fold d1 in P1, P2.
  assert (Hd1 : 1 <= d1 <= 52).
  { split; [subst d1; lia |].
    destruct (Z_le_gt_dec d1 52) as [H | H]; [exact H | exfalso].
    assert (2 ^ 52 <= 2 ^ (d1 - 1)) by (apply Z.pow_le_mono_r; lia).
    change (2 ^ 52) with 4503599627370496 in *. lia. }
  set (A := 2 ^ (52 - d1)).
  assert (HA : 0 < A) by (apply Z.pow_pos_nonneg; lia).
  (* the division by one million *)
  destruct (div_bracket p 1000000 0 0) as [M1 [j1 [R1 [Hj1 [HM1 [B1 [B2 B3]]]]]]].
  { fold d1. change (Zpos (digits2_pos 1000000)) with 20. lia. }
  { fold d1. change (Zpos (digits2_pos 1000000)) with 20. lia. }
  fold d1 in R1, B1, B2, B3.
  change (Zpos (digits2_pos 1000000)) with 20 in R1, B1, B2, B3.
  replace (53 - d1 + 20) with (21 + (52 - d1)) in B1, B2, B3 by lia.
  rewrite Z.pow_add_r in B1, B2, B3 by lia. fold A in B1, B2, B3.
  change (2 ^ 21) with 2097152 in B1, B2, B3.
  rewrite R1. clear R1.
  set (E1 := d1 + 0 - (20 + 0) - 53 + j1).
  assert (HE1 : E1 = d1 - 73 + j1) by (subst E1; lia).
  set (J1 := 2 ^ j1) in *.
  assert (HJ1 : 0 < J1) by (apply Z.pow_pos_nonneg; lia).
  (* thresholds for the seconds *)
  assert (L1 : 60 * k * (2097152 * A) <= Zpos M1 * J1).
  { destruct (Z.eq_dec k 0) as [-> | Hk0]; [lia |].
    pose proof (thr_ge (Zpos p * (2097152 * A)) 1000000 (Zpos M1) j1 0
                  (21 + (52 - d1)) (60 * k)) as T.
    rewrite Z.pow_add_r in T by lia. fold A J1 in T.
    change (2 ^ 21) with 2097152 in T. change (2 ^ 0) with 1 in T.
    change (2 ^ 53) with 9007199254740992 in T.
    rewrite Z.add_0_l in T. fold J1 in T.
    apply T; try lia. nia. }
  assert (U1 : Zpos M1 * J1 <= (60 * (k + 1) * 2097152 - 1) * A).
  { pose proof (thr_le (Zpos p * (2097152 * A)) 1000000 (Zpos M1) j1 0
                  (52 - d1) (60 * (k + 1) * 2097152 - 1)) as T.
    fold A J1 in T. change (2 ^ 0) with 1 in T.
    change (2 ^ 53) with 9007199254740992 in T.
    rewrite Z.add_0_l in T. fold J1 in T.
    apply T; try lia. nia. }
  (* the division by sixty *)
  destruct (div_bracket M1 8444249301319680 E1 (-47))
    as [M2 [j2 [R2 [Hj2 [HM2 [C1 [C2 C3]]]]]]].
  { rewrite (digits2_unique M1 53 HM1).
    change (Zpos (digits2_pos 8444249301319680)) with 53. lia. }
  { rewrite (digits2_unique M1 53 HM1).
    change (Zpos (digits2_pos 8444249301319680)) with 53. lia. }
  rewrite (digits2_unique M1 53 HM1) in R2, C1, C2, C3.
  change (Zpos (digits2_pos 8444249301319680)) with 53 in R2, C1, C2, C3.
  change (2 ^ (53 - 53 + 53)) with 9007199254740992 in C1, C2, C3.
  rewrite R2. clear R2.
  set (E2 := 53 + E1 - (53 + -47) - 53 + j2).
  assert (HE2 : E2 = d1 - 79 + j1 + j2) by (subst E2; lia).
  set (J2 := 2 ^ j2) in *.
  assert (HJ2 : 0 < J2) by (apply Z.pow_pos_nonneg; lia).
  set (G := 2 ^ (54 - d1 - j1)).
  assert (HG : 0 < G) by (apply Z.pow_pos_nonneg; lia).
  assert (HGA : G * J1 = 4 * A).
  { subst G J1 A. rewrite <- Z.pow_add_r by lia.
    replace (54 - d1 - j1 + j1) with (2 + (52 - d1)) by lia.
    rewrite Z.pow_add_r by lia. reflexivity. }
  assert (L2 : k * (33554432 * G) <= Zpos M2 * J2).
  { destruct (Z.eq_dec k 0) as [-> | Hk0]; [lia |].
    pose proof (thr_ge (Zpos M1 * 9007199254740992) 8444249301319680
                  (Zpos M2) j2 0 (25 + (54 - d1 - j1)) k) as T.
    rewrite Z.pow_add_r in T by lia. fold G J2 in T.
    change (2 ^ 25) with 33554432 in T. change (2 ^ 0) with 1 in T.
    change (2 ^ 53) with 9007199254740992 in T.
    rewrite Z.add_0_l in T. fold J2 in T.
    apply T; try lia.
    assert (H : 15 * k * 2097152 * G * J1 <= Zpos M1 * J1) by nia.
    assert (H' : 15 * k * 2097152 * G <= Zpos M1).
    { apply Z.mul_le_mono_pos_r with (p := J1); [lia | exact H]. }
    lia. }
  assert (U2 : Zpos M2 * (4 * J2) <= ((k + 1) * 134217728 - 1) * G).
  { pose proof (thr_le (Zpos M1 * 9007199254740992) 8444249301319680
                  (Zpos M2) j2 2 (54 - d1 - j1) ((k + 1) * 134217728 - 1)) as T.
    fold G in T. rewrite Z.pow_add_r in T by lia. fold J2 in T.
    change (2 ^ 2) with 4 in T.
    change (2 ^ 53) with 9007199254740992 in T.
    apply T; try lia.
    assert (H : Zpos M1 * 64 * J1 <= (60 * (k + 1) * 2097152 - 1) * 16 * G * J1) by nia.
    assert (H' : Zpos M1 * 64 <= (60 * (k + 1) * 2097152 - 1) * 16 * G).
    { apply Z.mul_le_mono_pos_r with (p := J1); [lia | exact H]. }
    nia. }
  (* in units of 2 ^ -80 *)
  cbn [normal80 val80].
  assert (HS : 2 ^ (E2 + 80) * (33554432 * G) = J2 * 2 ^ 80).
  { subst G J2. change 33554432 with (2 ^ 25). rewrite <- !Z.pow_add_r by lia.
    f_equal. lia. }
  assert (HP : 0 < 2 ^ (E2 + 80)) by (apply Z.pow_pos_nonneg; lia).
  change (2 ^ 27) with 134217728.
  split; [split; [exact HM2 | lia] |].
  set (S := 2 ^ (E2 + 80)) in *. set (W := 2 ^ 80) in *.
  assert (HW : 0 < W) by (subst W; apply Z.pow_pos_nonneg; lia).
  split.
  - apply Z.mul_le_mono_pos_r with (p := J2); [lia |]. nia.
  - apply Z.mul_le_mono_pos_r with (p := 33554432 * G * (4 * J2)); [lia |]. nia.
Qed.

Lemma flt_val80 (x y : spec_float) :
  normal80 x -> normal80 y -> flt x y = (val80 x <? val80 y).
Proof.
  destruct x as [| | | [] M E]; try contradiction.
  destruct y as [| | | [] T F]; try contradiction.
  cbn [normal80 val80]. intros [HM HE] [HT HF].
  change (2 ^ 52) with 4503599627370496 in *.
  change (2 ^ 53) with 9007199254740992 in *.
  unfold flt, SFltb, SFcompare.
  assert (HP : forall a b, -80 <= a -> a < b ->
    exists c, 2 <= c /\ 2 ^ (b + 80) = c * 2 ^ (a + 80) /\ 0 < 2 ^ (a + 80)).
  { intros a b Ha Hab. exists (2 ^ (b - a)). split; [| split].
    - replace (b - a) with (b - a - 1 + 1) by lia. rewrite pow2_step by lia.
      assert (0 < 2 ^ (b - a - 1)) by (apply Z.pow_pos_nonneg; lia). lia.
    - rewrite <- Z.pow_add_r by lia. f_equal. lia.
    - apply Z.pow_pos_nonneg; lia. }
  destruct (Z.compare_spec E F) as [Heq | Hlt | Hgt].
  - subst F. change (Pos.compare_cont Eq M T) with (Pos.compare M T).
    assert (0 < 2 ^ (E + 80)) by (apply Z.pow_pos_nonneg; lia).
    rewrite Pos2Z.inj_compare.
    destruct (Z.compare_spec (Zpos M) (Zpos T)); symmetry.
    + apply Z.ltb_ge. nia.
    + apply Z.ltb_lt. nia.
    + apply Z.ltb_ge. nia.
  - destruct (HP E F) as [c [Hc [Ec Hpos]]]; try lia.
    symmetry. apply Z.ltb_lt. rewrite Ec. nia.
  - destruct (HP F E) as [c [Hc [Ec Hpos]]]; try lia.
    symmetry. apply Z.ltb_ge. rewrite Ec. nia.
Qed.

Lemma to_int_val80 (x : spec_float) :
  normal80 x -> to_int x = Ok (val80 x / 2 ^ 80).
Proof.
  destruct x as [| | | [] M E]; try contradiction.
  cbn [normal80 val80 to_int]. intros [_ HE]. f_equal.
  unfold magnitude_floor. destruct (Z.leb_spec 0 E) as [H | H].
  - assert (E = 0) by lia. subst E. cbn [Z.add].
    rewrite Z.div_mul by (apply Z.pow_nonzero; lia). change (2 ^ 0) with 1. lia.
  - replace (2 ^ 80) with (2 ^ (- E) * 2 ^ (E + 80)).
    + rewrite Z.div_mul_cancel_r; [reflexivity | |];
        apply Z.pow_nonzero; lia.
    + rewrite <- Z.pow_add_r by lia. f_equal. lia.
Qed.

(** The first two branches in terms of the difference in microseconds. *)
Lemma bucket_moments (delta : Z) :
  delta < 60000000 -> bucket (minutes_of delta) = Ok moments.
Proof.
  intros H. unfold bucket.
  destruct delta as [| p | p].
  - reflexivity.
  - destruct (minutes_range p 0) as [Hn [_ Hu]];
      [change (2 ^ 26) with 67108864; lia | lia |].
    rewrite (flt_val80 _ one Hn) by (cbn; lia).
    change (val80 one) with (2 ^ 80). change (2 ^ 27) with 134217728 in Hu.
    replace (val80 (minutes_of (Zpos p)) <? 2 ^ 80) with true; [reflexivity |].
    symmetry. apply Z.ltb_lt.
    assert (0 < 2 ^ 80) by (apply Z.pow_pos_nonneg; lia). lia.
  - rewrite (PyFloatFacts.signed_true_below_one _
               (FreshnessFacts.minutes_of_negative (Zneg p) ltac:(lia))).
    reflexivity.
Qed.

Lemma bucket_minutes (delta : Z) :
  60000000 <= delta < 3600000000 ->
  bucket (minutes_of delta) = Ok (minutes_ago (delta / 60000000)).
Proof.
  intros H. unfold bucket.
  destruct delta as [| p | p]; try lia.
  set (k := Zpos p / 60000000).
  assert (Hk : 60000000 * k <= Zpos p < 60000000 * (k + 1)).
  { subst k. pose proof (Z.mul_div_le (Zpos p) 60000000 ltac:(lia)).
    pose proof (Z.mul_succ_div_gt (Zpos p) 60000000 ltac:(lia)). lia. }
  assert (Hk' : 1 <= k <= 59) by lia.
  clearbody k.
  destruct (minutes_range p k) as [Hn [Hl Hu]];
    [change (2 ^ 26) with 67108864; lia | exact Hk |].
  change (2 ^ 27) with 134217728 in Hu.
  assert (HW : 0 < 2 ^ 80) by (apply Z.pow_pos_nonneg; lia).
  rewrite (flt_val80 _ one Hn) by (cbn; lia).
  rewrite (flt_val80 _ sixty Hn) by (cbn; lia).
  change (val80 one) with (2 ^ 80). change (val80 sixty) with (60 * 2 ^ 80).
  rewrite (to_int_val80 _ Hn).
  set (v := val80 (minutes_of (Zpos p))) in *. set (W := 2 ^ 80) in *.
  clearbody v W.
  replace (v <? W) with false by (symmetry; apply Z.ltb_ge; nia).
  replace (v <? 60 * W) with true by (symmetry; apply Z.ltb_lt; nia).
  cbn [bind].
  replace (v / W) with k; [reflexivity |].
  apply Z.div_unique_pos with (r := v - k * W); [split; nia | ring].
Qed.

(** What [floor_div] subtracts: for [x] of value at least sixty, the
    difference between [x] and its remainder by sixty is the normal
    float of sixty times the whole quotient. *)
Lemma sub_fmod_sixty (M : positive) (E h : Z) :
  2 ^ 52 <= Zpos M < 2 ^ 53 -> -47 <= E <= 0 ->
  1 <= h < 2 ^ 46 ->
  h * 8444249301319680 <= Zpos M * 2 ^ (E + 47) < (h + 1) * 8444249301319680 ->
  exists (M0 : positive) (E0 : Z),
    fsub (S754_finite false M E) (fmod (S754_finite false M E) sixty)
    = S754_finite false M0 E0
    /\ 2 ^ 52 <= Zpos M0 < 2 ^ 53 /\ -52 <= E0 <= 0
    /\ Zpos M0 = 60 * h * 2 ^ (- E0)
    /\ flt (fmod (S754_finite false M E) sixty) zero = false.
Proof.
  intros HM HE Hh HV.
  change (2 ^ 46) with 70368744177664 in Hh.
  destruct (canon_int (Z.to_pos (60 * h))) as [M0 [E0 [HM0 [HE0 HV0]]]].
  { rewrite Z2Pos.id by lia. change (2 ^ 53) with 9007199254740992. lia. }
  rewrite Z2Pos.id in HV0 by lia.
  exists M0, E0.
  assert (Hfm : fmod (S754_finite false M E) sixty
                = binary_normalize prec emax
                    ((Zpos M * 2 ^ (E + 47)) mod 8444249301319680) (-47) false).
  { unfold fmod, sixty. rewrite Z.min_r by lia.
    replace (E - -47) with (E + 47) by lia.
    replace (-47 - -47) with 0 by lia. change (2 ^ 0) with 1.
    rewrite Z.mul_1_r. reflexivity. }
  remember (2 ^ 153) as Q eqn:HQdef.
  assert (HQ : 0 < Q) by (subst Q; apply Z.pow_pos_nonneg; lia).
  assert (HxV : Zpos M * 2 ^ (E + 200) = Zpos M * 2 ^ (E + 47) * Q).
  { replace (E + 200) with (E + 47 + 153) by lia.
    rewrite (Z.pow_add_r 2 (E + 47) 153) by lia. rewrite <- HQdef. ring. }
  assert (H0V : Zpos M0 * 2 ^ (E0 + 200) = h * 8444249301319680 * Q).
  { rewrite HV0. replace (E0 + 200) with (E0 + 47 + 153) by lia.
    replace (60 * h * 2 ^ (- E0) * 2 ^ (E0 + 47 + 153))
      with (60 * h * (2 ^ (- E0) * 2 ^ (E0 + 47 + 153))) by ring.
    rewrite <- Z.pow_add_r by lia.
    replace (- E0 + (E0 + 47 + 153)) with (47 + 153) by lia.
    rewrite (Z.pow_add_r 2 47 153) by lia. rewrite <- HQdef.
    change (2 ^ 47) with 140737488355328. ring. }
  remember (Zpos M * 2 ^ (E + 47)) as V eqn:HVdef.
  assert (Hr : V mod 8444249301319680 = V - h * 8444249301319680).
  { symmetry. apply Z.mod_unique_pos with (q := h); lia. }
  rewrite Hfm, Hr.
  destruct (V - h * 8444249301319680) as [| rp | rp] eqn:Er; try lia.
  - (* the remainder is zero: the difference is [x] itself *)
    cbn [binary_normalize]. unfold fsub. cbn [SFsub].
    assert (HMM : M0 = M /\ E0 = E).
    { assert (Hv : Zpos M0 * 2 ^ (E0 + 200) = Zpos M * 2 ^ (E + 200)).
      { rewrite H0V, HxV. f_equal. lia. }
      apply canonical_unique; assumption || lia. }
    destruct HMM as [-> ->].
    repeat split; try assumption; try lia.
  - (* a positive remainder, itself a normal float *)
    assert (Hrp : Zpos rp < 8444249301319680) by lia.
    destruct (canon_int rp) as [Mr [Er0 [HMr [HEr HVr]]]].
    { change (2 ^ 53) with 9007199254740992. lia. }
    assert (HrV : Zpos Mr * 2 ^ (Er0 - 47 + 200) = Zpos rp * 2 ^ (-47 + 200)).
    { rewrite HVr, <- Z.mul_assoc, <- Z.pow_add_r by lia.
      f_equal. f_equal. lia. }
    assert (Hmd : binary_normalize prec emax (Zpos rp) (-47) false
                  = S754_finite false Mr (Er0 - 47)).
    { apply normalize_exact; try assumption; try lia. }
    rewrite Hmd.
    split; [| split; [exact HM0 | split; [exact HE0 | split; [exact HV0 | reflexivity]]]].
    unfold fsub. cbn [SFsub cond_Zopp].
    remember (Z.min E (Er0 - 47)) as ez eqn:Hezdef.
    assert (Hez : -200 <= ez <= 0 /\ ez <= E /\ ez <= Er0 - 47) by (subst ez; lia).
    clear Hezdef.
    rewrite !shl_align_val by lia.
    change (-47 + 200) with 153 in HrV. rewrite <- HQdef in HrV.
    assert (H1 : Zpos M * 2 ^ (E - ez) * 2 ^ (ez + 200) = V * Q).
    { rewrite <- Z.mul_assoc, <- Z.pow_add_r by lia.
      replace (E - ez + (ez + 200)) with (E + 200) by lia.
      rewrite HxV. reflexivity. }
    assert (H2 : Zpos Mr * 2 ^ (Er0 - 47 - ez) * 2 ^ (ez + 200) = Zpos rp * Q).
    { rewrite <- Z.mul_assoc, <- Z.pow_add_r by lia.
      replace (Er0 - 47 - ez + (ez + 200)) with (Er0 - 47 + 200) by lia.
      exact HrV. }
    remember (Zpos M * 2 ^ (E - ez) - Zpos Mr * 2 ^ (Er0 - 47 - ez)) as I eqn:HIdef.
    assert (HI : I * 2 ^ (ez + 200) = h * 8444249301319680 * Q).
    { subst I. rewrite Z.mul_sub_distr_r, H1, H2.
      replace (h * 8444249301319680) with (V - Zpos rp) by lia. ring. }
    assert (HPz : 0 < 2 ^ (ez + 200)) by (apply Z.pow_pos_nonneg; lia).
    assert (HIpos : 0 < I).
    { apply (Z.mul_pos_cancel_r I (2 ^ (ez + 200)) HPz). rewrite HI.
      apply Z.mul_pos_pos; lia. }
    destruct I as [| ip | ip]; try lia.
    apply normalize_exact; assumption || lia.
Qed.

(** The quotient by sixty of the normal float of [60 * h] is the normal
    float of [h]: the division is exact. *)
Lemma div_sixty_exact (M0 : positive) (E0 h : Z) :
  2 ^ 52 <= Zpos M0 < 2 ^ 53 -> -52 <= E0 <= 0 ->
  1 <= h < 2 ^ 46 ->
  Zpos M0 = 60 * h * 2 ^ (- E0) ->
  exists (Mq : positive) (Eq : Z),
    fdiv (S754_finite false M0 E0) sixty = S754_finite false Mq Eq
    /\ 2 ^ 52 <= Zpos Mq < 2 ^ 53 /\ -52 <= Eq <= 0
    /\ Zpos Mq = h * 2 ^ (- Eq).
Proof.
  intros HM0 HE0 Hh HV0.
  change (2 ^ 46) with 70368744177664 in Hh.
  unfold fdiv, sixty.
  destruct (div_bracket M0 8444249301319680 E0 (-47))
    as [M [j [R [Hj [HM [B1 [B2 B3]]]]]]].
  { rewrite (digits2_unique M0 53 HM0).
    change (Zpos (digits2_pos 8444249301319680)) with 53. lia. }
  { rewrite (digits2_unique M0 53 HM0).
    change (Zpos (digits2_pos 8444249301319680)) with 53. lia. }
  rewrite (digits2_unique M0 53 HM0) in R, B1, B2, B3.
  change (Zpos (digits2_pos 8444249301319680)) with 53 in R, B1, B2, B3.
  change (2 ^ (53 - 53 + 53)) with 9007199254740992 in B1, B2, B3.
  rewrite R. clear R.
  exists M, (53 + E0 - (53 + -47) - 53 + j).
  assert (HP : 0 < 2 ^ (- E0)) by (apply Z.pow_pos_nonneg; lia).
  assert (Hf : 2 ^ (6 - E0) = 64 * 2 ^ (- E0)).
  { replace (6 - E0) with (6 + - E0) by lia. rewrite Z.pow_add_r by lia.
    reflexivity. }
  assert (Heq : h * 2 ^ (6 - E0) * 8444249301319680
                = Zpos M0 * 9007199254740992 * 2 ^ 0).
  { rewrite Hf, HV0. change (2 ^ 0) with 1. ring. }
  assert (Hge : h * 2 ^ (6 - E0) <= Zpos M * 2 ^ (0 + j)).
  { apply (thr_ge (Zpos M0 * 9007199254740992) 8444249301319680 (Zpos M) j 0
             (6 - E0) h);
      try assumption; try lia; change (2 ^ 53) with 9007199254740992; lia. }
  assert (Hle : Zpos M * 2 ^ (0 + j) <= h * 2 ^ (6 - E0)).
  { apply (thr_le (Zpos M0 * 9007199254740992) 8444249301319680 (Zpos M) j 0
             (6 - E0) h);
      try assumption; try lia; change (2 ^ 53) with 9007199254740992; lia. }
  rewrite Z.add_0_l in Hge, Hle.
  assert (Hval : Zpos M * 2 ^ j = h * 2 ^ (6 - E0)) by lia.
  assert (HJ : 0 < 2 ^ j) by (apply Z.pow_pos_nonneg; lia).
  assert (Hsplit : 2 ^ (6 - E0) = 2 ^ (6 - E0 - j) * 2 ^ j).
  { rewrite <- Z.pow_add_r by lia. f_equal. lia. }
  assert (HMq : Zpos M = h * 2 ^ (6 - E0 - j)).
  { apply Z.mul_cancel_r with (p := 2 ^ j); [lia |].
    rewrite Hval, Hsplit. ring. }
  split; [reflexivity |]. split; [exact HM |].
  replace (- (53 + E0 - (53 + -47) - 53 + j)) with (6 - E0 - j) by lia.
  split; [| exact HMq].
  split; [| lia].
  destruct (Z_le_gt_dec (6 - E0 - j) 52) as [H | H]; [lia | exfalso].
  assert (Hbig : 2 ^ 53 <= 2 ^ (6 - E0 - j)) by (apply Z.pow_le_mono_r; lia).
  assert (Hm : 2 ^ (6 - E0 - j) <= Zpos M).
  { rewrite HMq. assert (0 < 2 ^ (6 - E0 - j)) by (apply Z.pow_pos_nonneg; lia).
    rewrite <- (Z.mul_1_l (2 ^ (6 - E0 - j))) at 1.
    apply Z.mul_le_mono_nonneg_r; lia. }
  lia.
Qed.

(** An integral value is its own floor, and its conversion to [int] is
    exact. *)
Lemma floor_integral (Mq : positive) (Eq h : Z) :
  2 ^ 52 <= Zpos Mq < 2 ^ 53 -> -52 <= Eq <= 0 -> 1 <= h ->
  Zpos Mq = h * 2 ^ (- Eq) ->
  floor (S754_finite false Mq Eq) = S754_finite false Mq Eq
  /\ to_int (S754_finite false Mq Eq) = Ok h.
Proof.
  intros HM HE Hh HV.
  assert (HP : 0 < 2 ^ (- Eq)) by (apply Z.pow_pos_nonneg; lia).
  assert (Hq : Zpos Mq / 2 ^ (- Eq) = h).
  { rewrite HV. apply Z.div_mul. lia. }
  unfold floor, to_int, magnitude_floor.
  destruct (Z.leb_spec 0 Eq) as [H0 | H0].
  - split; [reflexivity |]. f_equal.
    assert (Eq = 0) by lia. subst Eq. change (2 ^ (- 0)) with 1 in HV.
    change (2 ^ 0) with 1. lia.
  - rewrite Hq. split; [| reflexivity].
    unfold of_Z. destruct h as [| hp | hp]; try lia.
    apply normalize_exact; try assumption; try lia.
    rewrite HV, <- Z.mul_assoc, <- Z.pow_add_r by lia.
    f_equal. f_equal. lia.
Qed.

Lemma fsub_self (M : positive) (E : Z) :
  fsub (S754_finite false M E) (S754_finite false M E) = S754_zero false.
Proof.
  unfold fsub. cbn [SFsub cond_Zopp]. rewrite Z.sub_diag. reflexivity.
Qed.

(** The floor division by sixty of a float [x] between [60 * h] and
    [60 * (h + 1)] is [h], exactly. *)
Lemma floor_div_sixty (M : positive) (E h : Z) :
  2 ^ 52 <= Zpos M < 2 ^ 53 -> -47 <= E <= 0 ->
  1 <= h < 2 ^ 46 ->
  h * 8444249301319680 <= Zpos M * 2 ^ (E + 47) < (h + 1) * 8444249301319680 ->
  exists q, floor_div (S754_finite false M E) sixty = Ok q /\ to_int q = Ok h.
Proof.
  intros HM HE Hh HV.
  destruct (sub_fmod_sixty M E h HM HE Hh HV)
    as [M0 [E0 [Hsub [HM0 [HE0 [HV0 Hmd]]]]]].
  destruct (div_sixty_exact M0 E0 h HM0 HE0 Hh HV0)
    as [Mq [Eq [Hdiv [HMq [HEq HVq]]]]].
  destruct (floor_integral Mq Eq h HMq HEq ltac:(lia) HVq) as [Hfl Hint].
  exists (S754_finite false Mq Eq). split; [| exact Hint].
  unfold floor_div. change (is_nonzero sixty) with true. cbn [negb].
  rewrite Hsub, Hdiv, Hmd.
  change (flt sixty zero) with false. cbn [Bool.eqb negb].
  rewrite andb_false_r. cbn [is_nonzero]. rewrite Hfl, fsub_self.
  reflexivity.
Qed.

(** The third branch in terms of the difference in microseconds. *)
Lemma bucket_hours (delta : Z) :
  3600000000 <= delta < 4026531780000000 ->
  bucket (minutes_of delta) = Ok (hours_ago (delta / 3600000000)).
Proof.
  intros H. unfold bucket.
  destruct delta as [| p | p]; try lia.
  set (k := Zpos p / 60000000).
  assert (Hk : 60000000 * k <= Zpos p < 60000000 * (k + 1)).
  { subst k. pose proof (Z.mul_div_le (Zpos p) 60000000 ltac:(lia)).
    pose proof (Z.mul_succ_div_gt (Zpos p) 60000000 ltac:(lia)). lia. }
  assert (Hh0 : Zpos p / 3600000000 = k / 60).
  { subst k. rewrite Z.div_div by lia. reflexivity. }
  rewrite Hh0.
  assert (Hk' : 60 <= k < 67108863) by lia.
  clearbody k.
  set (h := k / 60).
  assert (Hh : 60 * h <= k < 60 * (h + 1)).
  { subst h. pose proof (Z.mul_div_le k 60 ltac:(lia)).
    pose proof (Z.mul_succ_div_gt k 60 ltac:(lia)). lia. }
  clearbody h.
  destruct (minutes_range p k) as [Hn [Hl Hu]];
    [change (2 ^ 26) with 67108864; lia | exact Hk |].
  rewrite (flt_val80 _ one Hn) by (cbn; lia).
  rewrite (flt_val80 _ sixty Hn) by (cbn; lia).
  change (val80 one) with (2 ^ 80). change (val80 sixty) with (60 * 2 ^ 80).
  destruct (minutes_of (Zpos p)) as [| | | [|] M E]; try contradiction.
  cbn [normal80 val80] in Hn, Hl, Hu |- *. destruct Hn as [HM HE].
  change (2 ^ 27) with 134217728 in Hu.
  change (2 ^ 80) with 1208925819614629174706176 in *.
  change (2 ^ 52) with 4503599627370496 in HM.
  change (2 ^ 53) with 9007199254740992 in HM.
  assert (HE47 : -47 <= E).
  { destruct (Z_le_gt_dec (-47) E) as [Hge | Hlt]; [exact Hge | exfalso].
    assert (Hp : 2 ^ (E + 80) <= 2 ^ 32) by (apply Z.pow_le_mono_r; lia).
    change (2 ^ 32) with 4294967296 in Hp.
    assert (Hm : Zpos M * 2 ^ (E + 80) <= Zpos M * 4294967296)
      by (apply Z.mul_le_mono_nonneg_l; lia).
    lia. }
  assert (Hsplit : Zpos M * 2 ^ (E + 80) = Zpos M * 2 ^ (E + 47) * 8589934592).
  { replace (E + 80) with (E + 47 + 33) by lia.
    rewrite (Z.pow_add_r 2 (E + 47) 33) by lia. change (2 ^ 33) with 8589934592.
    ring. }
  rewrite Hsplit in *.
  assert (HV : h * 8444249301319680 <= Zpos M * 2 ^ (E + 47)
               < (h + 1) * 8444249301319680).
  { remember (Zpos M * 2 ^ (E + 47)) as V. lia. }
  replace (Zpos M * 2 ^ (E + 47) * 8589934592 <? 1208925819614629174706176)
    with false by (symmetry; apply Z.ltb_ge; lia).
  replace (Zpos M * 2 ^ (E + 47) * 8589934592 <? 60 * 1208925819614629174706176)
    with false by (symmetry; apply Z.ltb_ge; lia).
  destruct (floor_div_sixty M E h) as [q [Hq Hint]];
    [change (2 ^ 52) with 4503599627370496;
     change (2 ^ 53) with 9007199254740992; lia
    | lia | change (2 ^ 46) with 70368744177664; lia | exact HV |].
  rewrite Hq. cbn [bind]. rewrite Hint. reflexivity.
Qed.

(** In that range the function returns a text. *)
Lemma format_time_difference_returns (clock_now : Z) (past : datetime) :
  clock_now - FreshnessFacts.instant past < 4026531780000000 ->
  exists s, format_time_difference clock_now past = Ok s.
Proof.
  intros H. rewrite FreshnessFacts.format_time_difference_delta.
  destruct (Z_lt_le_dec (clock_now - FreshnessFacts.instant past) 60000000)
    as [H1 | H1]; [eexists; apply bucket_moments; exact H1 |].
  destruct (Z_lt_le_dec (clock_now - FreshnessFacts.instant past) 3600000000)
    as [H2 | H2]; [eexists; apply bucket_minutes; lia |].
  eexists. apply bucket_hours. lia.
Qed.

(** X5. The age of a timestamp is counted exactly, although it goes through
    two float divisions and a float floor division. With [delta] the
    microseconds from the instant of the timestamp to the clock: below
    one minute (also for a timestamp in the future) the text is the
    one of the first branch; from one minute to one hour it carries the
    whole minutes [delta / 60000000]; from one hour on (up to some 127
    years, where the proof stops) it carries the whole hours
    [delta / 3600000000]. No branch raises in that range. *)
Theorem elapsed_time_is_counted_exactly (clock_now : Z) (past : datetime) :
  let delta := clock_now - FreshnessFacts.instant past in
  (delta < 60000000 ->
   format_time_difference clock_now past = Ok moments)
  /\ (60000000 <= delta < 3600000000 ->
      format_time_difference clock_now past
      = Ok (minutes_ago (delta / 60000000)))
  /\ (3600000000 <= delta < 4026531780000000 ->
      format_time_difference clock_now past
      = Ok (hours_ago (delta / 3600000000))).
Proof.
  cbv zeta. rewrite FreshnessFacts.format_time_difference_delta.
  split; [| split].
  - apply bucket_moments.
  - apply bucket_minutes.
  - apply bucket_hours.
Qed.

(** One microsecond before the hour, and the hour itself. *)
Example around_the_hour :
  format_time_difference 3599999999 (mkDatetime 0 None) = Ok (minutes_ago 59)
  /\ format_time_difference 3600000000 (mkDatetime 0 None) = Ok (hours_ago 1)
  /\ format_time_difference 59999999 (mkDatetime 0 (Some 0)) = Ok moments
  /\ format_time_difference 60000000 (mkDatetime 0 (Some 0)) = Ok (minutes_ago 1).
Proof. repeat split; vm_compute; reflexivity. Qed.

End ElapsedTime.

(** ** Thousands separators *)

Module GroupingFacts.
Import PyStr.

Definition not_comma (a : ascii) : bool := negb (Ascii.eqb a ",").

Lemma remove_char_list (l : list ascii) :
  remove_char "," (string_of_list_ascii l)
  = string_of_list_ascii (filter not_comma l).
Proof.
  induction l as [| a l IH]; [reflexivity |].
  cbn [string_of_list_ascii remove_char filter]. unfold not_comma at 1.
  destruct (Ascii.eqb a ","); cbn [negb]; rewrite IH; reflexivity.
Qed.

Lemma remove_char_app (a b : string) :
  remove_char "," (a ++ b) = remove_char "," a ++ remove_char "," b.
Proof.
  induction a as [| x a IH]; [reflexivity |].
  cbn [append remove_char]. destruct (Ascii.eqb x ","); rewrite IH; reflexivity.
Qed.

Lemma filter_rev {A : Type} (f : A -> bool) (l : list A) :
  filter f (rev l) = rev (filter f l).
Proof.
  induction l as [| a l IH]; [reflexivity |].
  cbn [rev filter]. rewrite filter_app, IH. cbn [filter].
  destruct (f a); [reflexivity | rewrite app_nil_r; reflexivity].
Qed.

(** Grouping inserts commas and nothing else, one for every full group
    of three digits that is followed by another digit. *)
Lemma group3_spec (n : nat) :
  forall l, (List.length l <= n)%nat ->
    forallb not_comma l = true ->
    filter not_comma (group3 l) = l
    /\ List.length (group3 l) = (List.length l + (List.length l - 1) / 3)%nat.
Proof.
  induction n as [| n IH]; intros l Hn Hl.
  - destruct l; [split; reflexivity | cbn in Hn; lia].
  - destruct l as [| a [| b [| c [| d more]]]];
      [cbn [group3] .. |
       change (group3 (a :: b :: c :: d :: more))
         with (a :: b :: c :: ","%char :: group3 (d :: more))].
    + split; reflexivity.
    + split; [cbn [filter]; cbn [forallb] in Hl; rewrite andb_true_r in Hl;
              rewrite Hl; reflexivity | reflexivity].
    + cbn [forallb] in Hl. apply andb_prop in Hl. destruct Hl as [Ha Hl].
      rewrite andb_true_r in Hl.
      split; [cbn [filter]; rewrite Ha, Hl; reflexivity | reflexivity].
    + cbn [forallb] in Hl. apply andb_prop in Hl. destruct Hl as [Ha Hl].
      apply andb_prop in Hl. destruct Hl as [Hb Hl]. rewrite andb_true_r in Hl.
      split; [cbn [filter]; rewrite Ha, Hb, Hl; reflexivity | reflexivity].
    + cbn [forallb] in Hl. apply andb_prop in Hl. destruct Hl as [Ha Hl].
      apply andb_prop in Hl. destruct Hl as [Hb Hl].
      apply andb_prop in Hl. destruct Hl as [Hc Hl].
      cbn [List.length] in Hn.
      destruct (IH (d :: more) ltac:(cbn [List.length]; lia) Hl) as [Hf Hlen].
      split.
      * cbn [filter]. rewrite Ha, Hb, Hc.
        change (not_comma ",") with false. cbv iota.
        rewrite Hf. reflexivity.
      * change (List.length (a :: b :: c :: ","%char :: group3 (d :: more)))
          with (S (S (S (S (List.length (group3 (d :: more))))))).
        cbn [List.length] in Hlen |- *. rewrite Hlen.
        replace (S (S (S (S (List.length more)))) - 1)%nat
          with (S (List.length more) - 1 + 1 * 3)%nat by lia.
        rewrite Nat.div_add by lia. lia.
Qed.

Lemma uint_digits (d : Decimal.uint) :
  forallb not_comma (list_ascii_of_string (NilEmpty.string_of_uint d)) = true.
Proof.
  induction d as [| d IH | d IH | d IH | d IH | d IH | d IH | d IH | d IH | d IH | d IH];
    [reflexivity | ..]; cbn [NilEmpty.string_of_uint list_ascii_of_string forallb];
    rewrite IH; reflexivity.
Qed.

Lemma digits_not_commas (n : N) : forallb not_comma (digits_of_N n) = true.
Proof. apply uint_digits. Qed.

Lemma forallb_rev {A : Type} (f : A -> bool) (l : list A) :
  forallb f l = true -> forallb f (rev l) = true.
Proof.
  intros H. apply forallb_forall. intros x Hx. apply in_rev in Hx.
  rewrite forallb_forall in H. exact (H x Hx).
Qed.

Lemma length_string_of_list (l : list ascii) :
  String.length (string_of_list_ascii l) = List.length l.
Proof. induction l as [| a l IH]; [reflexivity |]. cbn. rewrite IH. reflexivity. Qed.

Lemma grouped_spec (n : N) :
  remove_char "," (grouped n) = plain n
  /\ String.length (grouped n)
     = (String.length (plain n) + (String.length (plain n) - 1) / 3)%nat.
Proof.
  unfold grouped, plain.
  pose proof (forallb_rev _ _ (digits_not_commas n)) as Hd.
  destruct (group3_spec _ (rev (digits_of_N n)) (le_n _) Hd) as [Hf Hlen].
  split.
  - rewrite remove_char_list, filter_rev, Hf, rev_involutive. reflexivity.
  - rewrite !length_string_of_list, length_rev, Hlen, length_rev. reflexivity.
Qed.

Lemma length_append (a b : string) :
  String.length (a ++ b) = (String.length a + String.length b)%nat.
Proof. induction a as [| x a IH]; [reflexivity |]. cbn. rewrite IH. reflexivity. Qed.

(** The grouped rendering of an integer is its plain decimal rendering
    with commas put in: taking the commas out gives [str(n)] back, and
    the number of commas is that of the full groups of three digits
    that follow a first group, [(d - 1) / 3] for [d] digits. *)
Lemma format_int_spec (n : Z) :
  remove_char "," (PyFloat.format_int n) = Freshness.str_int n
  /\ String.length (PyFloat.format_int n)
     = (String.length (Freshness.str_int n)
        + (String.length (plain (Z.abs_N n)) - 1) / 3)%nat.
Proof.
  unfold PyFloat.format_int, Freshness.str_int.
  destruct (grouped_spec (Z.abs_N n)) as [Hr Hl]. split.
  - rewrite remove_char_app, Hr. destruct (n <? 0); reflexivity.
  - rewrite !length_append, Hl. lia.
Qed.

(** The shown text of a local-currency price of 1234567 tomans. *)
Example grouped_million :
  PyFloat.format_int 1234567 = "1,234,567"
  /\ PyFloat.format_int (-1000) = "-1,000"
  /\ PyFloat.format_int 999 = "999".
Proof. repeat split; vm_compute; reflexivity. Qed.

End GroupingFacts.

(** ** Prices written in digits *)

Module DigitPrices.
Import PyFloat Rounding.

Definition chars (d : Decimal.uint) : list ascii :=
  list_ascii_of_string (NilEmpty.string_of_uint d).

Definition accumulate (acc : Z) (c : ascii) : Z := 10 * acc + digit_val c.

Lemma digits_value_acc (d : Decimal.uint) :
  forall acc : positive,
    fold_left accumulate (chars d) (Zpos acc) = Zpos (Pos.of_uint_acc d acc).
Proof.
  induction d as [| d IH | d IH | d IH | d IH | d IH | d IH | d IH | d IH | d IH | d IH];
    intros acc; [reflexivity | ..];
    unfold chars; cbn [NilEmpty.string_of_uint list_ascii_of_string fold_left Pos.of_uint_acc];
    fold (chars d); rewrite <- IH; f_equal; unfold accumulate, digit_val;
    match goal with
    | |- context [Z.of_nat (nat_of_ascii ?c)] =>
        let v := eval vm_compute in (Z.of_nat (nat_of_ascii c)) in
        change (Z.of_nat (nat_of_ascii c)) with v
    end; lia.
Qed.

Lemma digits_value_uint (d : Decimal.uint) :
  digits_value (chars d) = Z.of_N (Pos.of_uint d).
Proof.
  unfold digits_value. change (fun acc c => 10 * acc + digit_val c) with accumulate.
  induction d as [| d IH | d IH | d IH | d IH | d IH | d IH | d IH | d IH | d IH | d IH];
    [reflexivity | exact IH | ..];
    unfold chars; cbn [NilEmpty.string_of_uint list_ascii_of_string fold_left Pos.of_uint];
    fold (chars d); apply digits_value_acc.
Qed.

(** The digits of [str(n)] denote [n]. *)
Lemma digits_value_plain (n : N) :
  digits_value (PyStr.digits_of_N n) = Z.of_N n.
Proof.
  unfold PyStr.digits_of_N. fold (chars (N.to_uint n)).
  rewrite digits_value_uint. f_equal. apply DecimalN.Unsigned.of_to.
Qed.

Lemma chars_digits (d : Decimal.uint) : forallb is_digit (chars d) = true.
Proof.
  induction d as [| d IH | d IH | d IH | d IH | d IH | d IH | d IH | d IH | d IH | d IH];
    [reflexivity | ..]; unfold chars;
    cbn [NilEmpty.string_of_uint list_ascii_of_string forallb];
    fold (chars d); rewrite IH; reflexivity.
Qed.

Lemma plain_digits (n : N) :
  forallb is_digit (PyStr.digits_of_N n) = true /\ PyStr.digits_of_N n <> [].
Proof.
  split; [apply chars_digits |].
  unfold PyStr.digits_of_N. destruct n as [| p]; [discriminate |].
  cbn [N.to_uint].
  pose proof (DecimalPos.Unsigned.to_uint_nonnil p) as Hn.
  destruct (Pos.to_uint p); [contradiction | ..]; discriminate.
Qed.

(** What a digit is not. *)
Lemma digit_facts (a : ascii) :
  is_digit a = true ->
  (byte_of a <? 127) = true
  /\ Ascii.eqb a "_" = false /\ Ascii.eqb a "-" = false
  /\ Ascii.eqb a "+" = false /\ is_float_space a = false.
Proof.
  destruct a as [[] [] [] [] [] [] [] []]; intros H;
    try discriminate H; repeat split; reflexivity.
Qed.

Lemma to_ascii_digits (l : list ascii) :
  forallb is_digit l = true -> to_ascii l = Some l.
Proof.
  induction l as [| a l IH]; [reflexivity |].
  cbn [forallb]. intros H. apply andb_prop in H. destruct H as [Ha Hl].
  cbn [to_ascii]. cbv zeta.
  destruct (digit_facts a Ha) as [Hb _]. rewrite Hb, (IH Hl). reflexivity.
Qed.

Lemma no_underscore (l : list ascii) :
  forallb is_digit l = true -> existsb (fun c => Ascii.eqb c "_") l = false.
Proof.
  induction l as [| a l IH]; [reflexivity |].
  cbn [forallb existsb]. intros H. apply andb_prop in H. destruct H as [Ha Hl].
  destruct (digit_facts a Ha) as [_ [Hu _]]. rewrite Hu, (IH Hl). reflexivity.
Qed.

Lemma drop_spaces_digits (l : list ascii) :
  forallb is_digit l = true -> drop_spaces l = l.
Proof.
  destruct l as [| a l]; [reflexivity |].
  cbn [forallb drop_spaces]. intros H. apply andb_prop in H. destruct H as [Ha _].
  destruct (digit_facts a Ha) as [_ [_ [_ [_ Hs]]]]. rewrite Hs. reflexivity.
Qed.

Lemma span_digits_all (l : list ascii) :
  forallb is_digit l = true -> span_digits l = (l, []).
Proof.
  induction l as [| a l IH]; [reflexivity |].
  cbn [forallb span_digits]. intros H. apply andb_prop in H. destruct H as [Ha Hl].
  rewrite Ha, (IH Hl). reflexivity.
Qed.

(** [float] on a run of ASCII digits. *)
Lemma py_float_digits (l : list ascii) :
  forallb is_digit l = true -> l <> [] ->
  py_float (string_of_list_ascii l)
  = Some (decimal_to_float false (digits_value l) 0 (Z.of_nat (List.length l))).
Proof.
  intros Hd Hne. unfold py_float.
  rewrite list_ascii_of_string_of_list_ascii, (to_ascii_digits l Hd),
    (no_underscore l Hd).
  unfold parse_trimmed, trim_spaces.
  rewrite (drop_spaces_digits l Hd).
  assert (Hr : forallb is_digit (rev l) = true).
  { apply forallb_forall. intros x Hx. apply in_rev in Hx.
    rewrite forallb_forall in Hd. exact (Hd x Hx). }
  rewrite (drop_spaces_digits _ Hr), rev_involutive.
  unfold parse_number.
  destruct l as [| a l']; [contradiction |].
  assert (Ha : is_digit a = true).
  { cbn [forallb] in Hd. apply andb_prop in Hd. exact (proj1 Hd). }
  destruct (digit_facts a Ha) as [_ [_ [Hm [Hp _]]]].
  unfold take_sign. rewrite Hm, Hp.
  rewrite (span_digits_all _ Hd). rewrite app_nil_r.
  cbn [List.length]. rewrite Z.sub_0_r. reflexivity.
Qed.

(** The float of a positive integer below [2 ^ 53] is exact. *)
Lemma normalize_int (p : positive) :
  Zpos p < 2 ^ 53 ->
  exists (M : positive) (E : Z),
    binary_normalize prec emax (Zpos p) 0 false = S754_finite false M E
    /\ 2 ^ 52 <= Zpos M < 2 ^ 53 /\ -52 <= E <= 0
    /\ Zpos M = Zpos p * 2 ^ (- E).
Proof.
  intros Hp. destruct (canon_int p Hp) as [M [E [HM [HE HV]]]].
  exists M, E. split; [| split; [exact HM | split; [exact HE | exact HV]]].
  apply normalize_exact; try assumption; try lia.
  rewrite HV, <- Z.mul_assoc, <- Z.pow_add_r by lia.
  f_equal. f_equal. lia.
Qed.

(** Dividing the float of an integer by ten and truncating gives the
    integer quotient: the rounding of the division never reaches the
    next integer. *)
Lemma tenth_is_exact (p : positive) :
  Zpos p < 1000000000000000 ->
  to_int (fdiv (binary_normalize prec emax (Zpos p) 0 false) ten)
  = Ok (Zpos p / 10).
Proof.
  intros Hp.
  destruct (normalize_int p) as [M [E [Hx [HM [HE HV]]]]].
  { change (2 ^ 53) with 9007199254740992. lia. }
  rewrite Hx. clear Hx. unfold fdiv, ten.
  set (k := Zpos p / 10).
  assert (Hk : 10 * k <= Zpos p < 10 * (k + 1)).
  { subst k. pose proof (Z.mul_div_le (Zpos p) 10 ltac:(lia)).
    pose proof (Z.mul_succ_div_gt (Zpos p) 10 ltac:(lia)). lia. }
  assert (Hk0 : 0 <= k < 100000000000000) by lia.
  clearbody k.
  destruct (div_bracket M 5629499534213120 E (-49))
    as [Mq [j [R [Hj [HMq [B1 [B2 B3]]]]]]].
  { rewrite (digits2_unique M 53 HM).
    change (Zpos (digits2_pos 5629499534213120)) with 53. lia. }
  { rewrite (digits2_unique M 53 HM).
    change (Zpos (digits2_pos 5629499534213120)) with 53. lia. }
  rewrite (digits2_unique M 53 HM) in R, B1, B2, B3.
  change (Zpos (digits2_pos 5629499534213120)) with 53 in R, B1, B2, B3.
  change (2 ^ (53 - 53 + 53)) with 9007199254740992 in B1, B2, B3.
  rewrite R. clear R.
  set (P := 2 ^ (- E)).
  assert (HP : 0 < P) by (apply Z.pow_pos_nonneg; lia).
  set (J := 2 ^ j).
  assert (HJ : 0 < J) by (apply Z.pow_pos_nonneg; lia).
  (* the quotient is at least [k] *)
  assert (L : k * (16 * P) <= Zpos Mq * J).
  { destruct (Z.eq_dec k 0) as [-> | Hkz]; [lia |].
    pose proof (thr_ge (Zpos M * 9007199254740992) 5629499534213120 (Zpos Mq) j 0
                  (4 + - E) k) as T.
    rewrite Z.pow_add_r in T by lia. fold P J in T.
    change (2 ^ 4) with 16 in T. change (2 ^ 0) with 1 in T.
    change (2 ^ 53) with 9007199254740992 in T.
    rewrite Z.add_0_l in T. fold J in T.
    apply T; try assumption; try lia.
    rewrite HV. fold P.
    replace (k * (16 * P) * 5629499534213120)
      with (10 * k * (9007199254740992 * P)) by ring.
    replace (Zpos p * P * 9007199254740992 * 1)
      with (Zpos p * (9007199254740992 * P)) by ring.
    apply Z.mul_le_mono_nonneg_r; lia. }
  (* and at most [k + 15 / 16] *)
  assert (U : Zpos Mq * J <= (16 * k + 15) * P).
  { pose proof (thr_le (Zpos M * 9007199254740992) 5629499534213120 (Zpos Mq) j 0
                  (- E) (16 * k + 15)) as T.
    fold P J in T. change (2 ^ 0) with 1 in T.
    change (2 ^ 53) with 9007199254740992 in T.
    rewrite Z.add_0_l in T. fold J in T.
    apply T; try assumption; try lia.
    rewrite HV. fold P.
    replace (Zpos p * P * 9007199254740992 * 1)
      with (16 * Zpos p * (562949953421312 * P)) by ring.
    replace ((16 * k + 15) * P * 5629499534213120)
      with ((160 * k + 150) * (562949953421312 * P)) by ring.
    apply Z.mul_le_mono_nonneg_r; lia. }
  cbn [to_int]. f_equal. unfold magnitude_floor.
  replace (0 <=? 53 + E - (53 + -49) - 53 + j) with false
    by (symmetry; apply Z.leb_gt; lia).
  replace (- (53 + E - (53 + -49) - 53 + j)) with (4 - E - j) by lia.
  set (G := 2 ^ (4 - E - j)).
  assert (HG : 0 < G) by (apply Z.pow_pos_nonneg; lia).
  assert (HGJ : G * J = 16 * P).
  { subst G J P. rewrite <- Z.pow_add_r by lia.
    replace (4 - E - j + j) with (4 + - E) by lia.
    rewrite Z.pow_add_r by lia. reflexivity. }
  clearbody P J G.
  assert (L' : k * G <= Zpos Mq).
  { apply Z.mul_le_mono_pos_r with (p := J); [lia |].
    replace (k * G * J) with (k * (G * J)) by ring. rewrite HGJ. exact L. }
  assert (U' : Zpos Mq < (k + 1) * G).
  { apply Z.mul_lt_mono_pos_r with (p := 16 * J); [lia |].
    replace ((k + 1) * G * (16 * J)) with (16 * (k + 1) * (G * J)) by ring.
    rewrite HGJ.
    replace (Zpos Mq * (16 * J)) with (16 * (Zpos Mq * J)) by ring.
    assert (16 * ((16 * k + 15) * P) < 16 * (k + 1) * (16 * P)); [| lia].
    replace (16 * (k + 1) * (16 * P)) with (16 * ((16 * k + 16) * P)) by ring.
    apply Z.mul_lt_mono_pos_l; [lia |].
    apply Z.mul_lt_mono_pos_r; lia. }
  symmetry. apply Z.div_unique_pos with (r := Zpos Mq - k * G); [lia | ring].
Qed.

(** [float] on the digits of [n], and what the division by ten and
    the truncation make of it. *)
Lemma tomans_of_digits (n : N) :
  Z.of_N n < 1000000000000000 ->
  exists x,
    py_float (PyStr.plain n) = Some x
    /\ to_int (fdiv x ten) = Ok (Z.of_N n / 10).
Proof.
  intros Hn. destruct (plain_digits n) as [Hd Hne].
  unfold PyStr.plain. rewrite (py_float_digits _ Hd Hne), digits_value_plain.
  eexists. split; [reflexivity |].
  destruct n as [| p]; [reflexivity |].
  cbn [Z.of_N] in *. unfold decimal_to_float.
  change (400 <? 0) with false. cbv iota.
  replace (Z.of_nat (List.length (PyStr.digits_of_N (N.pos p))) + 0 <? -400)
    with false by (symmetry; apply Z.ltb_ge; lia).
  change (0 <=? 0) with true. cbv iota.
  change (10 ^ 0) with 1. rewrite Z.mul_1_r.
  apply tenth_is_exact. exact Hn.
Qed.

End DigitPrices.

(** ** Prices written with two decimals *)

Module DecimalPrices.
Import PyFloat Rounding DigitPrices.

(** A character of a plain numeral: a digit or the point. *)
Definition numeral_char (a : ascii) : bool := is_digit a || Ascii.eqb a ".".

Lemma numeral_char_facts (a : ascii) :
  numeral_char a = true ->
  (byte_of a <? 127) = true
  /\ Ascii.eqb a "_" = false /\ is_float_space a = false.
Proof.
  destruct a as [[] [] [] [] [] [] [] []]; intros H;
    try discriminate H; repeat split; reflexivity.
Qed.

Lemma to_ascii_numeral (l : list ascii) :
  forallb numeral_char l = true -> to_ascii l = Some l.
Proof.
  induction l as [| a l IH]; [reflexivity |].
  cbn [forallb]. intros H. apply andb_prop in H. destruct H as [Ha Hl].
  cbn [to_ascii]. cbv zeta.
  destruct (numeral_char_facts a Ha) as [Hb _]. rewrite Hb, (IH Hl). reflexivity.
Qed.

Lemma numeral_no_underscore (l : list ascii) :
  forallb numeral_char l = true -> existsb (fun c => Ascii.eqb c "_") l = false.
Proof.
  induction l as [| a l IH]; [reflexivity |].
  cbn [forallb existsb]. intros H. apply andb_prop in H. destruct H as [Ha Hl].
  destruct (numeral_char_facts a Ha) as [_ [Hu _]]. rewrite Hu, (IH Hl). reflexivity.
Qed.

Lemma drop_spaces_numeral (l : list ascii) :
  forallb numeral_char l = true -> drop_spaces l = l.
Proof.
  destruct l as [| a l]; [reflexivity |].
  cbn [forallb drop_spaces]. intros H. apply andb_prop in H. destruct H as [Ha _].
  destruct (numeral_char_facts a Ha) as [_ [_ Hs]]. rewrite Hs. reflexivity.
Qed.

Lemma trim_spaces_numeral (l : list ascii) :
  forallb numeral_char l = true -> trim_spaces l = l.
Proof.
  intros H. unfold trim_spaces. rewrite (drop_spaces_numeral l H).
  assert (Hr : forallb numeral_char (rev l) = true).
  { apply forallb_forall. intros x Hx. apply in_rev in Hx.
    rewrite forallb_forall in H. exact (H x Hx). }
  rewrite (drop_spaces_numeral _ Hr). apply rev_involutive.
Qed.

Lemma span_digits_point (ip rest : list ascii) :
  forallb is_digit ip = true ->
  span_digits (ip ++ "."%char :: rest) = (ip, "."%char :: rest).
Proof.
  induction ip as [| a ip IH]; [reflexivity |].
  cbn [forallb app span_digits]. intros H. apply andb_prop in H.
  destruct H as [Ha Hl]. rewrite Ha, (IH Hl). reflexivity.
Qed.

Lemma digits_are_numeral (l : list ascii) :
  forallb is_digit l = true -> forallb numeral_char l = true.
Proof.
  intros H. apply forallb_forall. intros x Hx.
  rewrite forallb_forall in H. unfold numeral_char. rewrite (H x Hx). reflexivity.
Qed.

(** [float] on digits, a point and two more digits. *)
Lemma py_float_two_decimals (ip : list ascii) (c1 c2 : ascii) :
  forallb is_digit ip = true -> ip <> [] ->
  is_digit c1 = true -> is_digit c2 = true ->
  py_float (string_of_list_ascii (ip ++ "."%char :: [c1; c2]))
  = Some (decimal_to_float false
            (100 * digits_value ip + (10 * digit_val c1 + digit_val c2))
            (-2) (Z.of_nat (List.length (ip ++ [c1; c2])))).
Proof.
  intros Hd Hne H1 H2.
  assert (Hall : forallb numeral_char (ip ++ "."%char :: [c1; c2]) = true).
  { rewrite forallb_app, (digits_are_numeral ip Hd). cbn [forallb andb].
    unfold numeral_char at 2 3. rewrite H1, H2. reflexivity. }
  unfold py_float.
  rewrite list_ascii_of_string_of_list_ascii, (to_ascii_numeral _ Hall),
    (numeral_no_underscore _ Hall).
  unfold parse_trimmed. rewrite (trim_spaces_numeral _ Hall).
  unfold parse_number.
  destruct ip as [| a ip']; [contradiction |].
  assert (Ha : is_digit a = true).
  { cbn [forallb] in Hd. apply andb_prop in Hd. exact (proj1 Hd). }
  destruct (digit_facts a Ha) as [_ [_ [Hm [Hp _]]]].
  change ((a :: ip') ++ "."%char :: [c1; c2])%list
    with (a :: (ip' ++ "."%char :: [c1; c2]))%list.
  unfold take_sign. rewrite Hm, Hp.
  change (a :: (ip' ++ "."%char :: [c1; c2]))%list
    with ((a :: ip') ++ "."%char :: [c1; c2])%list.
  rewrite (span_digits_point _ [c1; c2] Hd).
  change (Ascii.eqb "." ".") with true. cbv iota.
  assert (Hs : span_digits [c1; c2] = ([c1; c2], [])).
  { cbn [span_digits]. rewrite H1, H2. reflexivity. }
  rewrite Hs.
  assert (Hv : digits_value ((a :: ip') ++ [c1; c2])
               = 100 * digits_value (a :: ip') + (10 * digit_val c1 + digit_val c2)).
  { unfold digits_value. rewrite fold_left_app. cbn [fold_left]. ring. }
  change (((a :: ip') ++ [c1; c2])%list) with (a :: (ip' ++ [c1; c2]))%list in *.
  cbv iota. rewrite Hv. reflexivity.
Qed.

Lemma string_of_list_app (a b : list ascii) :
  string_of_list_ascii (a ++ b)
  = string_of_list_ascii a ++ string_of_list_ascii b.
Proof.
  induction a as [| x a IH]; [reflexivity |].
  cbn [app string_of_list_ascii append]. rewrite IH. reflexivity.
Qed.

(** A number below one hundred written with two digits. *)
Lemma two_digits_nat (n : nat) :
  (n < 100)%nat ->
  exists c1 c2,
    two_digits (Z.of_nat n) = String c1 (String c2 "")
    /\ is_digit c1 = true /\ is_digit c2 = true
    /\ 10 * digit_val c1 + digit_val c2 = Z.of_nat n.
Proof.
  intros Hb.
  do 100 (destruct n as [| n];
          [do 2 eexists; repeat split; vm_compute; reflexivity |]).
  lia.
Qed.

Lemma two_digits_spec (f : Z) :
  0 <= f < 100 ->
  exists c1 c2,
    two_digits f = String c1 (String c2 "")
    /\ is_digit c1 = true /\ is_digit c2 = true
    /\ 10 * digit_val c1 + digit_val c2 = f.
Proof.
  intros Hf. rewrite <- (Z2Nat.id f) by lia. apply two_digits_nat. lia.
Qed.

(** Rounding to the nearest integer a quotient that is within a
    hundredth of the divisor of an integer. *)
Lemma round_half_even_near (n d p : Z) :
  128 <= d -> -50 <= n - p * d <= 50 -> round_half_even n d = p.
Proof.
  intros Hd Hr. unfold round_half_even.
  destruct (Z_le_gt_dec 0 (n - p * d)) as [Hpos | Hneg].
  - assert (Hq : n / d = p).
    { symmetry. apply Z.div_unique_pos with (r := n - p * d); [lia | ring]. }
    assert (Hm : n mod d = n - p * d).
    { symmetry. apply Z.mod_unique_pos with (q := p); [lia | ring]. }
    rewrite Hq, Hm.
    destruct (Z.compare_spec (2 * (n - p * d)) d); lia.
  - assert (Hq : n / d = p - 1).
    { symmetry. apply Z.div_unique_pos with (r := n - p * d + d); [lia | ring]. }
    assert (Hm : n mod d = n - p * d + d).
    { symmetry. apply Z.mod_unique_pos with (q := p - 1); [lia | ring]. }
    rewrite Hq, Hm.
    destruct (Z.compare_spec (2 * (n - p * d + d)) d); lia.
Qed.

(** The float nearest to [p / 100], counted in hundredths, is [p]. *)
Lemma hundredths_of_quotient (p : positive) :
  Zpos p < 2 ^ 51 ->
  exists (M : positive) (e : Z),
    SFdiv prec emax (S754_finite false p 0) (S754_finite false 100 0)
    = S754_finite false M e
    /\ hundredths M e = Zpos p.
Proof.
  intros Hp.
  set (d1 := Zpos (digits2_pos p)).
  pose proof (digits2_bounds p) as [P1 P2]. fold d1 in P1, P2.
  assert (Hd1 : 1 <= d1 <= 51).
  { split; [subst d1; lia |].
    destruct (Z_le_gt_dec d1 51) as [H | H]; [exact H | exfalso].
    assert (2 ^ 51 <= 2 ^ (d1 - 1)) by (apply Z.pow_le_mono_r; lia). lia. }
  destruct (div_bracket p 100 0 0) as [M [j [R [Hj [HM [B1 [B2 _]]]]]]].
  { fold d1. change (Zpos (digits2_pos 100)) with 7. lia. }
  { fold d1. change (Zpos (digits2_pos 100)) with 7. lia. }
  fold d1 in R, B1, B2. change (Zpos (digits2_pos 100)) with 7 in R, B1, B2.
  exists M, (d1 + 0 - (7 + 0) - 53 + j). split; [exact R |].
  unfold hundredths.
  replace (0 <=? d1 + 0 - (7 + 0) - 53 + j) with false
    by (symmetry; apply Z.leb_gt; lia).
  replace (- (d1 + 0 - (7 + 0) - 53 + j)) with (60 - d1 - j) by lia.
  set (D := 2 ^ (60 - d1 - j)).
  set (J := 2 ^ j) in *.
  assert (HJ : 0 < J) by (apply Z.pow_pos_nonneg; lia).
  assert (HDJ : 2 ^ (53 - d1 + 7) = D * J).
  { subst D J. rewrite <- Z.pow_add_r by lia. f_equal. lia. }
  assert (HD : 128 <= D).
  { subst D. change 128 with (2 ^ 7). apply Z.pow_le_mono_r; lia. }
  rewrite HDJ in B1, B2. clearbody D J.
  apply round_half_even_near; [exact HD |].
  split.
  - assert (H : 2 * (Zpos p * D - Zpos M * 100) * J <= 100 * J).
    { replace (2 * (Zpos p * D - Zpos M * 100) * J)
        with (2 * (Zpos p * (D * J) - Zpos M * J * 100)) by ring.
      replace (100 * J) with (J * 100) by ring. exact B1. }
    apply Z.mul_le_mono_pos_r in H; lia.
  - assert (H : 2 * (Zpos M * 100 - Zpos p * D) * J <= 100 * J).
    { replace (2 * (Zpos M * 100 - Zpos p * D) * J)
        with (2 * (Zpos M * J * 100 - Zpos p * (D * J))) by ring.
      replace (100 * J) with (J * 100) by ring. exact B2. }
    apply Z.mul_le_mono_pos_r in H; lia.
Qed.

(** [float] on a price with two decimals, and the text [format_2f]
    makes of the result: the same number, grouped. *)
Lemma ounce_of_decimals (a : N) (f : Z) :
  0 <= f < 100 -> Z.of_N a < 10000000000000 ->
  exists x,
    py_float (PyStr.plain a ++ "." ++ two_digits f) = Some x
    /\ format_2f x = PyStr.grouped a ++ "." ++ two_digits f.
Proof.
  intros Hf Ha.
  destruct (two_digits_spec f Hf) as [c1 [c2 [Ht [H1 [H2 Hv]]]]].
  destruct (plain_digits a) as [Hd Hne].
  assert (Hs : PyStr.plain a ++ "." ++ two_digits f
               = string_of_list_ascii (PyStr.digits_of_N a ++ "."%char :: [c1; c2])).
  { rewrite string_of_list_app, Ht. reflexivity. }
  rewrite Hs, (py_float_two_decimals _ c1 c2 Hd Hne H1 H2), digits_value_plain, Hv.
  clear Hs Ht Hv. eexists. split; [reflexivity |].
  assert (Hq : (100 * Z.of_N a + f) / 100 = Z.of_N a).
  { symmetry. apply Z.div_unique_pos with (r := f); lia. }
  assert (Hm : (100 * Z.of_N a + f) mod 100 = f).
  { symmetry. apply Z.mod_unique_pos with (q := Z.of_N a); lia. }
  unfold decimal_to_float.
  destruct (100 * Z.of_N a + f) as [| p | p] eqn:Ep; try lia.
  - assert (a = 0%N) by lia. assert (f = 0) by lia. subst a f. reflexivity.
  - change (400 <? -2) with false. cbv iota.
    replace (Z.of_nat (List.length (PyStr.digits_of_N a ++ [c1; c2])) + -2 <? -400)
      with false by (symmetry; apply Z.ltb_ge; lia).
    change (0 <=? -2) with false. cbv iota.
    change (Z.to_pos (10 ^ (- -2))) with 100%positive.
    destruct (hundredths_of_quotient p) as [M [e [R Hh]]].
    { change (2 ^ 51) with 2251799813685248. lia. }
    rewrite R. cbn [format_2f]. rewrite Hh. unfold fixed2_grouped.
    rewrite Hq, Hm, N2Z.id. reflexivity.
Qed.

End DecimalPrices.

(** ** The snapshot, entry by entry *)

Module SnapshotFacts.
Import Prices PyFloat PricesFacts.

(** The raw [ts] value of [key] in a document. *)
Definition ts_field (doc : json) (key : string) : option json :=
  match entry_of doc key with
  | Some (JObj entry) => PyDict.get "ts" entry
  | _ => None
  end.

Section WithClock.

Variable fromisoformat : string -> option datetime.
Variable isoformat : datetime -> string.
Variable clock : nat -> Z.

Abbreviation price_entry := (Prices.price_entry fromisoformat clock).
Abbreviation fetch_prices := (Prices.fetch_prices fromisoformat isoformat clock).
Abbreviation parse_timestamp := (Prices.parse_timestamp fromisoformat clock).

Lemma parse_timestamp_tick (tsv : json) (tick : nat) :
  (tick <= snd (parse_timestamp tsv tick) <= S tick)%nat.
Proof.
  unfold Prices.parse_timestamp, now.
  destruct tsv as [| b | n | x | s | l | d]; cbn [snd]; try lia.
  destruct (fromisoformat s); cbn [snd]; lia.
Qed.

Lemma price_entry_tick (key : string) (current : json) (tick tick' : nat)
  (q : quote) :
  price_entry key current tick = Ok (q, tick') -> (tick <= tick' <= S tick)%nat.
Proof.
  intros H.
  destruct (price_entry_inv fromisoformat clock key current tick tick' q H)
    as [c [entry [p [tsv [_ [_ [_ [_ [_ Ht]]]]]]]]].
  pose proof (parse_timestamp_tick tsv tick) as Hb.
  change (Prices.parse_timestamp fromisoformat clock tsv tick) with (parse_timestamp tsv tick) in Ht.
  rewrite Ht in Hb. exact Hb.
Qed.

(** The entry of the snapshot for a configured key is what one
    iteration of the loop made of the entry of the document, at a
    moment when the clock had been read at most twice. *)
Lemma snapshot_entry (doc : json) (t : string) (res : snapshot)
  (label key : string) :
  fetch_prices (Ok doc) = Ok (t, res) -> In (label, key) PRICE_KEYS ->
  exists d q tick tick',
    doc = JObj d
    /\ price_entry key
         (match PyDict.get "current" d with Some x => x | None => JObj [] end) tick
       = Ok (q, tick')
    /\ PyDict.get label res = Some q
    /\ (tick <= 2)%nat.
Proof.
  intros Hf Hin.
  destruct (PricesProperties.fetch_prices_inv fromisoformat isoformat clock doc t res Hf)
    as [d [[q1 k1] [[q2 k2] [[q3 k3] [Hd [H1 [H2 [H3 Hres]]]]]]]].
  cbn [fst snd] in *.
  pose proof (price_entry_tick _ _ _ _ _ H1) as B1.
  pose proof (price_entry_tick _ _ _ _ _ H2) as B2.
  subst res. unfold PRICE_KEYS in Hin.
  destruct Hin as [E | [E | [E | []]]]; inversion E; subst label key.
  - exists d, q1, 0%nat, k1. repeat split; [exact Hd | exact H1 | lia].
  - exists d, q2, k1, k2. repeat split; [exact Hd | exact H2 | lia].
  - exists d, q3, k2, k3. repeat split; [exact Hd | exact H3 | lia].
Qed.

Lemma get_In {V : Type} (k : string) (v : V) (d : list (string * V)) :
  PyDict.get k d = Some v -> In (k, v) d.
Proof.
  induction d as [| [k' v'] r IH]; [discriminate |].
  cbn [PyDict.get]. destruct (String.eqb_spec k' k) as [-> | N].
  - intros H. inversion H. left. reflexivity.
  - intros H. right. exact (IH H).
Qed.

(** The timestamp of the snapshot for a configured key is what the
    [try] around [fromisoformat] makes of the [ts] value of the entry. *)
Lemma snapshot_timestamp (doc : json) (t : string) (res : snapshot)
  (label key : string) (tsv : json) :
  fetch_prices (Ok doc) = Ok (t, res) -> In (label, key) PRICE_KEYS ->
  ts_field doc key = Some tsv ->
  exists shown tick,
    In (label, (shown, fst (parse_timestamp tsv tick))) res /\ (tick <= 2)%nat.
Proof.
  intros Hf Hin Hts.
  destruct (snapshot_entry doc t res label key Hf Hin)
    as [d [[shown ts] [tick [tick' [Hd [He [Hg Hb]]]]]]].
  destruct (price_entry_inv fromisoformat clock key _ tick tick' _ He)
    as [c [entry [p [tsv' [Hc [Hk [_ [Hts' [_ Ht]]]]]]]]].
  assert (tsv' = tsv).
  { unfold ts_field, entry_of in Hts. subst doc. cbn [PyJson.get] in Hts.
    rewrite Hc in Hts. cbn [entry_in] in Hts. rewrite Hk, Hts' in Hts.
    inversion Hts. reflexivity. }
  subst tsv'. cbn [snd] in Ht. exists shown, tick. split; [| exact Hb].
  change (Prices.parse_timestamp fromisoformat clock tsv tick)
    with (parse_timestamp tsv tick) in Ht.
  rewrite Ht. cbn [fst]. exact (get_In _ _ _ Hg).
Qed.

(** X6. A price that does not parse as a float is shown as zero: in every
    snapshot [fetch_prices] returns, an instrument whose price string,
    commas removed, is rejected by [float] has the text ["0"], or
    ["0.00"] for the ounce; the failure is not reported. *)
Theorem unparseable_price_shows_zero (doc : json) (t : string)
  (res : snapshot) (label key p : string) :
  fetch_prices (Ok doc) = Ok (t, res) ->
  In (label, key) PRICE_KEYS ->
  price_text doc key = Some p ->
  py_float (PyStr.remove_char "," p) = None ->
  exists ts,
    PyDict.get label res
    = Some (if String.eqb key "ons" then "0.00" else "0", ts).
Proof.
  intros Hf Hin Hp Hnone.
  destruct (snapshot_entry doc t res label key Hf Hin)
    as [d [[shown ts] [tick [tick' [Hd [He [Hg _]]]]]]].
  destruct (price_entry_inv fromisoformat clock key _ tick tick' _ He)
    as [c [entry [p' [tsv [Hc [Hk [Hp' [_ [Hfmt _]]]]]]]]].
  assert (p' = p).
  { unfold price_text, entry_of in Hp. subst doc. cbn [PyJson.get] in Hp.
    rewrite Hc in Hp. cbn [entry_in] in Hp. rewrite Hk, Hp' in Hp.
    inversion Hp. reflexivity. }
  subst p'. cbn [fst] in Hfmt.
  rewrite (PricesProperties.value_num_unparsed key _ Hnone) in Hfmt.
  exists ts. rewrite Hg. unfold formatted_value in Hfmt.
  destruct (String.eqb key "ons"); vm_compute in Hfmt; inversion Hfmt; reflexivity.
Qed.

(** X7. The text shown for a local-currency instrument is the decimal
    rendering of an integer with commas put in and nothing else changed:
    the integer is the price, commas removed and parsed, divided by ten
    and truncated, and taking the commas out of the shown text gives
    its [str] back. *)
Theorem shown_integer_keeps_its_digits (doc : json) (t : string)
  (res : snapshot) (label key : string) :
  fetch_prices (Ok doc) = Ok (t, res) ->
  In (label, key) PRICE_KEYS -> key <> "ons" ->
  exists p n shown ts,
    price_text doc key = Some p
    /\ to_int (fdiv (parsed p) ten) = Ok n
    /\ PyDict.get label res = Some (shown, ts)
    /\ PyStr.remove_char "," shown = Freshness.str_int n
    /\ String.length shown
       = (String.length (Freshness.str_int n)
          + (String.length (PyStr.plain (Z.abs_N n)) - 1) / 3)%nat.
Proof.
  intros Hf Hin Hne.
  destruct (snapshot_entry doc t res label key Hf Hin)
    as [d [[shown ts] [tick [tick' [Hd [He [Hg _]]]]]]].
  destruct (price_entry_inv fromisoformat clock key _ tick tick' _ He)
    as [c [entry [p [tsv [Hc [Hk [Hp [_ [Hfmt _]]]]]]]]].
  cbn [fst] in Hfmt.
  rewrite (PricesProperties.formatted_local key _ Hne) in Hfmt.
  fold (parsed p) in Hfmt.
  destruct (to_int (fdiv (parsed p) ten)) as [n | e] eqn:Hn; [| discriminate].
  cbn [bind] in Hfmt. inversion Hfmt; subst shown.
  exists p, n, (format_int n), ts.
  split.
  { unfold price_text, entry_of. subst doc. cbn [PyJson.get]. rewrite Hc.
    cbn [entry_in]. rewrite Hk, Hp. reflexivity. }
  split; [exact Hn |]. split; [exact Hg |].
  exact (GroupingFacts.format_int_spec n).
Qed.

(** X8. A local-currency price written in digits, with or without commas,
    is shown as its integer quotient by ten, grouped: the float
    division by ten and the truncation lose nothing, for every price
    below [10 ^ 15]. *)
Theorem rials_become_tomans (doc : json) (t : string) (res : snapshot)
  (label key p : string) (n : N) :
  fetch_prices (Ok doc) = Ok (t, res) ->
  In (label, key) PRICE_KEYS -> key <> "ons" ->
  price_text doc key = Some p ->
  PyStr.remove_char "," p = PyStr.plain n ->
  Z.of_N n < 1000000000000000 ->
  exists ts,
    PyDict.get label res = Some (format_int (Z.of_N n / 10), ts).
Proof.
  intros Hf Hin Hne Hp Hdig Hn.
  destruct (snapshot_entry doc t res label key Hf Hin)
    as [d [[shown ts] [tick [tick' [Hd [He [Hg _]]]]]]].
  destruct (price_entry_inv fromisoformat clock key _ tick tick' _ He)
    as [c [entry [p' [tsv [Hc [Hk [Hp' [_ [Hfmt _]]]]]]]]].
  assert (p' = p).
  { unfold price_text, entry_of in Hp. subst doc. cbn [PyJson.get] in Hp.
    rewrite Hc in Hp. cbn [entry_in] in Hp. rewrite Hk, Hp' in Hp.
    inversion Hp. reflexivity. }
  subst p'. cbn [fst] in Hfmt.
  rewrite (PricesProperties.formatted_local key _ Hne), Hdig in Hfmt.
  destruct (DigitPrices.tomans_of_digits n Hn) as [x [Hx Hq]].
  rewrite Hx, Hq in Hfmt. cbn [bind] in Hfmt. inversion Hfmt; subst shown.
  exists ts. exact Hg.
Qed.

(** X9. The price of the ounce written with two decimals, with or without
    commas, is shown as the same number, grouped: parsing it to the
    nearest float and formatting that float with two decimals gives the
    digits back, for every price below [10 ^ 13]. *)
Theorem ounce_is_shown_unchanged (doc : json) (t : string) (res : snapshot)
  (label p : string) (a : N) (f : Z) :
  fetch_prices (Ok doc) = Ok (t, res) ->
  In (label, "ons") PRICE_KEYS ->
  price_text doc "ons" = Some p ->
  PyStr.remove_char "," p = PyStr.plain a ++ "." ++ two_digits f ->
  0 <= f < 100 -> Z.of_N a < 10000000000000 ->
  exists ts,
    PyDict.get label res
    = Some (PyStr.grouped a ++ "." ++ two_digits f, ts).
Proof.
  intros Hf Hin Hp Hdig Hfr Ha.
  destruct (snapshot_entry doc t res label "ons" Hf Hin)
    as [d [[shown ts] [tick [tick' [Hd [He [Hg _]]]]]]].
  destruct (price_entry_inv fromisoformat clock "ons" _ tick tick' _ He)
    as [c [entry [p' [tsv [Hc [Hk [Hp' [_ [Hfmt _]]]]]]]]].
  assert (p' = p).
  { unfold price_text, entry_of in Hp. subst doc. cbn [PyJson.get] in Hp.
    rewrite Hc in Hp. cbn [entry_in] in Hp. rewrite Hk, Hp' in Hp.
    inversion Hp. reflexivity. }
  subst p'. cbn [fst] in Hfmt.
  rewrite PricesProperties.formatted_ons, Hdig in Hfmt.
  destruct (DecimalPrices.ounce_of_decimals a f Hfr Ha) as [x [Hx Hq]].
  rewrite Hx, Hq in Hfmt. inversion Hfmt; subst shown.
  exists ts. exact Hg.
Qed.

(** X10. The timestamp of an instrument is what [fromisoformat] makes of the
    [ts] string of its entry; when [ts] is not a string, or does not
    parse, it is the clock read at that moment, as an aware UTC
    datetime, the clock having been read at most twice before. *)
Theorem timestamp_parsed_or_clock (doc : json) (t : string)
  (res : snapshot) (label key : string) :
  fetch_prices (Ok doc) = Ok (t, res) ->
  In (label, key) PRICE_KEYS ->
  exists shown ts tsv,
    PyDict.get label res = Some (shown, ts)
    /\ ts_field doc key = Some tsv
    /\ ((exists s, tsv = JStr s /\ fromisoformat s = Some ts)
        \/ ((forall s, tsv = JStr s -> fromisoformat s = None)
            /\ exists tick, (tick <= 2)%nat
                 /\ ts = utc_datetime (clock tick)
                 /\ tzinfo ts = Some 0)).
Proof.
  intros Hf Hin.
  destruct (snapshot_entry doc t res label key Hf Hin)
    as [d [[shown ts] [tick [tick' [Hd [He [Hg Hb]]]]]]].
  destruct (price_entry_inv fromisoformat clock key _ tick tick' _ He)
    as [c [entry [p [tsv [Hc [Hk [_ [Hts [_ Ht]]]]]]]]].
  cbn [snd] in Ht.
  exists shown, ts, tsv. split; [exact Hg |]. split.
  - unfold ts_field, entry_of. subst doc. cbn [PyJson.get]. rewrite Hc.
    cbn [entry_in]. rewrite Hk. exact Hts.
  - unfold Prices.parse_timestamp, now in Ht.
    assert (Hfall : (utc_datetime (clock tick), S tick) = (ts, tick') ->
      exists tick0, (tick0 <= 2)%nat /\ ts = utc_datetime (clock tick0)
                    /\ tzinfo ts = Some 0).
    { intros H. inversion H. exists tick. repeat split. exact Hb. }
    destruct tsv as [| b | n | x | s | l | o];
      try (right; split; [intros s Hs; discriminate Hs | exact (Hfall Ht)]).
    destruct (fromisoformat s) as [parsed |] eqn:Hiso.
    + left. exists s. split; [reflexivity |]. inversion Ht; subst. exact Hiso.
    + right. split; [| exact (Hfall Ht)].
      intros s' Hs. inversion Hs; subst. exact Hiso.
Qed.

End WithClock.

Lemma unparseable_price_shows_zero_witness :
  exists ts,
    PyDict.get (fst (nth 1 PRICE_KEYS ("", "")))
      [ (fst (nth 0 PRICE_KEYS ("", "")), ("123,456", utc_datetime 0));
        (fst (nth 1 PRICE_KEYS ("", "")), ("0", utc_datetime 1));
        (fst (nth 2 PRICE_KEYS ("", "")), ("1,950.55", utc_datetime 2)) ]
    = Some (if String.eqb "sekee_real" "ons" then "0.00" else "0", ts).
Proof.
  apply (unparseable_price_shows_zero PricesProperties.no_iso
           PricesProperties.iso_text PricesProperties.counting_clock
           (PricesProperties.document "1,234,560" "abc" "1,950.55") "now" _ _
           "sekee_real" "abc").
  - vm_compute. reflexivity.
  - right. left. reflexivity.
  - vm_compute. reflexivity.
  - vm_compute. reflexivity.
Defined.

Lemma shown_integer_keeps_its_digits_witness :
  exists p n shown ts,
    price_text (PricesProperties.document "1,234,560" "abc" "1,950.55")
      "price_dollar_rl" = Some p
    /\ to_int (fdiv (parsed p) ten) = Ok n
    /\ PyDict.get (fst (nth 0 PRICE_KEYS ("", "")))
         [ (fst (nth 0 PRICE_KEYS ("", "")), ("123,456", utc_datetime 0));
           (fst (nth 1 PRICE_KEYS ("", "")), ("0", utc_datetime 1));
           (fst (nth 2 PRICE_KEYS ("", "")), ("1,950.55", utc_datetime 2)) ]
       = Some (shown, ts)
    /\ PyStr.remove_char "," shown = Freshness.str_int n
    /\ String.length shown
       = (String.length (Freshness.str_int n)
          + (String.length (PyStr.plain (Z.abs_N n)) - 1) / 3)%nat.
Proof.
  apply (shown_integer_keeps_its_digits PricesProperties.no_iso
           PricesProperties.iso_text PricesProperties.counting_clock
           (PricesProperties.document "1,234,560" "abc" "1,950.55") "now").
  - vm_compute. reflexivity.
  - left. reflexivity.
  - discriminate.
Defined.

Lemma rials_become_tomans_witness :
  exists ts,
    PyDict.get (fst (nth 0 PRICE_KEYS ("", "")))
      [ (fst (nth 0 PRICE_KEYS ("", "")), ("123,456", utc_datetime 0));
        (fst (nth 1 PRICE_KEYS ("", "")), ("0", utc_datetime 1));
        (fst (nth 2 PRICE_KEYS ("", "")), ("1,950.55", utc_datetime 2)) ]
    = Some (format_int (Z.of_N 1234560 / 10), ts).
Proof.
  apply (rials_become_tomans PricesProperties.no_iso
           PricesProperties.iso_text PricesProperties.counting_clock
           (PricesProperties.document "1,234,560" "abc" "1,950.55") "now" _ _
           "price_dollar_rl" "1,234,560" 1234560).
  - vm_compute. reflexivity.
  - left. reflexivity.
  - discriminate.
  - vm_compute. reflexivity.
  - vm_compute. reflexivity.
  - vm_compute. reflexivity.
Defined.

Lemma ounce_is_shown_unchanged_witness :
  exists ts,
    PyDict.get (fst (nth 2 PRICE_KEYS ("", "")))
      [ (fst (nth 0 PRICE_KEYS ("", "")), ("123,456", utc_datetime 0));
        (fst (nth 1 PRICE_KEYS ("", "")), ("0", utc_datetime 1));
        (fst (nth 2 PRICE_KEYS ("", "")), ("1,950.55", utc_datetime 2)) ]
    = Some (PyStr.grouped 1950 ++ "." ++ two_digits 55, ts).
Proof.
  apply (ounce_is_shown_unchanged PricesProperties.no_iso
           PricesProperties.iso_text PricesProperties.counting_clock
           (PricesProperties.document "1,234,560" "abc" "1,950.55") "now" _ _
           "1,950.55" 1950 55).
  - vm_compute. reflexivity.
  - right. right. left. reflexivity.
  - vm_compute. reflexivity.
  - vm_compute. reflexivity.
  - lia.
  - vm_compute. reflexivity.
Defined.

Lemma timestamp_parsed_or_clock_witness :
  exists shown ts tsv,
    PyDict.get (fst (nth 2 PRICE_KEYS ("", "")))
      [ (fst (nth 0 PRICE_KEYS ("", "")), ("123,456", utc_datetime 0));
        (fst (nth 1 PRICE_KEYS ("", "")), ("0", utc_datetime 1));
        (fst (nth 2 PRICE_KEYS ("", "")), ("1,950.55", utc_datetime 2)) ]
    = Some (shown, ts)
    /\ ts_field (PricesProperties.document "1,234,560" "abc" "1,950.55") "ons"
       = Some tsv
    /\ ((exists s, tsv = JStr s /\ PricesProperties.no_iso s = Some ts)
        \/ ((forall s, tsv = JStr s -> PricesProperties.no_iso s = None)
            /\ exists tick, (tick <= 2)%nat
                 /\ ts = utc_datetime (PricesProperties.counting_clock tick)
                 /\ tzinfo ts = Some 0)).
Proof.
  apply (timestamp_parsed_or_clock PricesProperties.no_iso
           PricesProperties.iso_text PricesProperties.counting_clock
           (PricesProperties.document "1,234,560" "abc" "1,950.55") "now").
  - vm_compute. reflexivity.
  - right. right. left. reflexivity.
Defined.

End SnapshotFacts.

(** ** The snapshot as a whole *)

Module WholeSnapshot.
Import Prices PyFloat PricesFacts PricesProperties.

Lemma price_entry_same (fromisoformat : string -> option datetime)
  (clock : nat -> Z) (key : string) (c c' : list (string * json)) (tick : nat) :
  PyDict.get key c = PyDict.get key c' ->
  Prices.price_entry fromisoformat clock key (JObj c) tick
  = Prices.price_entry fromisoformat clock key (JObj c') tick.
Proof.
  intros H. unfold Prices.price_entry. cbn [PyJson.get]. rewrite H. reflexivity.
Qed.

Section WithClock.

Variable fromisoformat : string -> option datetime.
Variable isoformat : datetime -> string.
Variable clock : nat -> Z.

Abbreviation price_entry := (Prices.price_entry fromisoformat clock).
Abbreviation price_loop := (Prices.price_loop fromisoformat clock).
Abbreviation fetch_prices := (Prices.fetch_prices fromisoformat isoformat clock).
Abbreviation parse_timestamp := (Prices.parse_timestamp fromisoformat clock).

Lemma fetch_prices_keys (d : list (string * json)) :
  fetch_prices (Ok (JObj d))
  = (let current :=
       match PyDict.get "current" d with Some x => x | None => JObj [] end in
     r1 <- price_entry "price_dollar_rl" current 0%nat ;;
     r2 <- price_entry "sekee_real" current (snd r1) ;;
     r3 <- price_entry "ons" current (snd r2) ;;
     Ok (isoformat (utc_datetime (clock (snd r3))),
         combine (map fst PRICE_KEYS) [fst r1; fst r2; fst r3])).
Proof.
  unfold Prices.fetch_prices. cbn [bind PyJson.get]. cbv zeta.
  rewrite (PricesProperties.price_loop_keys fromisoformat clock).
  destruct (price_entry "price_dollar_rl" _ 0%nat) as [r1 | e];
    cbn [bind]; [| reflexivity].
  destruct (price_entry "sekee_real" _ (snd r1)) as [r2 | e];
    cbn [bind]; [| reflexivity].
  destruct (price_entry "ons" _ (snd r2)) as [r3 | e]; cbn [bind]; reflexivity.
Qed.

Lemma one_way (doc doc' : json) (t : string) (res : snapshot) :
  (forall label key, In (label, key) PRICE_KEYS ->
     entry_of doc key = entry_of doc' key) ->
  fetch_prices (Ok doc) = Ok (t, res) ->
  fetch_prices (Ok doc') = Ok (t, res).
Proof.
  intros Hsame Hf.
  destruct (fetch_prices_inv fromisoformat isoformat clock doc t res Hf)
    as [d [r1 [r2 [r3 [Hd [H1 [H2 [H3 Hres]]]]]]]].
  subst doc. rewrite fetch_prices_keys in Hf. cbv zeta in Hf.
  set (current := match PyDict.get "current" d with Some x => x | None => JObj [] end) in *.
  assert (Hcur : forall label key tick r,
    In (label, key) PRICE_KEYS ->
    price_entry key current tick = Ok r ->
    exists d' c c',
      doc' = JObj d' /\ current = JObj c
      /\ match PyDict.get "current" d' with Some x => x | None => JObj [] end = JObj c'
      /\ PyDict.get key c = PyDict.get key c').
  { intros label key tick [q tick'] Hin He.
    destruct (price_entry_inv fromisoformat clock key _ tick tick' q He)
      as [c [entry [p [tsv [Hc [Hk _]]]]]].
    assert (Hdoc : entry_of (JObj d) key = Some (JObj entry)).
    { unfold entry_of. cbn [PyJson.get]. fold current. rewrite Hc.
      cbn [entry_in]. exact Hk. }
    rewrite (Hsame label key Hin) in Hdoc.
    destruct (entry_of_inv doc' key _ Hdoc) as [d' [c' [Hd' [Hc' Hk']]]].
    exists d', c, c'. rewrite Hk, Hk'. repeat split; assumption. }
  destruct (Hcur _ "price_dollar_rl" 0%nat r1 (or_introl eq_refl) H1)
    as [d' [c [c' [Hd' [Hc [Hc' K1]]]]]].
  destruct (Hcur _ "sekee_real" (snd r1) r2 (or_intror (or_introl eq_refl)) H2)
    as [d2 [c2 [c2' [Hd2 [Hc2 [Hc2' K2]]]]]].
  destruct (Hcur _ "ons" (snd r2) r3
              (or_intror (or_intror (or_introl eq_refl))) H3)
    as [d3 [c3 [c3' [Hd3 [Hc3 [Hc3' K3]]]]]].
  subst doc'. inversion Hd2; subst d2. inversion Hd3; subst d3.
  rewrite Hc in Hc2, Hc3. inversion Hc2; subst c2. inversion Hc3; subst c3.
  rewrite Hc' in Hc2', Hc3'. inversion Hc2'; subst c2'. inversion Hc3'; subst c3'.
  rewrite fetch_prices_keys. cbv zeta. rewrite Hc'. rewrite <- Hf, Hc.
  rewrite <- (price_entry_same fromisoformat clock _ c c' _ K1).
  rewrite Hc in H1. rewrite H1. cbn [bind].
  rewrite <- (price_entry_same fromisoformat clock _ c c' _ K2).
  rewrite Hc in H2. rewrite H2. cbn [bind].
  rewrite <- (price_entry_same fromisoformat clock _ c c' _ K3).
  reflexivity.
Qed.

(** X11. [fetch_prices] looks at nothing but the entries of the three
    configured keys in the [current] section: two documents that agree
    on these entries give the same snapshot and the same server time,
    or both give none. *)
Theorem only_configured_entries_matter (doc doc' : json) :
  (forall label key, In (label, key) PRICE_KEYS ->
     entry_of doc key = entry_of doc' key) ->
  (forall t res,
     fetch_prices (Ok doc) = Ok (t, res) <-> fetch_prices (Ok doc') = Ok (t, res))
  /\ is_ok (fetch_prices (Ok doc)) = is_ok (fetch_prices (Ok doc')).
Proof.
  intros Hsame.
  assert (Hiff : forall t res,
    fetch_prices (Ok doc) = Ok (t, res) <-> fetch_prices (Ok doc') = Ok (t, res)).
  { intros t res. split.
    - apply one_way. exact Hsame.
    - apply one_way. intros label key Hin. symmetry. exact (Hsame label key Hin). }
  split; [exact Hiff |].
  destruct (fetch_prices (Ok doc)) as [[t res] | e] eqn:E1.
  - rewrite (proj1 (Hiff t res) eq_refl). reflexivity.
  - destruct (fetch_prices (Ok doc')) as [[t res] | e'] eqn:E2; [| reflexivity].
    pose proof (proj2 (Hiff t res) eq_refl) as X. discriminate X.
Qed.

Lemma formatted_tomans (key p : string) (n : N) :
  key <> "ons" ->
  PyStr.remove_char "," p = PyStr.plain n -> Z.of_N n < 1000000000000000 ->
  formatted_value key (value_num key (PyStr.remove_char "," p))
  = Ok (format_int (Z.of_N n / 10)).
Proof.
  intros Hk Hp Hn. rewrite (formatted_local key _ Hk), Hp.
  destruct (DigitPrices.tomans_of_digits n Hn) as [x [Hx Hq]].
  rewrite Hx, Hq. reflexivity.
Qed.

Lemma formatted_ounce (p : string) (a : N) (f : Z) :
  PyStr.remove_char "," p = PyStr.plain a ++ "." ++ two_digits f ->
  0 <= f < 100 -> Z.of_N a < 10000000000000 ->
  formatted_value "ons" (value_num "ons" (PyStr.remove_char "," p))
  = Ok (PyStr.grouped a ++ "." ++ two_digits f).
Proof.
  intros Hp Hf Ha. rewrite formatted_ons, Hp.
  destruct (DecimalPrices.ounce_of_decimals a f Hf Ha) as [x [Hx Hq]].
  rewrite Hx, Hq. reflexivity.
Qed.

(** X12. On a document of the expected form [fetch_prices] returns, and the
    snapshot is the expected one: when every configured entry has a
    string price and a string timestamp, the two local-currency prices
    are written in digits and the ounce with two decimals (commas
    allowed), the snapshot holds, in the configured order, the two
    integer quotients by ten and the ounce price, each grouped, with
    the timestamps of the entries, parsed or replaced by the clock. *)
Theorem expected_document_gives_snapshot (doc : json)
  (dollar coin ounce : string) (n1 n2 a : N) (f : Z) :
  complete_document doc = true ->
  price_text doc "price_dollar_rl" = Some dollar ->
  price_text doc "sekee_real" = Some coin ->
  price_text doc "ons" = Some ounce ->
  PyStr.remove_char "," dollar = PyStr.plain n1 ->
  PyStr.remove_char "," coin = PyStr.plain n2 ->
  PyStr.remove_char "," ounce = PyStr.plain a ++ "." ++ two_digits f ->
  Z.of_N n1 < 1000000000000000 -> Z.of_N n2 < 1000000000000000 ->
  0 <= f < 100 -> Z.of_N a < 10000000000000 ->
  exists t ts1 ts2 ts3,
    fetch_prices (Ok doc)
    = Ok (t, combine (map fst PRICE_KEYS)
               [ (format_int (Z.of_N n1 / 10), ts1);
                 (format_int (Z.of_N n2 / 10), ts2);
                 (PyStr.grouped a ++ "." ++ two_digits f, ts3) ]).
Proof.
  intros Hc Hp1 Hp2 Hp3 Hd1 Hd2 Hd3 Hn1 Hn2 Hf Ha.
  assert (Hkey : forall label key p text,
    In (label, key) PRICE_KEYS -> price_text doc key = Some p ->
    formatted_value key (value_num key (PyStr.remove_char "," p)) = Ok text ->
    exists c ts,
      doc = JObj c
      /\ forall tick,
         price_entry key
           (match PyDict.get "current" c with Some x => x | None => JObj [] end) tick
         = Ok ((text, fst (parse_timestamp (JStr ts) tick)),
               snd (parse_timestamp (JStr ts) tick))).
  { intros label key p text Hin Hp Hfmt.
    destruct (complete_document_entry doc label key Hc Hin)
      as [entry [p' [ts [He [Hp' Hts]]]]].
    assert (p' = p).
    { unfold price_text in Hp. rewrite He, Hp' in Hp. inversion Hp. reflexivity. }
    subst p'.
    destruct (entry_of_inv doc key _ He) as [d [c [Hd [Hcur Hk]]]].
    exists d, ts. split; [exact Hd |]. rewrite Hcur. intros tick.
    exact (price_entry_complete fromisoformat clock key c entry p (JStr ts)
             text tick Hk Hp' Hts Hfmt). }
  destruct (Hkey _ "price_dollar_rl" dollar _ (or_introl eq_refl) Hp1
              (formatted_tomans "price_dollar_rl" dollar n1 ltac:(discriminate) Hd1 Hn1))
    as [c [ts1 [Hd H1]]].
  destruct (Hkey _ "sekee_real" coin _ (or_intror (or_introl eq_refl)) Hp2
              (formatted_tomans "sekee_real" coin n2 ltac:(discriminate) Hd2 Hn2))
    as [c2 [ts2 [Hd' H2]]].
  destruct (Hkey _ "ons" ounce _ (or_intror (or_intror (or_introl eq_refl))) Hp3
              (formatted_ounce _ a f Hd3 Hf Ha))
    as [c3 [ts3 [Hd'' H3]]].
  subst doc. inversion Hd'; subst c2. inversion Hd''; subst c3.
  rewrite fetch_prices_keys. cbv zeta.
  rewrite H1. cbn [bind snd]. rewrite H2. cbn [bind snd]. rewrite H3.
  cbn [bind fst snd]. do 4 eexists. reflexivity.
Qed.

End WithClock.

Lemma expected_document_gives_snapshot_witness :
  exists t ts1 ts2 ts3,
    Prices.fetch_prices no_iso iso_text counting_clock
      (Ok (document "1,234,560" "987654320" "1,950.55"))
    = Ok (t, combine (map fst PRICE_KEYS)
               [ (format_int (Z.of_N 1234560 / 10), ts1);
                 (format_int (Z.of_N 987654320 / 10), ts2);
                 (PyStr.grouped 1950 ++ "." ++ two_digits 55, ts3) ]).
Proof.
  apply (expected_document_gives_snapshot no_iso iso_text counting_clock
           (document "1,234,560" "987654320" "1,950.55")
           "1,234,560" "987654320" "1,950.55");
    try (vm_compute; reflexivity); lia.
Defined.

Lemma only_configured_entries_matter_witness :
  (forall t res,
     Prices.fetch_prices no_iso iso_text counting_clock
       (Ok (document "1,234,560" "987654320" "1,950.55")) = Ok (t, res)
     <-> Prices.fetch_prices no_iso iso_text counting_clock
           (Ok (JObj [("note", JStr "x");
                      ("current",
                       JObj [("ons", quote_entry "1,950.55" "2025-08-01 09:59:58");
                             ("euro", JNull);
                             ("sekee_real", quote_entry "987654320" "2025-08-01 10:00:05");
                             ("price_dollar_rl",
                              quote_entry "1,234,560" "2025-08-01 10:00:00")])]))
         = Ok (t, res))
  /\ is_ok (Prices.fetch_prices no_iso iso_text counting_clock
              (Ok (document "1,234,560" "987654320" "1,950.55")))
     = is_ok (Prices.fetch_prices no_iso iso_text counting_clock
                (Ok (JObj [("note", JStr "x");
                           ("current",
                            JObj [("ons", quote_entry "1,950.55" "2025-08-01 09:59:58");
                                  ("euro", JNull);
                                  ("sekee_real",
                                   quote_entry "987654320" "2025-08-01 10:00:05");
                                  ("price_dollar_rl",
                                   quote_entry "1,234,560" "2025-08-01 10:00:00")])]))).
Proof.
  apply (only_configured_entries_matter no_iso iso_text counting_clock).
  intros label key [E | [E | [E | []]]]; inversion E; reflexivity.
Defined.

End WholeSnapshot.

(** ** The command handlers *)

Module HandlersFacts.
Import Handlers.

Lemma prefix_trans (a b s : string) :
  prefix a b = true -> prefix b s = true -> prefix a s = true.
Proof.
  revert b s. induction a as [| x a IH]; intros b s Hab Hbs; [destruct s; reflexivity |].
  destruct b as [| y b]; [discriminate |].
  destruct s as [| z s]; [discriminate |].
  cbn [prefix] in *.
  destruct (Ascii.ascii_dec x y) as [-> |]; [| discriminate].
  destruct (Ascii.ascii_dec y z) as [-> |]; [| discriminate].
  destruct (Ascii.ascii_dec z z) as [_ | N]; [| contradiction].
  exact (IH b s Hab Hbs).
Qed.

(** A text that contains a phrase contains every prefix of the phrase. *)
Lemma contains_of_prefix (k1 k2 s : string) :
  prefix k1 k2 = true -> PyStr.contains k2 s = true -> PyStr.contains k1 s = true.
Proof.
  intros Hp. induction s as [| c s IH]; cbn [PyStr.contains]; intros H.
  - rewrite orb_false_r in *. exact (prefix_trans _ _ _ Hp H).
  - apply orb_true_iff in H. apply orb_true_iff. destruct H as [H | H].
    + left. exact (prefix_trans _ _ _ Hp H).
    + right. exact (IH H).
Qed.

(** The instant a datetime denotes and whether two datetimes are both
    naive or both aware. *)
Definition same_kind (a b : datetime) : bool :=
  match tzinfo a, tzinfo b with
  | None, None | Some _, Some _ => true
  | _, _ => false
  end.

Lemma same_kind_trans (a b c : datetime) :
  same_kind a b = true -> same_kind a c = same_kind b c.
Proof.
  unfold same_kind. destruct (tzinfo a), (tzinfo b), (tzinfo c);
    intros H; try discriminate; reflexivity.
Qed.

Lemma datetime_gt_mixed (a b : datetime) :
  same_kind b a = false -> datetime_gt a b = Raise TypeError.
Proof.
  unfold same_kind, datetime_gt. destruct (tzinfo a), (tzinfo b);
    intros H; try discriminate; reflexivity.
Qed.

Lemma datetime_gt_same (a b : datetime) :
  same_kind b a = true ->
  datetime_gt a b
  = Ok (FreshnessFacts.instant b <? FreshnessFacts.instant a).
Proof.
  unfold same_kind, datetime_gt, FreshnessFacts.instant.
  destruct (tzinfo a), (tzinfo b); intros H; try discriminate; reflexivity.
Qed.

Lemma existsb_pointwise {A : Type} (f g : A -> bool) (l : list A) :
  (forall x, f x = g x) -> existsb f l = existsb g l.
Proof.
  intros H. induction l as [| x l IH]; [reflexivity |].
  cbn [existsb]. rewrite H, IH. reflexivity.
Qed.

Lemma forallb_pointwise {A : Type} (f g : A -> bool) (l : list A) :
  (forall x, f x = g x) -> forallb f l = forallb g l.
Proof.
  intros H. induction l as [| x l IH]; [reflexivity |].
  cbn [forallb]. rewrite H, IH. reflexivity.
Qed.

Lemma max_from_mixed (rest : list datetime) :
  forall best,
    existsb (fun x => negb (same_kind best x)) rest = true ->
    max_from best rest = Raise TypeError.
Proof.
  induction rest as [| x rest IH]; intros best H; [discriminate |].
  cbn [existsb] in H. cbn [max_from].
  destruct (same_kind best x) eqn:Hk.
  - rewrite (datetime_gt_same _ _ Hk). cbn [bind negb orb] in *.
    apply IH.
    destruct (FreshnessFacts.instant best <? FreshnessFacts.instant x); [| exact H].
    rewrite <- H. apply existsb_pointwise. intros y.
    rewrite (same_kind_trans _ _ y Hk). reflexivity.
  - rewrite (datetime_gt_mixed _ _ Hk). reflexivity.
Qed.

Lemma max_from_same (rest : list datetime) :
  forall best,
    forallb (same_kind best) rest = true ->
    exists m,
      max_from best rest = Ok m /\ In m (best :: rest)
      /\ same_kind best m = true
      /\ forall x, In x (best :: rest) ->
           FreshnessFacts.instant x <= FreshnessFacts.instant m.
Proof.
  induction rest as [| x rest IH]; intros best H.
  - exists best. split; [reflexivity |]. split; [left; reflexivity |].
    split; [unfold same_kind; destruct (tzinfo best); reflexivity |].
    intros y [<- | []]. lia.
  - cbn [forallb] in H. apply andb_prop in H. destruct H as [Hk Hrest].
    cbn [max_from]. rewrite (datetime_gt_same _ _ Hk). cbn [bind].
    destruct (FreshnessFacts.instant best <? FreshnessFacts.instant x) eqn:Hlt.
    + assert (Hrest' : forallb (same_kind x) rest = true).
      { rewrite <- Hrest. apply forallb_pointwise. intros y.
        symmetry. apply same_kind_trans. exact Hk. }
      destruct (IH x Hrest') as [m [Hm [Hin [Hkm Hle]]]].
      exists m. split; [exact Hm |]. split; [right; exact Hin |].
      split; [rewrite (same_kind_trans _ _ m Hk); exact Hkm |].
      apply Z.ltb_lt in Hlt.
      intros y [<- | Hy].
      * specialize (Hle x (or_introl eq_refl)). lia.
      * exact (Hle y Hy).
    + destruct (IH best Hrest) as [m [Hm [Hin [Hkm Hle]]]].
      exists m. split; [exact Hm |].
      split; [destruct Hin as [<- | Hin]; [left; reflexivity | right; right; exact Hin] |].
      split; [exact Hkm |].
      apply Z.ltb_ge in Hlt.
      intros y [<- | [<- | Hy]].
      * exact (Hle best (or_introl eq_refl)).
      * specialize (Hle best (or_introl eq_refl)). lia.
      * exact (Hle y (or_intror Hy)).
Qed.

Lemma py_max_mixed (l : list datetime) (a b : datetime) :
  In a l -> In b l -> same_kind a b = false -> py_max l = Raise TypeError.
Proof.
  intros Ha Hb Hk. destruct l as [| x rest]; [destruct Ha |].
  cbn [py_max]. apply max_from_mixed. apply existsb_exists.
  destruct (same_kind x a) eqn:Hxa.
  - exists b. rewrite (same_kind_trans _ _ b Hxa), Hk.
    split; [| reflexivity].
    destruct Hb as [<- | Hb]; [| exact Hb].
    exfalso. rewrite <- (same_kind_trans _ _ x Hxa) in Hk.
    unfold same_kind in Hk. destruct (tzinfo x); discriminate.
  - exists a. split; [| rewrite Hxa; reflexivity].
    destruct Ha as [<- | Ha]; [| exact Ha].
    exfalso. unfold same_kind in Hxa. destruct (tzinfo x); discriminate.
Qed.

Section WithWorld.

Variable fromisoformat : string -> option datetime.
Variable isoformat : datetime -> string.
Variable clock : nat -> Z.
Variable http_get : string -> News.feed.
Variable lower : string -> string.
Variable api : nat -> option exn.

Abbreviation perform := (Handlers.perform api).
Abbreviation cmd_news := (Handlers.cmd_news http_get api).
Abbreviation cmd_price := (Handlers.cmd_price fromisoformat isoformat clock api).
Abbreviation price_response :=
  (Handlers.price_response fromisoformat isoformat clock).
Abbreviation readings := (Handlers.readings fromisoformat clock).
Abbreviation fetch_prices := (Prices.fetch_prices fromisoformat isoformat clock).
Abbreviation keyword_handler :=
  (Handlers.keyword_handler fromisoformat isoformat clock http_get lower api).

(** The frame both command handlers share: the loading message, the
    [try] block, the reply on an exception, the deletion. *)
Definition framed (loading error : string) (body : list call -> run) : run :=
  match perform (Send loading None) [] with
  | (trace, Some e) => (trace, Some e)
  | (trace, None) =>
      finally_delete api (try_except (body trace) (perform (Send error None)))
  end.

(** A [try] block that sends at most one message, and raises if it
    sends none. *)
Definition one_reply (body : list call -> run) : Prop :=
  forall trace,
    (exists text mode e, body trace = ((trace ++ [Send text mode])%list, e))
    \/ (exists e, body trace = (trace, Some e)).

Definition price_body (fetched : result json) (trace : list call) : run :=
  match price_response fetched with
  | Ok response_text => perform (Send response_text None) trace
  | Raise e => (trace, Some e)
  end.

Lemma cmd_news_framed :
  cmd_news
  = framed loading_news news_error
      (perform (news_reply (News.fetch_news http_get))).
Proof. reflexivity. Qed.

Lemma cmd_price_framed (fetched : result json) :
  cmd_price fetched = framed loading_price price_error (price_body fetched).
Proof. reflexivity. Qed.

Lemma news_body_one_reply :
  one_reply (perform (news_reply (News.fetch_news http_get))).
Proof.
  intros trace. left. unfold Handlers.perform, news_reply.
  destruct (News.fetch_news http_get); do 3 eexists; reflexivity.
Qed.

Lemma price_body_one_reply (fetched : result json) :
  one_reply (price_body fetched).
Proof.
  intros trace. unfold price_body.
  destruct (price_response fetched) as [text | e].
  - left. do 3 eexists. reflexivity.
  - right. eexists. reflexivity.
Qed.

Lemma framed_not_sent (loading error : string) (body : list call -> run)
  (e : exn) :
  api 0%nat = Some e ->
  framed loading error body = ([Send loading None], Some e).
Proof. intros H. unfold framed, Handlers.perform. cbn. rewrite H. reflexivity. Qed.

Lemma framed_deletes (loading error : string) (body : list call -> run) :
  api 0%nat = None -> one_reply body ->
  exists replies e,
    framed loading error body
    = ((Send loading None :: replies ++ [Delete_loading])%list, e)
    /\ ~ In Delete_loading replies
    /\ (1 <= List.length replies <= 2)%nat.
Proof.
  intros H0 Hb. unfold framed, Handlers.perform at 1. cbn [app List.length].
  rewrite H0.
  destruct (Hb [Send loading None]) as [[text [mode [e He]]] | [e He]];
    rewrite He; cbn [app].
  - destruct e as [e |]; cbn [try_except].
    + exists [Send text mode; Send error None]. eexists.
      split; [reflexivity |]. split; [| cbn; lia].
      intros [H | [H | []]]; discriminate H.
    + exists [Send text mode]. eexists.
      split; [reflexivity |]. split; [| cbn; lia].
      intros [H | []]; discriminate H.
  - cbn [try_except]. exists [Send error None]. eexists.
    split; [reflexivity |]. split; [| cbn; lia].
    intros [H | []]; discriminate H.
Qed.

Lemma framed_reply (loading error : string) (body : list call -> run)
  (text : string) (mode : option string) :
  api 0%nat = None ->
  body [Send loading None] = ([Send loading None; Send text mode], None) ->
  framed loading error body
  = ([Send loading None; Send text mode; Delete_loading], None).
Proof.
  intros H0 Hb. unfold framed, Handlers.perform at 1. cbn [app List.length].
  rewrite H0, Hb. reflexivity.
Qed.

Lemma framed_error (loading error : string) (body : list call -> run)
  (e : exn) :
  api 0%nat = None -> api 1%nat = None ->
  body [Send loading None] = ([Send loading None], Some e) ->
  framed loading error body
  = ([Send loading None; Send error None; Delete_loading], None).
Proof.
  intros H0 H1 Hb. unfold framed, Handlers.perform at 1. cbn [app List.length].
  rewrite H0, Hb. cbn [try_except]. unfold Handlers.perform at 1.
  cbn [app List.length]. rewrite H1. reflexivity.
Qed.

Lemma price_error_run (fetched : result json) (e : exn) :
  api 0%nat = None -> api 1%nat = None ->
  price_response fetched = Raise e ->
  cmd_price fetched
  = ([Send loading_price None; Send price_error None; Delete_loading], None).
Proof.
  intros H0 H1 Hr. rewrite cmd_price_framed.
  apply (framed_error _ _ _ e H0 H1). unfold price_body. rewrite Hr. reflexivity.
Qed.

Lemma price_reply_run (fetched : result json) (text : string) :
  api 0%nat = None -> api 1%nat = None ->
  price_response fetched = Ok text ->
  cmd_price fetched
  = ([Send loading_price None; Send text None; Delete_loading], None).
Proof.
  intros H0 H1 Hr. rewrite cmd_price_framed.
  apply (framed_reply _ _ _ _ _ H0). unfold price_body. rewrite Hr.
  unfold Handlers.perform. cbn [app List.length]. rewrite H1. reflexivity.
Qed.

Lemma fetch_prices_lacking (doc : json) (label key : string) :
  In (label, key) PRICE_KEYS ->
  PricesFacts.lacks_quote (PricesFacts.entry_of doc key) ->
  exists e, fetch_prices (Ok doc) = Raise e.
Proof.
  intros Hin Hl. unfold Prices.fetch_prices. cbn [bind].
  unfold PricesFacts.entry_of in Hl.
  destruct (PyJson.get doc "current" (JObj [])) as [current | e];
    cbn [bind]; [| exists e; reflexivity].
  destruct (PricesFacts.price_loop_raises fromisoformat clock current PRICE_KEYS
              (ex_intro _ label (ex_intro _ key (conj Hin Hl))) [] 0%nat)
    as [e He].
  rewrite He. exists e. reflexivity.
Qed.

Lemma price_response_fetch_raises (fetched : result json) (e : exn) :
  fetch_prices fetched = Raise e -> price_response fetched = Raise e.
Proof. intros H. unfold Handlers.price_response. rewrite H. reflexivity. Qed.

(** X13. Whatever the feeds and the API do, once the loading message of
    [cmd_news] or [cmd_price] has been sent, the handler makes one or
    two more sends and then, as its last call, deletes the loading
    message; when the loading message cannot be sent nothing else is
    attempted. *)
Theorem loading_message_is_always_deleted (fetched : result json) :
  (api 0%nat = None ->
   (exists replies e,
      cmd_news
      = ((Send loading_news None :: replies ++ [Delete_loading])%list, e)
      /\ ~ In Delete_loading replies
      /\ (1 <= List.length replies <= 2)%nat)
   /\ (exists replies e,
         cmd_price fetched
         = ((Send loading_price None :: replies ++ [Delete_loading])%list, e)
         /\ ~ In Delete_loading replies
         /\ (1 <= List.length replies <= 2)%nat))
  /\ (forall e, api 0%nat = Some e ->
        cmd_news = ([Send loading_news None], Some e)
        /\ cmd_price fetched = ([Send loading_price None], Some e)).
Proof.
  split.
  - intros H0. split.
    + rewrite cmd_news_framed. apply (framed_deletes _ _ _ H0 news_body_one_reply).
    + rewrite cmd_price_framed.
      apply (framed_deletes _ _ _ H0 (price_body_one_reply fetched)).
  - intros e He. split.
    + rewrite cmd_news_framed. apply framed_not_sent, He.
    + rewrite cmd_price_framed. apply framed_not_sent, He.
Qed.

Lemma news_reply_empty (items : list News.headline) :
  news_reply items = Send no_headlines None <-> items = [].
Proof.
  destruct items as [| h r]; cbn [news_reply].
  - split; reflexivity.
  - split; [intros H; inversion H | discriminate].
Qed.

(** X14. When the two sends of [cmd_news] succeed, the handler sends the
    loading message and one reply, deletes the loading message and ends
    without an exception. The reply is the text saying that no headline
    was found exactly when no source contributed a headline, which is
    the case when every feed failed: the error text is not sent for
    failing feeds. *)
Theorem news_reply_when_telegram_works :
  api 0%nat = None -> api 1%nat = None ->
  cmd_news
  = ([Send loading_news None; news_reply (News.fetch_news http_get);
      Delete_loading], None)
  /\ (news_reply (News.fetch_news http_get) = Send no_headlines None
      <-> NewsFacts.contributions http_get = [])
  /\ ((forall source url, In (source, url) NEWS_FEEDS ->
         exists e, http_get url = News.FeedError e) ->
      news_reply (News.fetch_news http_get) = Send no_headlines None)
  /\ ~ In (Send news_error None) (fst cmd_news).
Proof.
  intros H0 H1.
  assert (Hrun : cmd_news
    = ([Send loading_news None; news_reply (News.fetch_news http_get);
        Delete_loading], None)).
  { rewrite cmd_news_framed.
    destruct (news_reply (News.fetch_news http_get)) as [text mode |] eqn:Hr.
    - apply (framed_reply _ _ _ _ _ H0). unfold Handlers.perform.
      cbn [app List.length]. rewrite H1. reflexivity.
    - exfalso. unfold news_reply in Hr.
      destruct (News.fetch_news http_get); discriminate Hr. }
  split; [exact Hrun |]. split; [| split].
  - rewrite news_reply_empty, NewsFacts.fetch_news_contributions. reflexivity.
  - intros Hall. apply news_reply_empty.
    rewrite NewsFacts.fetch_news_contributions. unfold NewsFacts.contributions.
    induction NEWS_FEEDS as [| [source url] rest IH]; [reflexivity |].
    cbn [flat_map fst snd].
    destruct (Hall source url (or_introl eq_refl)) as [e He]. rewrite He.
    cbn [NewsFacts.contribution app]. apply IH.
    intros s u Hin. apply (Hall s u). right. exact Hin.
  - rewrite Hrun. cbn [fst].
    intros [H | [H | [H | []]]]; try discriminate H.
    unfold news_reply in H. destruct (News.fetch_news http_get); discriminate H.
Qed.

Lemma numbered_nth (items : list News.headline) :
  forall idx k t l,
    nth_error items k = Some (t, l) ->
    nth_error (numbered idx items) k
    = Some (Freshness.str_int (idx + Z.of_nat k) ++ ". [" ++ t ++ "](" ++ l ++ ")").
Proof.
  induction items as [| [t0 l0] rest IH]; intros idx k t l H.
  - destruct k; discriminate H.
  - destruct k as [| k]; cbn [nth_error numbered] in *.
    + inversion H; subst. rewrite Z.add_0_r. reflexivity.
    + rewrite (IH (idx + 1) k t l H). do 2 f_equal. f_equal. lia.
Qed.

Lemma numbered_length (items : list News.headline) :
  forall idx, List.length (numbered idx items) = List.length items.
Proof.
  induction items as [| [t l] rest IH]; intros idx; [reflexivity |].
  cbn [numbered List.length]. rewrite IH. reflexivity.
Qed.

(** X15. The reply of [cmd_news] for a digest that is not empty is, in
    Markdown mode, the header line followed by one line per headline,
    joined by line feeds; the line of the headline at position [k]
    (counted from zero) is its number [k + 1], its title in square
    brackets and its link in parentheses, and there are at most nine
    such lines. *)
Theorem news_lines_are_numbered (k : nat) (t l : string) :
  nth_error (News.fetch_news http_get) k = Some (t, l) ->
  news_reply (News.fetch_news http_get)
  = Send (String.concat "
"
            (news_header :: numbered 1 (News.fetch_news http_get)))
         (Some "Markdown")
  /\ nth_error (numbered 1 (News.fetch_news http_get)) k
     = Some (Freshness.str_int (Z.of_nat k + 1) ++ ". [" ++ t ++ "](" ++ l ++ ")")
  /\ List.length (numbered 1 (News.fetch_news http_get))
     = List.length (News.fetch_news http_get)
  /\ (k < List.length (News.fetch_news http_get) <= 9)%nat.
Proof.
  intros H. split; [| split; [| split]].
  - destruct (News.fetch_news http_get); [destruct k; discriminate H | reflexivity].
  - rewrite (numbered_nth _ 1 k t l H). do 2 f_equal. f_equal. lia.
  - apply numbered_length.
  - split.
    + apply nth_error_Some. rewrite H. discriminate.
    + rewrite NewsFacts.fetch_news_contributions.
      exact (NewsFacts.contributions_length http_get).
Qed.

(** X16. When [fetch_prices] raises, for whatever reason, and the sends
    succeed, [cmd_price] answers with the error text and nothing else:
    so it does when the document could not be fetched, and when the
    entry of a configured instrument is absent or lacks its price or
    its timestamp. No price is shown in that case. *)
Theorem price_failure_gives_error_reply (fetched : result json) :
  api 0%nat = None -> api 1%nat = None ->
  (is_ok (fetch_prices fetched) = false ->
   cmd_price fetched
   = ([Send loading_price None; Send price_error None; Delete_loading], None))
  /\ (forall e,
        cmd_price (Raise e)
        = ([Send loading_price None; Send price_error None; Delete_loading], None))
  /\ (forall doc label key,
        In (label, key) PRICE_KEYS ->
        PricesFacts.lacks_quote (PricesFacts.entry_of doc key) ->
        cmd_price (Ok doc)
        = ([Send loading_price None; Send price_error None; Delete_loading], None)).
Proof.
  intros H0 H1. split; [| split].
  - intros Hf. destruct (fetch_prices fetched) as [sp | e] eqn:He; [discriminate |].
    exact (price_error_run fetched e H0 H1 (price_response_fetch_raises _ _ He)).
  - intros e. exact (price_error_run (Raise e) e H0 H1 eq_refl).
  - intros doc label key Hin Hl.
    destruct (fetch_prices_lacking doc label key Hin Hl) as [e He].
    exact (price_error_run (Ok doc) e H0 H1 (price_response_fetch_raises _ _ He)).
Qed.

Lemma mixed_snapshot_fails (fetched : result json)
  (t : string) (res : Prices.snapshot)
  (l1 l2 : string) (q1 q2 : Prices.quote) :
  api 0%nat = None -> api 1%nat = None ->
  fetch_prices fetched = Ok (t, res) ->
  In (l1, q1) res -> In (l2, q2) res ->
  tzinfo (snd q1) = None -> tzinfo (snd q2) <> None ->
  price_response fetched = Raise TypeError
  /\ cmd_price fetched
     = ([Send loading_price None; Send price_error None; Delete_loading], None).
Proof.
  intros H0 H1 Hf Hin1 Hin2 Hn Ha.
  assert (Hr : price_response fetched = Raise TypeError).
  { unfold Handlers.price_response. rewrite Hf. cbn [bind snd].
    rewrite (py_max_mixed _ (snd q1) (snd q2)); [reflexivity | | |].
    - apply (in_map (fun e => snd (snd e)) _ _ Hin1).
    - apply (in_map (fun e => snd (snd e)) _ _ Hin2).
    - unfold same_kind. rewrite Hn. destruct (tzinfo (snd q2)); [reflexivity |].
      exfalso. apply Ha. reflexivity. }
  split; [exact Hr |]. exact (price_error_run fetched TypeError H0 H1 Hr).
Qed.

(** X17. When the snapshot holds a naive timestamp beside an aware one, the
    comparison inside [max] raises and [cmd_price] answers with the
    error text although every price was obtained. A timestamp that does
    not parse is replaced by an aware reading of the clock, so this
    happens as soon as one timestamp of the document parses to a naive
    datetime and another one does not parse. *)
Theorem mixed_timestamps_give_error_reply (fetched : result json)
  (t : string) (res : Prices.snapshot) :
  api 0%nat = None -> api 1%nat = None ->
  fetch_prices fetched = Ok (t, res) ->
  (forall l1 l2 q1 q2,
     In (l1, q1) res -> In (l2, q2) res ->
     tzinfo (snd q1) = None -> tzinfo (snd q2) <> None ->
     price_response fetched = Raise TypeError
     /\ cmd_price fetched
        = ([Send loading_price None; Send price_error None; Delete_loading],
           None))
  /\ (forall doc label1 key1 label2 key2 s1 d1 tsv2,
        fetched = Ok doc ->
        In (label1, key1) PRICE_KEYS -> In (label2, key2) PRICE_KEYS ->
        SnapshotFacts.ts_field doc key1 = Some (JStr s1) ->
        fromisoformat s1 = Some d1 -> tzinfo d1 = None ->
        SnapshotFacts.ts_field doc key2 = Some tsv2 ->
        (forall s, tsv2 = JStr s -> fromisoformat s = None) ->
        cmd_price fetched
        = ([Send loading_price None; Send price_error None; Delete_loading],
           None)).
Proof.
  intros H0 H1 Hf. split.
  - intros l1 l2 q1 q2. exact (mixed_snapshot_fails fetched t res l1 l2 q1 q2 H0 H1 Hf).
  - intros doc label1 key1 label2 key2 s1 d1 tsv2 Hdoc Hin1 Hin2 Hts1 Hiso Hnaive
      Hts2 Hfail.
    subst fetched.
    destruct (SnapshotFacts.snapshot_timestamp fromisoformat isoformat clock
                doc t res label1 key1 _ Hf Hin1 Hts1) as [v1 [k1 [Hq1 _]]].
    destruct (SnapshotFacts.snapshot_timestamp fromisoformat isoformat clock
                doc t res label2 key2 _ Hf Hin2 Hts2) as [v2 [k2 [Hq2 _]]].
    refine (proj2 (mixed_snapshot_fails (Ok doc) t res label1 label2 _ _
                     H0 H1 Hf Hq1 Hq2 _ _)).
    + cbn [snd fst Prices.parse_timestamp]. rewrite Hiso. exact Hnaive.
    + cbn [snd]. unfold Prices.parse_timestamp, Prices.now.
      destruct tsv2 as [| b | n | x | s | l | o]; try discriminate.
      rewrite (Hfail s eq_refl). discriminate.
Qed.

(** The text of the price message. *)
Definition price_message (dollar coin ounce time_diff_str : string) : string :=
  "💵 " ++ "قیمت لحظه‌ای دلار" ++ ": " ++ dollar ++ " تومان" ++ "  
"
  ++ "💵 " ++ "سکه امامی" ++ ": " ++ coin ++ " تومان" ++ "  
"
  ++ "📉 " ++ "انس طلا جهانی" ++ ": " ++ ounce ++ " دلار" ++ "  
"
  ++ "(به‌روزرسانی: " ++ time_diff_str ++ ")".

(** X18. When [fetch_prices] returns and the timestamps of the snapshot are
    all naive or all aware, the snapshot holds the three instruments in
    the configured order, and the message of [cmd_price] has four lines:
    the dollar and the coin in tomans, the ounce in dollars, and the age
    of the latest of the three timestamps, as [format_time_difference]
    renders it at the next reading of the clock. That rendering returns
    when the latest timestamp is less than some 127 years old, and then,
    with working sends, the message is what the user receives. *)
Theorem price_reply_shows_latest_update (fetched : result json)
  (t : string) (res : Prices.snapshot) :
  fetch_prices fetched = Ok (t, res) ->
  (forall la qa lb qb, In (la, qa) res -> In (lb, qb) res ->
     same_kind (snd qa) (snd qb) = true) ->
  exists dollar ts1 coin ts2 ounce ts3 last,
    res = [ ("قیمت لحظه‌ای دلار", (dollar, ts1)); ("سکه امامی", (coin, ts2)); ("انس طلا جهانی", (ounce, ts3)) ]
    /\ In last [ts1; ts2; ts3]
    /\ (forall ts, In ts [ts1; ts2; ts3] ->
          FreshnessFacts.instant ts <= FreshnessFacts.instant last)
    /\ price_response fetched
       = (s <- Freshness.format_time_difference (clock (readings fetched)) last ;;
          Ok (price_message dollar coin ounce s))
    /\ (api 0%nat = None -> api 1%nat = None ->
        clock (readings fetched) - FreshnessFacts.instant last
        < 4026531780000000 ->
        exists s,
          Freshness.format_time_difference (clock (readings fetched)) last = Ok s
          /\ cmd_price fetched
             = ([Send loading_price None;
                 Send (price_message dollar coin ounce s) None;
                 Delete_loading], None)).
Proof.
  intros Hf Hsame.
  destruct fetched as [doc | e]; [| discriminate Hf].
  destruct (PricesProperties.fetch_prices_inv fromisoformat isoformat clock doc t res Hf)
    as [d [[[v1 ts1] k1] [[[v2 ts2] k2] [[[v3 ts3] k3] [Hd [_ [_ [_ Hres]]]]]]]].
  cbn [fst] in Hres. cbv [PRICE_KEYS map fst combine] in Hres.
  assert (Hall : forallb (same_kind ts1) [ts2; ts3] = true).
  { cbn [forallb]. rewrite andb_true_r. apply andb_true_intro. split.
    - apply (Hsame "قیمت لحظه‌ای دلار" (v1, ts1) "سکه امامی" (v2, ts2)); subst res; cbn; auto.
    - apply (Hsame "قیمت لحظه‌ای دلار" (v1, ts1) "انس طلا جهانی" (v3, ts3)); subst res; cbn; auto. }
  destruct (max_from_same [ts2; ts3] ts1 Hall) as [last [Hmax [Hin [_ Hle]]]].
  exists v1, ts1, v2, ts2, v3, ts3, last.
  split; [exact Hres |]. split; [exact Hin |]. split; [exact Hle |].
  assert (Hresp : price_response (Ok doc)
    = (s <- Freshness.format_time_difference (clock (readings (Ok doc))) last ;;
       Ok (price_message v1 v2 v3 s))).
  { unfold Handlers.price_response. rewrite Hf. cbn [bind snd]. rewrite Hres.
    cbn [map fst snd py_max]. rewrite Hmax. cbn [bind].
    destruct (Freshness.format_time_difference (clock (readings (Ok doc))) last)
      as [s | e']; [| reflexivity].
    cbn [bind]. f_equal. unfold price_message, update_line.
    cbn [String.concat app]. unfold price_line.
    cbn [String.eqb Ascii.eqb Bool.eqb andb].
    rewrite !PyStrFacts.append_assoc. reflexivity. }
  split; [exact Hresp |].
  intros H0 H1 Hage.
  destruct (ElapsedTime.format_time_difference_returns _ _ Hage) as [s Hs].
  exists s. split; [exact Hs |].
  apply (price_reply_run (Ok doc) _ H0 H1).
  rewrite Hresp, Hs. reflexivity.
Qed.

Lemma keyword_handler_cases (text : option string) (fetched : result json) :
  keyword_handler text fetched
  = let lowered :=
      lower (PyStr.strip (match text with Some t => t | None => "" end)) in
    if PyStr.contains "اخبار" lowered then cmd_news
    else if PyStr.any_in KEYWORD_TRIGGER_LIST lowered then cmd_price fetched
    else ([Send not_understood None], api 0%nat).
Proof.
  unfold Handlers.keyword_handler. cbv zeta.
  set (lowered := lower (PyStr.strip (match text with Some t => t | None => "" end))).
  destruct (PyStr.contains "اخبار" lowered) eqn:Hn; [reflexivity |].
  destruct (PyStr.contains "اخبار اقتصادی" lowered) eqn:Hn2; [| reflexivity].
  exfalso.
  assert (Hp : prefix "اخبار" "اخبار اقتصادی" = true) by reflexivity.
  rewrite (contains_of_prefix _ _ lowered Hp Hn2) in Hn. discriminate Hn.
Qed.

(** X19. [keyword_handler] looks at the trimmed, lower-cased text of the
    message, the empty text for a message without text. It runs the
    news handler exactly when that text contains the news word (the
    test for the longer phrase adds nothing), also when the text holds a
    price word as well; otherwise it runs the price handler when the
    text contains one of the trigger words, and otherwise sends the
    reply for a message it does not understand. *)
Theorem keyword_dispatch (text : option string) (fetched : result json) :
  let lowered :=
    lower (PyStr.strip (match text with Some t => t | None => "" end)) in
  (PyStr.contains "اخبار" lowered = true -> keyword_handler text fetched = cmd_news)
  /\ (PyStr.contains "اخبار" lowered = false ->
      PyStr.any_in KEYWORD_TRIGGER_LIST lowered = true ->
      keyword_handler text fetched = cmd_price fetched)
  /\ (PyStr.contains "اخبار" lowered = false ->
      PyStr.any_in KEYWORD_TRIGGER_LIST lowered = false ->
      keyword_handler text fetched = ([Send not_understood None], api 0%nat))
  /\ (PyStr.contains "اخبار اقتصادی" lowered = true -> PyStr.contains "اخبار" lowered = true).
Proof.
  cbv zeta. rewrite keyword_handler_cases. cbv zeta.
  split; [| split; [| split]].
  - intros ->. reflexivity.
  - intros -> ->. reflexivity.
  - intros -> ->. reflexivity.
  - apply contains_of_prefix. reflexivity.
Qed.

(** X20. The keyword path does not consult the membership of the sender: for
    a sender whom the gate of [restricted_handler] turns away whatever
    the command, a plain message with the news word runs the news
    handler and one with a trigger word runs the price handler. *)
Theorem keywords_skip_the_gate (text : string) (fetched : result json)
  (l : Gate.lookup) :
  Gate.is_user_member l = false ->
  (forall command,
     Gate.restricted_handler command l
     = [Gate.Answer Gate.join_channel (Some "Markdown")])
  /\ (PyStr.contains "اخبار" (lower (PyStr.strip text)) = true ->
      keyword_handler (Some text) fetched = cmd_news)
  /\ (PyStr.contains "اخبار" (lower (PyStr.strip text)) = false ->
      PyStr.any_in KEYWORD_TRIGGER_LIST (lower (PyStr.strip text)) = true ->
      keyword_handler (Some text) fetched = cmd_price fetched).
Proof.
  intros Hm. split; [| split].
  - intros command. exact (GateFacts.denied_handler command l Hm).
  - intros H. rewrite keyword_handler_cases. cbv zeta. rewrite H. reflexivity.
  - intros H1 H2. rewrite keyword_handler_cases. cbv zeta. rewrite H1, H2.
    reflexivity.
Qed.

End WithWorld.

(** A world for the examples: every call to the API succeeds, the text
    of the message has no cased letter, and only the timestamp of the
    dollar parses, to a naive datetime. *)
Definition api_ok (n : nat) : option exn := None.
Definition unchanged (s : string) : string := s.
Definition naive_first (s : string) : option datetime :=
  if String.eqb s "2025-08-01 10:00:00" then Some (mkDatetime 0 None) else None.

Lemma news_reply_when_telegram_works_witness :
  Handlers.cmd_news NewsLog.isna_only api_ok
  = ([Send loading_news None; news_reply (News.fetch_news NewsLog.isna_only);
      Delete_loading], None).
Proof.
  refine (proj1 (news_reply_when_telegram_works NewsLog.isna_only api_ok _ _));
    reflexivity.
Defined.

Lemma news_lines_are_numbered_witness :
  nth_error (numbered 1 (News.fetch_news NewsLog.isna_only)) 0
  = Some "1. [نرخ ارز](https://www.isna.ir/news/1)".
Proof.
  refine (proj1 (proj2 (news_lines_are_numbered NewsLog.isna_only 0
            "نرخ ارز" "https://www.isna.ir/news/1" _))).
  vm_compute. reflexivity.
Defined.

Lemma price_failure_gives_error_reply_witness :
  Handlers.cmd_price PricesProperties.no_iso PricesProperties.iso_text
    PricesProperties.counting_clock api_ok
    (Ok PricesProperties.document_without_ons)
  = ([Send loading_price None; Send price_error None; Delete_loading], None).
Proof.
  refine (proj1 (price_failure_gives_error_reply PricesProperties.no_iso
            PricesProperties.iso_text PricesProperties.counting_clock api_ok
            (Ok PricesProperties.document_without_ons) _ _) _);
    reflexivity.
Defined.

Lemma mixed_timestamps_give_error_reply_witness :
  Handlers.cmd_price naive_first PricesProperties.iso_text
    PricesProperties.counting_clock api_ok
    (Ok (PricesProperties.document "1,234,560" "987,654,320" "1,950.55"))
  = ([Send loading_price None; Send price_error None; Delete_loading], None).
Proof.
  refine (proj2 (mixed_timestamps_give_error_reply naive_first
            PricesProperties.iso_text PricesProperties.counting_clock api_ok
            (Ok (PricesProperties.document "1,234,560" "987,654,320" "1,950.55"))
            "now"
            [ (fst (nth 0 PRICE_KEYS ("", "")), ("123,456", mkDatetime 0 None));
              (fst (nth 1 PRICE_KEYS ("", "")), ("98,765,432", utc_datetime 0));
              (fst (nth 2 PRICE_KEYS ("", "")), ("1,950.55", utc_datetime 1)) ]
            _ _ _)
            (PricesProperties.document "1,234,560" "987,654,320" "1,950.55")
            (fst (nth 0 PRICE_KEYS ("", ""))) "price_dollar_rl"
            (fst (nth 1 PRICE_KEYS ("", ""))) "sekee_real"
            "2025-08-01 10:00:00" (mkDatetime 0 None)
            (JStr "2025-08-01 10:00:05") _ _ _ _ _ _ _ _).
  - reflexivity.
  - reflexivity.
  - vm_compute. reflexivity.
  - reflexivity.
  - left. reflexivity.
  - right. left. reflexivity.
  - reflexivity.
  - reflexivity.
  - reflexivity.
  - reflexivity.
  - intros s H. inversion H. reflexivity.
Defined.

Lemma price_reply_shows_latest_update_witness :
  exists dollar ts1 coin ts2 ounce ts3 last,
    [ (fst (nth 0 PRICE_KEYS ("", "")), ("123,456", utc_datetime 0));
      (fst (nth 1 PRICE_KEYS ("", "")), ("98,765,432", utc_datetime 1));
      (fst (nth 2 PRICE_KEYS ("", "")), ("1,950.55", utc_datetime 2)) ]
    = [ (fst (nth 0 PRICE_KEYS ("", "")), (dollar, ts1));
        (fst (nth 1 PRICE_KEYS ("", "")), (coin, ts2));
        (fst (nth 2 PRICE_KEYS ("", "")), (ounce, ts3)) ]
    /\ In last [ts1; ts2; ts3]
    /\ (forall ts, In ts [ts1; ts2; ts3] ->
          FreshnessFacts.instant ts <= FreshnessFacts.instant last)
    /\ Handlers.price_response PricesProperties.no_iso PricesProperties.iso_text
         PricesProperties.counting_clock
         (Ok (PricesProperties.document "1,234,560" "987,654,320" "1,950.55"))
       = (s <- Freshness.format_time_difference
                 (PricesProperties.counting_clock
                    (Handlers.readings PricesProperties.no_iso
                       PricesProperties.counting_clock
                       (Ok (PricesProperties.document "1,234,560" "987,654,320"
                              "1,950.55"))))
                 last ;;
          Ok (price_message dollar coin ounce s))
    /\ (api_ok 0%nat = None -> api_ok 1%nat = None ->
        PricesProperties.counting_clock
          (Handlers.readings PricesProperties.no_iso
             PricesProperties.counting_clock
             (Ok (PricesProperties.document "1,234,560" "987,654,320"
                    "1,950.55")))
        - FreshnessFacts.instant last < 4026531780000000 ->
        exists s,
          Freshness.format_time_difference
            (PricesProperties.counting_clock
               (Handlers.readings PricesProperties.no_iso
                  PricesProperties.counting_clock
                  (Ok (PricesProperties.document "1,234,560" "987,654,320"
                         "1,950.55"))))
            last = Ok s
          /\ Handlers.cmd_price PricesProperties.no_iso PricesProperties.iso_text
               PricesProperties.counting_clock api_ok
               (Ok (PricesProperties.document "1,234,560" "987,654,320"
                      "1,950.55"))
             = ([Send loading_price None;
                 Send (price_message dollar coin ounce s) None;
                 Delete_loading], None)).
Proof.
  apply (price_reply_shows_latest_update PricesProperties.no_iso
           PricesProperties.iso_text PricesProperties.counting_clock api_ok
           (Ok (PricesProperties.document "1,234,560" "987,654,320" "1,950.55"))
           "now").
  - vm_compute. reflexivity.
  - intros la qa lb qb [E | [E | [E | []]]] [F | [F | [F | []]]];
      inversion E; inversion F; reflexivity.
Defined.

(** The message the user reads in that world. *)
Example price_message_text :
  Handlers.cmd_price PricesProperties.no_iso PricesProperties.iso_text
    PricesProperties.counting_clock api_ok
    (Ok (PricesProperties.document "1,234,560" "987,654,320" "1,950.55"))
  = ([Send loading_price None;
      Send (price_message "123,456" "98,765,432" "1,950.55" Freshness.moments) None;
      Delete_loading], None).
Proof. vm_compute. reflexivity. Qed.

(** X21. A member is answered only for a message that is exactly one of the
    three commands: for any other text that reaches the handler, such as
    a command with an argument or with the name of the bot attached, it
    sends nothing and runs nothing. The handler never does more than one
    thing. *)
Theorem member_commands_are_exact (text : string) (l : Gate.lookup) :
  Gate.is_user_member l = true ->
  (Gate.restricted_handler text l = []
   <-> text <> "/start" /\ text <> "/price" /\ text <> "/news")
  /\ (forall l', (List.length (Gate.restricted_handler text l') <= 1)%nat).
Proof.
  intros Hm. split.
  - unfold Gate.restricted_handler. rewrite Hm. cbn [negb].
    destruct (String.eqb_spec text "/start") as [E1 | N1].
    { split; [discriminate | intros [H _]; contradiction]. }
    destruct (String.eqb_spec text "/price") as [E2 | N2].
    { split; [discriminate | intros [_ [H _]]; contradiction]. }
    destruct (String.eqb_spec text "/news") as [E3 | N3].
    { split; [discriminate | intros [_ [_ H]]; contradiction]. }
    split; [intros _; repeat split; assumption | reflexivity].
  - intros l'. unfold Gate.restricted_handler.
    destruct (negb (Gate.is_user_member l')); [cbn; lia |].
    destruct (String.eqb text "/start"); [cbn; lia |].
    destruct (String.eqb text "/price"); [cbn; lia |].
    destruct (String.eqb text "/news"); cbn; lia.
Qed.

Lemma member_commands_are_exact_witness :
  Gate.restricted_handler "/price@sarasoobot" (Gate.Status "member") = [].
Proof.
  refine (proj2 (proj1 (member_commands_are_exact "/price@sarasoobot"
            (Gate.Status "member") _)) _).
  - reflexivity.
  - repeat split; discriminate.
Defined.

Lemma keywords_skip_the_gate_witness :
  Handlers.keyword_handler PricesProperties.no_iso PricesProperties.iso_text
    PricesProperties.counting_clock NewsLog.isna_only unchanged api_ok
    (Some " قیمت دلار ") (Raise HTTPError)
  = Handlers.cmd_price PricesProperties.no_iso PricesProperties.iso_text
      PricesProperties.counting_clock api_ok (Raise HTTPError).
Proof.
  refine (proj2 (proj2 (keywords_skip_the_gate PricesProperties.no_iso
            PricesProperties.iso_text PricesProperties.counting_clock
            NewsLog.isna_only unchanged api_ok " قیمت دلار " (Raise HTTPError)
            (Gate.LookupError HTTPError) _)) _ _);
    vm_compute; reflexivity.
Defined.

End HandlersFacts.
